(** * GitHub Autopilot: the webhook gateway, the credential cache and the
      event handlers, embedded from [server.py], [app/auth.py] and
      [app/handlers.py].

    Conventions of the embedding.
    - A Python [str] is a Rocq [string]: a sequence of 8-bit characters, read
      as the code points below 256.  A character is ASCII when its code is
      below 128.  [bytes] are [list Byte.byte].
    - Exceptions are values: a computation returns [Ok v] or [Raise e].
    - Everything a handler does to the outside (the token exchange, the
      repository API, the assistant API) is recorded, in order, in the trace
      of the state; what the outside answers comes from a [world], and so
      does what [json.loads] returns.  The payloads of events and the
      replies of the repository host are typed: they have the shape the host
      gives them.  What the assistant returns is not: it is any JSON value.
    - Prompts and markdown are kept as the values put into their templates;
      the exceptions that building them can raise on ill-typed values are
      kept.
    - The clock ([time.time()]) is read from the world; its values are exact
      rationals. *)

From Stdlib Require Import ZArith QArith Lqa Ascii String List Lia Bool.
From Stdlib.Strings Require Byte.
From stdpp Require Import base gmap strings list.

Local Open Scope Z_scope.

(** ** Python text *)

Module Py.

Definition code (c : ascii) : Z := Z.of_N (N_of_ascii c).
Definition chr (z : Z) : ascii := ascii_of_N (Z.to_N z).

(** [str.isascii()] *)
Definition ascii_char (c : ascii) : bool := code c <? 128.

Fixpoint isascii (s : string) : bool :=
  match s with
  | EmptyString => true
  | String c r => ascii_char c && isascii r
  end.

(** [len(s)] *)
Definition len (s : string) : Z := Z.of_nat (String.length s).

(** [s.startswith(p)] *)
Fixpoint startswith (p s : string) : bool :=
  match p, s with
  | EmptyString, _ => true
  | String a p', String b s' => Ascii.eqb a b && startswith p' s'
  | String _ _, EmptyString => false
  end.

(** [p in s] for two strings: [p] occurs in [s] as a contiguous block. *)
Fixpoint contains (p s : string) : bool :=
  startswith p s ||
  match s with
  | EmptyString => false
  | String _ s' => contains p s'
  end.

(** [s.endswith(p)] *)
Fixpoint endswith (p s : string) : bool :=
  String.eqb p s ||
  match s with
  | EmptyString => false
  | String _ s' => endswith p s'
  end.

(** [s[:n]] for [n >= 0] *)
Fixpoint take (n : nat) (s : string) : string :=
  match n, s with
  | S n', String c r => String c (take n' r)
  | _, _ => EmptyString
  end.

(** [s[n:]] for [n >= 0] *)
Fixpoint drop (n : nat) (s : string) : string :=
  match n, s with
  | S n', String _ r => drop n' r
  | _, _ => s
  end.

(** [str.lower()] on the code points below 256: A-Z and the capital
    letters of Latin-1 (U+00C0..U+00DE, the sign U+00D7 apart) move up by
    32. *)
Definition lower_char (c : ascii) : ascii :=
  let n := code c in
  if ((65 <=? n) && (n <=? 90))
     || ((192 <=? n) && (n <=? 222) && negb (n =? 215))
  then chr (n + 32) else c.

Fixpoint lower (s : string) : string :=
  match s with
  | EmptyString => EmptyString
  | String c r => String (lower_char c) (lower r)
  end.

(** The characters [str.strip()] removes: [str.isspace()] below 256. *)
Definition isspace (c : ascii) : bool :=
  let n := code c in
  ((9 <=? n) && (n <=? 13)) || ((28 <=? n) && (n <=? 32))
  || (n =? 133) || (n =? 160).

Fixpoint lstrip (s : string) : string :=
  match s with
  | String c r => if isspace c then lstrip r else s
  | EmptyString => EmptyString
  end.

Definition rstrip (s : string) : string :=
  String.rev (lstrip (String.rev s)).

Definition strip (s : string) : string := rstrip (lstrip s).

(** [s.split("\n")[0]]: the text before the first line feed. *)
Fixpoint first_line (s : string) : string :=
  match s with
  | EmptyString => EmptyString
  | String c r => if code c =? 10 then EmptyString else String c (first_line r)
  end.

(** [s.replace(old, "")] for a non-empty [old]: the occurrences of [old]
    are removed left to right, without overlap. *)
Fixpoint remove_all_fuel (fuel : nat) (old s : string) : string :=
  match fuel with
  | O => s
  | S fuel' =>
      match s with
      | EmptyString => EmptyString
      | String c r =>
          if startswith old s
          then remove_all_fuel fuel' old (drop (String.length old) s)
          else String c (remove_all_fuel fuel' old r)
      end
  end.

Definition remove_all (old s : string) : string :=
  remove_all_fuel (String.length s) old s.

(** [s.encode()]: UTF-8 of the code points below 256. *)
Definition byte_of_Z (z : Z) : Byte.byte :=
  match Byte.of_N (Z.to_N z) with
  | Some b => b
  | None => Byte.x00
  end.

Fixpoint encode (s : string) : list Byte.byte :=
  match s with
  | EmptyString => []
  | String c r =>
      let n := code c in
      if n <? 128 then byte_of_Z n :: encode r
      else byte_of_Z (Z.lor 192 (Z.shiftr n 6))
             :: byte_of_Z (Z.lor 128 (Z.land n 63)) :: encode r
  end.

End Py.

(** ** [hashlib.sha256] (FIPS 180-4) and [hmac] (RFC 2104) *)

Module Sha256.

Definition w32 (x : Z) : Z := x mod 2 ^ 32.
Definition add32 (x y : Z) : Z := w32 (x + y).
Definition rotr (n x : Z) : Z :=
  Z.lor (Z.shiftr x n) (w32 (Z.shiftl x (32 - n))).
Definition not32 (x : Z) : Z := Z.lxor x 4294967295.

Definition Ch (x y z : Z) : Z := Z.lxor (Z.land x y) (Z.land (not32 x) z).
Definition Maj (x y z : Z) : Z :=
  Z.lxor (Z.lxor (Z.land x y) (Z.land x z)) (Z.land y z).
Definition bsig0 (x : Z) : Z := Z.lxor (Z.lxor (rotr 2 x) (rotr 13 x)) (rotr 22 x).
Definition bsig1 (x : Z) : Z := Z.lxor (Z.lxor (rotr 6 x) (rotr 11 x)) (rotr 25 x).
Definition ssig0 (x : Z) : Z := Z.lxor (Z.lxor (rotr 7 x) (rotr 18 x)) (Z.shiftr x 3).
Definition ssig1 (x : Z) : Z := Z.lxor (Z.lxor (rotr 17 x) (rotr 19 x)) (Z.shiftr x 10).

(** The first sixty-four primes. *)
Definition primes : list Z :=
  [2; 3; 5; 7; 11; 13; 17; 19; 23; 29; 31; 37; 41; 43; 47; 53; 59; 61; 67; 71;
   73; 79; 83; 89; 97; 101; 103; 107; 109; 113; 127; 131; 137; 139; 149; 151;
   157; 163; 167; 173; 179; 181; 191; 193; 197; 199; 211; 223; 227; 229; 233;
   239; 241; 251; 257; 263; 269; 271; 277; 281; 283; 293; 307; 311].

(** The largest [r] with [lo <= r < hi] and [r ^ k <= n], by bisection. *)
Fixpoint root_between (fuel : nat) (k lo hi n : Z) : Z :=
  match fuel with
  | O => lo
  | S fuel' =>
      let mid := (lo + hi) / 2 in
      if mid =? lo then lo
      else if mid ^ k <=? n then root_between fuel' k mid hi n
      else root_between fuel' k lo mid n
  end.

(** The first thirty-two bits of the fractional part of the [k]-th root of
    [p]. *)
Definition root_fraction (k p : Z) : Z :=
  root_between 64 k 0 (2 ^ 36) (p * 2 ^ (32 * k)) mod 2 ^ 32.

(** The round constants: from the cube roots of the primes. *)
Definition K : list Z := Eval vm_compute in map (root_fraction 3) primes.

(** The initial hash value: from the square roots of the first eight. *)
Definition H0 : list Z := Eval vm_compute in map (root_fraction 2) (firstn 8 primes).

(** The working variables a..h. *)
Record regs := Regs { ra : Z; rb : Z; rc : Z; rd : Z; re : Z; rf : Z; rg : Z; rh : Z }.

Definition regs_of (h : list Z) : regs :=
  Regs (nth 0 h 0) (nth 1 h 0) (nth 2 h 0) (nth 3 h 0)
       (nth 4 h 0) (nth 5 h 0) (nth 6 h 0) (nth 7 h 0).

Definition list_of (r : regs) : list Z :=
  [ra r; rb r; rc r; rd r; re r; rf r; rg r; rh r].

(** One round.  [win] holds the sixteen schedule words W_t .. W_t+15; the
    round consumes W_t and appends W_t+16. *)
Definition round (k : Z) (st : regs * list Z) : regs * list Z :=
  let '(r, win) := st in
  let wt := nth 0 win 0 in
  let t1 := add32 (add32 (add32 (add32 (rh r) (bsig1 (re r))) (Ch (re r) (rf r) (rg r))) k) wt in
  let t2 := add32 (bsig0 (ra r)) (Maj (ra r) (rb r) (rc r)) in
  let next := add32 (add32 (add32 (ssig1 (nth 14 win 0)) (nth 9 win 0))
                           (ssig0 (nth 1 win 0))) wt in
  (Regs (add32 t1 t2) (ra r) (rb r) (rc r) (add32 (rd r) t1) (re r) (rf r) (rg r),
   tl win ++ [next]).

Definition compress (h : list Z) (block : list Z) : list Z :=
  let '(r, _) := fold_left (fun st k => round k st) K (regs_of h, block) in
  map (fun p => add32 (fst p) (snd p)) (combine h (list_of r)).

(** Big-endian words of a byte list whose length is a multiple of four. *)
Fixpoint words (bs : list Z) : list Z :=
  match bs with
  | b0 :: b1 :: b2 :: b3 :: r =>
      (b0 * 16777216 + b1 * 65536 + b2 * 256 + b3) :: words r
  | _ => []
  end.

Fixpoint chunks (fuel : nat) (ws : list Z) : list (list Z) :=
  match fuel, ws with
  | S f, _ :: _ => firstn 16 ws :: chunks f (skipn 16 ws)
  | _, _ => []
  end.

Definition be_bytes (n : nat) (x : Z) : list Z :=
  map (fun i => Z.shiftr x (8 * Z.of_nat i) mod 256) (rev (seq 0 n)).

(** Padding: the bit 1, zeros up to 56 mod 64 bytes, the bit length on
    eight bytes. *)
Definition pad (msg : list Z) : list Z :=
  let l := Z.of_nat (length msg) in
  let k := (55 - l) mod 64 in
  msg ++ [128] ++ repeat 0 (Z.to_nat k) ++ be_bytes 8 (8 * l).

Definition digest_Z (msg : list Z) : list Z :=
  let ws := words (pad msg) in
  let h := fold_left compress (chunks (length ws) ws) H0 in
  concat (map (be_bytes 4) h).

Definition Z_of_byte (b : Byte.byte) : Z := Z.of_N (Byte.to_N b).

(** [hashlib.sha256(msg).digest()] *)
Definition digest (msg : list Byte.byte) : list Byte.byte :=
  map Py.byte_of_Z (digest_Z (map Z_of_byte msg)).

End Sha256.

Module Hmac.

Definition block_size : nat := 64.

Definition xor_with (c : Z) (bs : list Byte.byte) : list Byte.byte :=
  map (fun b => Py.byte_of_Z (Z.lxor (Sha256.Z_of_byte b) c)) bs.

(** [hmac.new(key, msg, hashlib.sha256).digest()] *)
Definition digest (key msg : list Byte.byte) : list Byte.byte :=
  let key0 := if Nat.ltb block_size (length key) then Sha256.digest key else key in
  let key1 := key0 ++ repeat Byte.x00 (block_size - length key0) in
  Sha256.digest (xor_with 92 key1 ++ Sha256.digest (xor_with 54 key1 ++ msg)).

Definition hex_digit (n : Z) : ascii :=
  if n <? 10 then Py.chr (48 + n) else Py.chr (87 + n).

Fixpoint hex (bs : list Byte.byte) : string :=
  match bs with
  | [] => EmptyString
  | b :: r =>
      let n := Sha256.Z_of_byte b in
      String (hex_digit (n / 16)) (String (hex_digit (n mod 16)) (hex r))
  end.

(** [hmac.new(key, msg, hashlib.sha256).hexdigest()] *)
Definition hexdigest (key msg : list Byte.byte) : string := hex (digest key msg).

(** [hmac.compare_digest(a, b)] on two [str]: a [TypeError] when either
    holds a character that is not ASCII, equality otherwise. *)
Definition compare_digest (a b : string) : option bool :=
  if Py.isascii a && Py.isascii b then Some (String.eqb a b) else None.

End Hmac.


(** ** Exceptions *)

Inductive exn :=
| HTTPError            (* [raise_for_status], or the transport failing *)
| JSONDecodeError      (* [json.loads] *)
| TypeError
| AttributeError
| UnboundLocalError.

Inductive result (A : Type) :=
| Ok (a : A)
| Raise (e : exn).
Arguments Ok {A} a.
Arguments Raise {A} e.

(** ** JSON values, as [json.loads] builds them *)

Module Json.

Unset Elimination Schemes.
Inductive t :=
| Null
| Bool (b : bool)
| Int (z : Z)
| Float (q : Q)
| Str (s : string)
| Arr (l : list t)
| Obj (d : list (string * t)).
Set Elimination Schemes.

(** [bool(v)] *)
Definition truthy (v : t) : bool :=
  match v with
  | Null => false
  | Bool b => b
  | Int z => negb (z =? 0)
  | Float q => negb (Qnum q =? 0)
  | Str s => negb (String.eqb s "")
  | Arr l => match l with [] => false | _ => true end
  | Obj d => match d with [] => false | _ => true end
  end.

(** A dict is the list of its items in insertion order, keys distinct. *)
Fixpoint lookup (k : string) (d : list (string * t)) : option t :=
  match d with
  | [] => None
  | (k', v) :: r => if String.eqb k k' then Some v else lookup k r
  end.

(** [d[k] = v] *)
Fixpoint store (k : string) (v : t) (d : list (string * t)) : list (string * t) :=
  match d with
  | [] => [(k, v)]
  | (k', v') :: r => if String.eqb k k' then (k, v) :: r else (k', v') :: store k v r
  end.

(** [v.get(k)] on a dict *)
Definition get (v : t) (k : string) : option t :=
  match v with
  | Obj d => lookup k d
  | _ => None
  end.

(** [v == s] for a [str] s *)
Definition eq_str (v : t) (s : string) : bool :=
  match v with
  | Str s' => String.eqb s' s
  | _ => false
  end.

(** *** A reference decoder

    The grammar of RFC 8259 over 8-bit text, for building concrete worlds.
    A number with a fraction or an exponent is kept as the exact decimal
    it denotes; an escape above U+00FF has no 8-bit character and is not
    accepted, and neither are the constants NaN and Infinity. *)

Definition is_ws (c : ascii) : bool :=
  let n := Py.code c in (n =? 32) || (n =? 9) || (n =? 10) || (n =? 13).

Fixpoint skip_ws (s : string) : string :=
  match s with
  | String c r => if is_ws c then skip_ws r else s
  | EmptyString => EmptyString
  end.

Definition digit (c : ascii) : option Z :=
  let n := Py.code c in
  if (48 <=? n) && (n <=? 57) then Some (n - 48) else None.

Definition hex_value (c : ascii) : option Z :=
  let n := Py.code c in
  if (48 <=? n) && (n <=? 57) then Some (n - 48)
  else if (97 <=? n) && (n <=? 102) then Some (n - 87)
  else if (65 <=? n) && (n <=? 70) then Some (n - 55)
  else None.

(** The longest run of digits at the head of [s]: its value, its length
    and the rest. *)
Fixpoint digits (acc : Z) (count : nat) (s : string) : Z * nat * string :=
  match s with
  | String c r =>
      match digit c with
      | Some d => digits (10 * acc + d) (S count) r
      | None => (acc, count, s)
      end
  | EmptyString => (acc, count, s)
  end.

(** An optional minus sign, then 0 or a digit run not starting with 0. *)
Definition integer_part (s : string) : option (bool * Z * string) :=
  let '(neg, s1) :=
    match s with
    | String "-" r => (true, r)
    | _ => (false, s)
    end in
  match s1 with
  | String "0" r => Some (neg, 0, r)
  | _ =>
      let '(v, n, r) := digits 0 0 s1 in
      match n with O => None | _ => Some (neg, v, r) end
  end.

(** An optional point followed by digits: their value and how many. *)
Definition fraction_part (s : string) : option (Z * nat) * string :=
  match s with
  | String "." r =>
      let '(v, n, r') := digits 0 0 r in
      match n with O => (None, s) | _ => (Some (v, n), r') end
  | _ => (None, s)
  end.

(** An optional exponent: e or E, an optional sign, digits. *)
Definition exponent_part (s : string) : option Z * string :=
  match s with
  | String c r =>
      if (Ascii.eqb c "e" || Ascii.eqb c "E")%bool then
        let '(neg, r1) :=
          match r with
          | String "-" r' => (true, r')
          | String "+" r' => (false, r')
          | _ => (false, r)
          end in
        let '(v, n, r2) := digits 0 0 r1 in
        match n with
        | O => (None, s)
        | _ => (Some (if neg then - v else v), r2)
        end
      else (None, s)
  | EmptyString => (None, s)
  end.

Definition pow10 (e : Z) : Q :=
  if 0 <=? e then inject_Z (10 ^ e) else 1 # Z.to_pos (10 ^ (- e)).

Definition number (s : string) : option (t * string) :=
  match integer_part s with
  | None => None
  | Some (neg, i, r) =>
      let '(fr, r1) := fraction_part r in
      let '(ex, r2) := exponent_part r1 in
      match fr, ex with
      | None, None => Some (Int (if neg then - i else i), r2)
      | _, _ =>
          let '(f, n) := match fr with Some p => p | None => (0, O) end in
          let e := match ex with Some e => e | None => 0 end in
          let m := (inject_Z i + inject_Z f * pow10 (- Z.of_nat n))%Q in
          let v := Qred (m * pow10 e)%Q in
          Some (Float (if neg then Qopp v else v), r2)
      end
  end.

Definition quote : ascii := Py.chr 34.
Definition backslash : ascii := Py.chr 92.

(** What an escape letter stands for. *)
Definition escape (e : ascii) : option ascii :=
  if Ascii.eqb e quote then Some quote
  else if Ascii.eqb e backslash then Some backslash
  else if Ascii.eqb e "/" then Some "/"%char
  else if Ascii.eqb e "b" then Some (Py.chr 8)
  else if Ascii.eqb e "f" then Some (Py.chr 12)
  else if Ascii.eqb e "n" then Some (Py.chr 10)
  else if Ascii.eqb e "r" then Some (Py.chr 13)
  else if Ascii.eqb e "t" then Some (Py.chr 9)
  else None.

(** The four hex digits of a [\u] escape, when they name an 8-bit
    character. *)
Definition unicode_escape (s : string) : option (ascii * string) :=
  match s with
  | String a (String b (String c (String d r))) =>
      match hex_value a, hex_value b, hex_value c, hex_value d with
      | Some 0, Some 0, Some x, Some y => Some (Py.chr (16 * x + y), r)
      | _, _, _, _ => None
      end
  | _ => None
  end.

(** The characters of a string after its opening quote. *)
Fixpoint chars (fuel : nat) (s : string) : option (string * string) :=
  match fuel with
  | O => None
  | S fuel' =>
      let continue c r :=
        match chars fuel' r with
        | Some (body, rest) => Some (String c body, rest)
        | None => None
        end in
      match s with
      | EmptyString => None
      | String c r =>
          if Ascii.eqb c quote then Some (EmptyString, r)
          else if Ascii.eqb c backslash then
            match r with
            | String e r' =>
                if Ascii.eqb e "u" then
                  match unicode_escape r' with
                  | Some (c', r'') => continue c' r''
                  | None => None
                  end
                else match escape e with
                     | Some c' => continue c' r'
                     | None => None
                     end
            | EmptyString => None
            end
          else if Py.code c <? 32 then None
          else continue c r
      end
  end.

Fixpoint value (fuel : nat) (s : string) : option (t * string) :=
  match fuel with
  | O => None
  | S fuel' =>
      match s with
      | String "[" r =>
          match skip_ws r with
          | String "]" rest => Some (Arr [], rest)
          | r' => match elements fuel' r' with
                  | Some (l, rest) => Some (Arr l, rest)
                  | None => None
                  end
          end
      | String "{" r =>
          match skip_ws r with
          | String "}" rest => Some (Obj [], rest)
          | r' => match members fuel' [] r' with
                  | Some (d, rest) => Some (Obj d, rest)
                  | None => None
                  end
          end
      | String c r =>
          if Ascii.eqb c quote then
            match chars (S (String.length r)) r with
            | Some (body, rest) => Some (Str body, rest)
            | None => None
            end
          else if Py.startswith "null" s then Some (Null, Py.drop 4 s)
          else if Py.startswith "true" s then Some (Bool true, Py.drop 4 s)
          else if Py.startswith "false" s then Some (Bool false, Py.drop 5 s)
          else number s
      | EmptyString => None
      end
  end
with elements (fuel : nat) (s : string) : option (list t * string) :=
  match fuel with
  | O => None
  | S fuel' =>
      match value fuel' s with
      | None => None
      | Some (v, r) =>
          match skip_ws r with
          | String "]" rest => Some ([v], rest)
          | String "," r' =>
              match elements fuel' (skip_ws r') with
              | Some (l, rest) => Some (v :: l, rest)
              | None => None
              end
          | _ => None
          end
      end
  end
with members (fuel : nat) (acc : list (string * t)) (s : string)
  : option (list (string * t) * string) :=
  match fuel with
  | O => None
  | S fuel' =>
      match s with
      | String c r =>
          if negb (Ascii.eqb c quote) then None else
          match chars (S (String.length r)) r with
          | None => None
          | Some (k, r1) =>
              match skip_ws r1 with
              | String ":" r2 =>
                  match value fuel' (skip_ws r2) with
                  | None => None
                  | Some (v, r3) =>
                      let acc' := store k v acc in
                      match skip_ws r3 with
                      | String "}" rest => Some (acc', rest)
                      | String "," r4 => members fuel' acc' (skip_ws r4)
                      | _ => None
                      end
                  end
              | _ => None
              end
          end
      | EmptyString => None
      end
  end.

(** [json.loads(s)]; [None] is [JSONDecodeError]. *)
Definition loads (s : string) : option t :=
  match value (2 * String.length s + 2) (skip_ws s) with
  | Some (v, r) =>
      match skip_ws r with
      | EmptyString => Some v
      | _ => None
      end
  | None => None
  end.

End Json.

(** Texts with double quotes are written with single ones and converted. *)
Fixpoint dq (s : string) : string :=
  match s with
  | EmptyString => EmptyString
  | String c r => String (if Ascii.eqb c "'" then Json.quote else c) (dq r)
  end.


(** ** The outside: configuration, calls and answers *)

(** Read once from the process environment. *)
Record config := Config {
  APP_ID : string;
  WEBHOOK_SECRET : string
}.

(** A changed file of a pull request, as the repository host lists it. *)
Record file := File {
  filename : string;
  status : option string;
  changes : option Z;
  patch : option string
}.

(** The fields of an issue the handlers read: [title], and [body] (null or
    missing is [None]). *)
Record issue_view := IssueView {
  iv_title : option string;
  iv_body : option string
}.

(** The paths the handlers [GET]. *)
Inductive get_path :=
| PullFiles (repo : string) (number : Z)     (* /repos/{repo}/pulls/{n}/files *)
| IssuePath (repo : string) (number : Z).    (* /repos/{repo}/issues/{n} *)

(** What a successful [GET] of a path decodes to. *)
Definition get_reply (p : get_path) : Type :=
  match p with
  | PullFiles _ _ => list file
  | IssuePath _ _ => issue_view
  end.

(** The paths the handlers [POST] or [PATCH]. *)
Inductive write_path :=
| RepoLabels (repo : string)                   (* /repos/{repo}/labels *)
| IssueLabels (repo : string) (number : Z)     (* /repos/{repo}/issues/{n}/labels *)
| IssueComments (repo : string) (number : Z)   (* /repos/{repo}/issues/{n}/comments *)
| PullPath (repo : string) (number : Z)        (* /repos/{repo}/pulls/{n} *)
| Issues (repo : string).                      (* /repos/{repo}/issues *)

(** The prompts sent to the assistant, kept as the values put into the
    template. *)
Inductive prompt :=
| PolishPrompt (title head base author body files_str patches_str : string)
| ReviewPrompt (fname patch_text : string)
| TriagePrompt (repo title author body : string)
| FixPrompt (ctx_title full_context : string)
| ExplainPrompt (full_context : string)
| ImprovePrompt (full_context : string)
| TestPrompt (full_context : string)
| DocsPrompt (full_context : string).

(** The reply to a command, before the footer is added. *)
Inductive response :=
| FixResponse (r : Json.t)
| ExplainResponse (text : string)
| ImproveResponse (r : Json.t)
| TestResponse (r : Json.t)
| DocsResponse (r : Json.t)
| ReviewResponse.

(** The comments the handlers post, kept as the values put into the
    markdown. *)
Inductive comment :=
| PrAnalysisComment (risk : Json.t) (res : Json.t) (files_changed : nat)
                    (update_note : option string)
| CodeReviewComment (avg : Q) (reviews : list (string * Json.t)) (issues : list Json.t)
| TriageComment (res : Json.t) (priority : Json.t) (questions : option Json.t)
| CommandComment (cmd author : string) (r : response).

(** The JSON bodies of [POST] and [PATCH]. *)
Inductive payload :=
| LabelDef (name color : string)                    (* name, color *)
| LabelList (labels : Json.t)                       (* labels *)
| TriageLabels (labels : list Json.t) (priority : Json.t)
                                                    (* labels, the priority label added *)
| PatchData (d : list (string * Json.t))            (* patch_data *)
| CommentBody (c : comment)                         (* body *)
| AlertIssue (bad : list (string * string)).        (* title, body, labels *)

(** The claims of the App's signed assertion. *)
Record jwt_claims := Jwt { iat : Z; exp : Z; iss : string }.

(** An outbound request. *)
Inductive call :=
| TokenExchange (installation_id : Z) (app_jwt : jwt_claims)
| GhGet (path : get_path) (token : string)
| GhPost (path : write_path) (token : string) (data : payload)
| GhPatch (path : write_path) (token : string) (data : payload)
| GroqAsk (p : prompt) (max_tokens : Z) (fast : bool)
| GroqText (p : prompt) (max_tokens : Z).

(** What the outside answers.  The number is the position of the request
    among all requests of the process, so that the same request may be
    answered differently at different times; [None] is a transport failure
    or a status that [raise_for_status] rejects. *)
Record world := World {
  clock : nat -> Q;                         (* the n-th reading of time.time() *)
  json_loads : string -> option Json.t;     (* json.loads; None: JSONDecodeError *)
  exchange : nat -> Z -> option string;     (* the token of an installation *)
  fetch : nat -> forall p : get_path, option (get_reply p);
  accept : nat -> call -> bool;             (* does a POST or PATCH succeed *)
  complete : nat -> call -> option string   (* the assistant's message content *)
}.

(** ** State and the monad of handlers *)

(** An entry of [_token_cache]. *)
Record cache_entry := CacheEntry { token : string; expires : Q }.

Record state := State {
  token_cache : gmap Z cache_entry;   (* _token_cache *)
  trace : list call;                  (* the requests sent so far, oldest first *)
  ticks : nat                         (* clock readings so far *)
}.

Definition M (A : Type) : Type := state -> result A * state.

Definition ret {A} (a : A) : M A := fun st => (Ok a, st).
Definition raise {A} (e : exn) : M A := fun st => (Raise e, st).
Definition bind {A B} (m : M A) (k : A -> M B) : M B :=
  fun st =>
    match m st with
    | (Ok a, st') => k a st'
    | (Raise e, st') => (Raise e, st')
    end.

(** [try: m  except Exception: h] *)
Definition try_except {A} (m : M A) (h : exn -> M A) : M A :=
  fun st =>
    match m st with
    | (Ok a, st') => (Ok a, st')
    | (Raise e, st') => h e st'
    end.

Declare Scope py_scope.
Delimit Scope py_scope with py.
Notation "'let*' x := m 'in' k" := (bind m (fun x => k))
  (at level 10, x name, m at level 200, k at level 200, only parsing) : py_scope.
Notation "m >> k" := (bind m (fun _ => k))
  (at level 100, k at level 200, right associativity, only parsing) : py_scope.
Local Open Scope py_scope.

(** [for x in xs: body x] *)
Fixpoint for_each {A} (xs : list A) (body : A -> M unit) : M unit :=
  match xs with
  | [] => ret tt
  | x :: r => body x >> for_each r body
  end.

(** Append a request to the trace; the result is its position. *)
Definition send (c : call) : M nat :=
  fun st => (Ok (length (trace st)),
             State (token_cache st) (trace st ++ [c]) (ticks st)).

Definition Qgtb (x y : Q) : bool := negb (Qle_bool x y).

(** [int(x)] of a float: truncation towards zero. *)
Definition Qtrunc (x : Q) : Z := Z.quot (Qnum x) (Zpos (Qden x)).

Section Auth.

Context (cfg : config) (W : world).

(** [time.time()] *)
Definition time : M Q :=
  fun st => (Ok (clock W (ticks st)),
             State (token_cache st) (trace st) (S (ticks st))).

Definition get_jwt : M jwt_claims :=
  let* t := time in
  let now := Qtrunc t in
  ret (Jwt (now - 60) (now + 10 * 60) (APP_ID cfg)).

Definition cache_get (installation_id : Z) : M (option cache_entry) :=
  fun st => (Ok (token_cache st !! installation_id), st).

Definition cache_set (installation_id : Z) (e : cache_entry) : M unit :=
  fun st => (Ok tt, State (<[installation_id := e]> (token_cache st)) (trace st) (ticks st)).

(** The exchange of the signed assertion for an installation token. *)
Definition post_access_tokens (installation_id : Z) (app_jwt : jwt_claims) : M string :=
  let* n := send (TokenExchange installation_id app_jwt) in
  match exchange W n installation_id with
  | Some tok => ret tok
  | None => raise HTTPError
  end.

Definition fetch_installation_token (installation_id : Z) : M string :=
  let* app_jwt := get_jwt in
  let* tok := post_access_tokens installation_id app_jwt in
  let* t := time in
  cache_set installation_id (CacheEntry tok (t + inject_Z (50 * 60))%Q) >>
  ret tok.

Definition get_installation_token (installation_id : Z) : M string :=
  let* cached := cache_get installation_id in
  match cached with
  | Some c =>
      let* t := time in
      if Qgtb (expires c) (t + 60)%Q then ret (token c)
      else fetch_installation_token installation_id
  | None => fetch_installation_token installation_id
  end.

Definition gh_get (path : get_path) (tok : string) : M (get_reply path) :=
  let* n := send (GhGet path tok) in
  match fetch W n path with
  | Some v => ret v
  | None => raise HTTPError
  end.

Definition gh_post (path : write_path) (tok : string) (data : payload) : M unit :=
  let* n := send (GhPost path tok data) in
  if accept W n (GhPost path tok data) then ret tt else raise HTTPError.

Definition gh_patch (path : write_path) (tok : string) (data : payload) : M unit :=
  let* n := send (GhPatch path tok data) in
  if accept W n (GhPatch path tok data) then ret tt else raise HTTPError.

(** [re.search(r'\{[\s\S]*\}', text)]: from the first opening brace to the
    last closing brace after it. *)
Fixpoint upto_last_close (s : string) : option string :=
  match s with
  | EmptyString => None
  | String c r =>
      match upto_last_close r with
      | Some m => Some (String c m)
      | None => if Ascii.eqb c "}" then Some (String c EmptyString) else None
      end
  end.

Fixpoint search_braces (text : string) : option string :=
  match text with
  | EmptyString => None
  | String c r =>
      if Ascii.eqb c "{" then
        match upto_last_close r with
        | Some m => Some (String c m)
        | None => None
        end
      else search_braces r
  end.

(** The last three lines of [groq_ask]: what becomes of the message
    content. *)
Definition parse_reply (text : string) : result Json.t :=
  match search_braces text with
  | Some m =>
      match json_loads W m with
      | Some v => Ok v
      | None => Raise JSONDecodeError
      end
  | None => Ok (Json.Obj [("raw"%string, Json.Str text)])
  end.

Definition groq_ask (p : prompt) (max_tokens : Z) (fast : bool) : M Json.t :=
  let* n := send (GroqAsk p max_tokens fast) in
  match complete W n (GroqAsk p max_tokens fast) with
  | None => raise HTTPError
  | Some text =>
      match parse_reply text with
      | Ok v => ret v
      | Raise e => raise e
      end
  end.

Definition groq_text (p : prompt) (max_tokens : Z) : M string :=
  let* n := send (GroqText p max_tokens) in
  match complete W n (GroqText p max_tokens) with
  | None => raise HTTPError
  | Some text => ret (Py.strip text)
  end.

End Auth.

(** ** Operations on values whose type is only known at run time *)

Definition lift {A} (r : result A) : M A :=
  fun st => (r, st).

Definition bindR {A B} (r : result A) (k : A -> result B) : result B :=
  match r with
  | Ok a => k a
  | Raise e => Raise e
  end.

Notation "'let?' x := m 'in' k" := (bindR m (fun x => k))
  (at level 10, x name, m at level 200, k at level 200, only parsing) : py_scope.

(** [for x in xs: check x], for a check that only raises or passes. *)
Fixpoint all_ok {A} (check : A -> result unit) (xs : list A) : result unit :=
  match xs with
  | [] => Ok tt
  | x :: r => let? _ := check x in all_ok check r
  end.

Module Dyn.

Import Json.

(** [v.get(k)]: only a dict has [get]. *)
Definition get (v : Json.t) (k : string) : result (option Json.t) :=
  match v with
  | Obj d => Ok (Json.lookup k d)
  | _ => Raise AttributeError
  end.

(** [v.get(k, default)] *)
Definition get_or (v : Json.t) (k : string) (default : Json.t) : result Json.t :=
  let? o := get v k in
  Ok (match o with Some x => x | None => default end).

(** Use of [v] as a key of a dict literal: lists and dicts do not hash. *)
Definition hashable (v : Json.t) : result unit :=
  match v with
  | Arr _ | Obj _ => Raise TypeError
  | _ => Ok tt
  end.

(** A method of [str] ([capitalize], [upper]) called on [v]. *)
Definition str_method (v : Json.t) : result unit :=
  match v with
  | Str _ => Ok tt
  | _ => Raise AttributeError
  end.

(** [v[:n]]: strings and lists can be sliced; nothing else can (a dict
    raises as well, [TypeError] up to Python 3.11). *)
Definition slice (n : nat) (v : Json.t) : result Json.t :=
  match v with
  | Str s => Ok (Str (Py.take n s))
  | Arr l => Ok (Arr (firstn n l))
  | _ => Raise TypeError
  end.

Fixpoint characters (s : string) : list Json.t :=
  match s with
  | EmptyString => []
  | String c r => Str (String c EmptyString) :: characters r
  end.

(** The items [v] yields when iterated over. *)
Definition iterate (v : Json.t) : result (list Json.t) :=
  match v with
  | Arr l => Ok l
  | Str s => Ok (characters s)
  | Obj d => Ok (map (fun kv => Str (fst kv)) d)
  | _ => Raise TypeError
  end.

(** [v] as a summand: numbers, with [True] as 1 and [False] as 0. *)
Definition number (v : Json.t) : result Q :=
  match v with
  | Int z => Ok (inject_Z z)
  | Float q => Ok q
  | Bool b => Ok (if b then 1%Q else 0%Q)
  | _ => Raise TypeError
  end.

End Dyn.

(** ** [app/handlers.py] *)

Definition SKIP_AUTHORS : list string :=
  ["dependabot[bot]"; "renovate[bot]"; "github-actions[bot]"]%string.

Definition member (s : string) (l : list string) : bool :=
  existsb (String.eqb s) l.

(** [sep.join(parts)] *)
Fixpoint join (sep : string) (parts : list string) : string :=
  match parts with
  | [] => EmptyString
  | [p] => p
  | p :: r => (p +:+ sep +:+ join sep r)%string
  end.

Definition newline : string := String (Py.chr 10) EmptyString.

(** [s or default] *)
Definition or_else (s default : string) : string :=
  if String.eqb s "" then default else s.

(** [o.get(k, "")] for an optional field holding a string. *)
Definition text_or_empty (o : option string) : string :=
  match o with Some s => s | None => EmptyString end.

(** A dict from text to text, as the list of its items. *)
Fixpoint store_text (k v : string) (d : list (string * string)) : list (string * string) :=
  match d with
  | [] => [(k, v)]
  | (k', v') :: r =>
      if String.eqb k k' then (k, v) :: r else (k', v') :: store_text k v r
  end.

(** *** Events *)

Record pull_request := PullRequest {
  pr_number : Z;
  pr_login : string;            (* pr["user"]["login"] *)
  pr_title : string;
  pr_body : option string;      (* None: null or missing *)
  pr_head_ref : string;
  pr_base_ref : string
}.

Record pull_request_event := PullRequestEvent {
  pre_action : option string;
  pre_pull_request : pull_request;
  pre_repo : string;            (* payload["repository"]["full_name"] *)
  pre_installation : Z          (* payload["installation"]["id"] *)
}.

Record issue := Issue {
  is_number : Z;
  is_login : string;
  is_title : string;
  is_body : option string;
  is_pull_request : bool        (* "pull_request" in issue *)
}.

Record issues_event := IssuesEvent {
  ie_action : option string;
  ie_issue : issue;
  ie_repo : string;
  ie_installation : Z
}.

Record issue_comment_event := IssueCommentEvent {
  ce_action : option string;
  ce_body : string;             (* comment.get("body", "") *)
  ce_login : string;            (* comment["user"]["login"] *)
  ce_repo : string;
  ce_issue_number : Z;
  ce_installation : Z
}.

Record commit := Commit {
  commit_id : string;
  message : string
}.

Record push_event := PushEvent {
  pu_ref : option string;
  pu_commits : list commit;     (* payload.get("commits", []) *)
  pu_repo : string;
  pu_installation : option Z    (* payload.get("installation", {}).get("id") *)
}.

Definition action_is (a : option string) (s : string) : bool :=
  match a with
  | Some a' => String.eqb a' s
  | None => false
  end.

(** *** The labels of [_ensure_labels].  Their names end in a pictograph,
    a character above U+00FF, left out of the text here. *)
Definition LABELS : list (string * string) :=
  [ ("excellence: approved", "0075ca");
    ("excellence: needs work", "e4e669");
    ("excellence: critical", "d93f0b");
    ("type: feat", "84b6eb");
    ("type: fix", "fc2929");
    ("type: refactor", "fbca04");
    ("type: docs", "c5def5");
    ("type: test", "bfd4f2");
    ("priority: high", "e11d48");
    ("priority: medium", "f97316");
    ("priority: low", "6b7280");
    ("bug", "d73a4a");
    ("enhancement", "a2eeef");
    ("help wanted", "008672");
    ("good first issue", "7057ff") ]%string.

Definition REVIEWABLE : list string :=
  [".py"; ".js"; ".ts"; ".jsx"; ".tsx"; ".go"; ".java"; ".sql"; ".rs"]%string.

Definition CRITICAL_LABEL : Json.t := Json.Str "excellence: critical".

(** The patch the pull-request handler sends: [patch_data]. *)
Definition patch_data (title body : string) (res : Json.t)
  : result (list (string * Json.t)) :=
  let? improved := Dyn.get res "improved_title" in
  let d1 :=
    match improved with
    | Some v =>
        if Json.truthy v && negb (Json.eq_str v title)
        then Json.store "title" v [] else []
    | None => []
    end in
  if String.eqb body "" || (Py.len (Py.strip body) <? 30) then
    let? description := Dyn.get_or res "description" (Json.Str body) in
    Ok (Json.store "body" description d1)
  else Ok d1.

(** [reviewable] of [_run_code_review] *)
Definition is_reviewable (f : file) : bool :=
  existsb (fun ext => Py.endswith ext (filename f)) REVIEWABLE
  && negb (match status f with Some s => String.eqb s "removed" | None => false end)
  && (0 <? match changes f with Some n => n | None => 0 end).

Definition reviewable (files : list file) : list file :=
  firstn 4 (filter is_reviewable files).

(** [sum(r.get("score", 7) for _, r in reviews)] *)
Fixpoint sum_scores (acc : Q) (reviews : list (string * Json.t)) : result Q :=
  match reviews with
  | [] => Ok acc
  | (_, r) :: rest =>
      let? s := Dyn.get_or r "score" (Json.Int 7) in
      let? q := Dyn.number s in
      sum_scores (acc + q)%Q rest
  end.

(** [all_issues]: the items of every review's [issues], in order. *)
Fixpoint gather_issues (reviews : list (string * Json.t)) : result (list Json.t) :=
  match reviews with
  | [] => Ok []
  | (_, r) :: rest =>
      let? v := Dyn.get_or r "issues" (Json.Arr []) in
      let? items := Dyn.iterate v in
      let? more := gather_issues rest in
      Ok (items ++ more)
  end.

(** [i.get("severity") == "critical"] *)
Definition is_critical (i : Json.t) : result bool :=
  let? sev := Dyn.get i "severity" in
  Ok (match sev with Some v => Json.eq_str v "critical" | None => false end).

Fixpoint critical_issues (issues : list Json.t) : result (list Json.t) :=
  match issues with
  | [] => Ok []
  | i :: rest =>
      let? c := is_critical i in
      let? more := critical_issues rest in
      Ok (if c then i :: more else more)
  end.

(** What rendering one entry of [issues_md] requires of the issue. *)
Definition render_issue (i : Json.t) : result unit :=
  let? sev := Dyn.get_or i "severity" (Json.Str "minor") in
  let? _ := Dyn.hashable sev in
  let? _ := Dyn.str_method sev in
  let? fx := Dyn.get i "fix" in
  match fx with
  | Some v => if Json.truthy v then let? _ := Dyn.slice 200 v in Ok tt else Ok tt
  | None => Ok tt
  end.

(** Everything between the loop of [_run_code_review] and its [try]: the
    comment and whether a critical issue was found. *)
Definition review_comment (reviews : list (string * Json.t)) : result (comment * bool) :=
  let? total := sum_scores 0 reviews in
  let avg := (total / inject_Z (Z.of_nat (length reviews)))%Q in
  let? all_issues := gather_issues reviews in
  let? critical := critical_issues all_issues in
  let? _ := all_ok render_issue (firstn 6 all_issues) in
  Ok (CodeReviewComment avg reviews all_issues,
      match critical with [] => false | _ => true end).

(** *** The commit-message pattern of the push handler

    [^(feat|fix|...|revert)(\(.+\))?(!)?: .+] with [re.IGNORECASE], tried at
    the start of a line.  On 8-bit text a letter of the pattern matches
    itself and its capital; [.] is any character but the line feed. *)

Definition TYPES : list string :=
  ["feat"; "fix"; "docs"; "style"; "refactor"; "perf"; "test"; "chore";
   "ci"; "build"; "revert"]%string.

Fixpoint startswith_ci (p s : string) : bool :=
  match p, s with
  | EmptyString, _ => true
  | String a p', String b s' => Ascii.eqb a (Py.lower_char b) && startswith_ci p' s'
  | String _ _, EmptyString => false
  end.

Definition dot (c : ascii) : bool := negb (Py.code c =? 10).

(** [: .+] *)
Definition colon_tail (s : string) : bool :=
  match s with
  | String ":" (String " " (String c _)) => dot c
  | _ => false
  end.

(** [(!)?: .+] *)
Definition bang_tail (s : string) : bool :=
  colon_tail s ||
  match s with
  | String "!" r => colon_tail r
  | _ => false
  end.

(** Inside the parentheses, one character already read: more characters,
    then a closing parenthesis after which the tail matches. *)
Fixpoint scope_close (s : string) : bool :=
  match s with
  | EmptyString => false
  | String c r => (Ascii.eqb c ")" && bang_tail r) || (dot c && scope_close r)
  end.

(** [(\(.+\))?(!)?: .+] *)
Definition scope_tail (s : string) : bool :=
  match s with
  | String "(" (String c r) => (dot c && scope_close r) || bang_tail s
  | _ => bang_tail s
  end.

(** [CONVENTIONAL.match(line)] *)
Definition CONVENTIONAL (line : string) : bool :=
  existsb (fun t => startswith_ci t line && scope_tail (Py.drop (String.length t) line)) TYPES.

(** The commits the push handler reports: [bad]. *)
Definition is_bad (c : commit) : bool :=
  negb (CONVENTIONAL (Py.first_line (message c)))
  && negb (Py.startswith "Merge" (message c)).

Definition bad_commits (commits : list commit) : list (string * string) :=
  map (fun c => (Py.take 7 (commit_id c), Py.first_line (message c)))
      (filter is_bad (firstn 10 commits)).

(** *** The command of a comment and its context *)

Definition COMMANDS : list string :=
  ["/fix"; "/explain"; "/improve"; "/test"; "/docs"; "/review"]%string.

(** [next((c for c in COMMANDS if c in body.lower()), None)] *)
Definition find_command (body : string) : option string :=
  List.find (fun c => Py.contains c (Py.lower body)) COMMANDS.

Definition fence : string := "```".

(** [\w] on 8-bit text *)
Definition is_word (c : ascii) : bool :=
  let n := Py.code c in
  ((48 <=? n) && (n <=? 57)) || ((65 <=? n) && (n <=? 90)) || (n =? 95)
  || ((97 <=? n) && (n <=? 122))
  || (n =? 170) || (n =? 178) || (n =? 179) || (n =? 181) || (n =? 185) || (n =? 186)
  || ((188 <=? n) && (n <=? 190))
  || ((192 <=? n) && (n <=? 214)) || ((216 <=? n) && (n <=? 246)) || (248 <=? n).

Fixpoint skip_word (s : string) : string :=
  match s with
  | String c r => if is_word c then skip_word r else s
  | EmptyString => EmptyString
  end.

(** The text before and after the first occurrence of [p] in [s]. *)
Fixpoint split_at (p s : string) : option (string * string) :=
  if Py.startswith p s then Some (EmptyString, Py.drop (String.length p) s)
  else match s with
       | EmptyString => None
       | String c r =>
           match split_at p r with
           | Some (a, b) => Some (String c a, b)
           | None => None
           end
       end.

(** The pattern of a fenced block tried at the head of [s]: the fence, word
    characters, a line feed, then the shortest text followed by a line feed
    and a fence. *)
Definition code_at (s : string) : option string :=
  if Py.startswith fence s then
    match skip_word (Py.drop 3 s) with
    | String c r =>
        if Py.code c =? 10 then
          match split_at (newline +:+ fence) r with
          | Some (g, _) => Some g
          | None => None
          end
        else None
    | EmptyString => None
    end
  else None.

(** Group 1 of the first match of the fenced-block pattern in [s]. *)
Fixpoint code_block (s : string) : option string :=
  match code_at s with
  | Some g => Some g
  | None =>
      match s with
      | EmptyString => None
      | String _ r => code_block r
      end
  end.

(** [re.sub] of every fence-to-fence stretch by the empty string. *)
Fixpoint strip_fences (fuel : nat) (s : string) : string :=
  match fuel with
  | O => s
  | S fuel' =>
      if Py.startswith fence s then
        match split_at fence (Py.drop 3 s) with
        | Some (_, rest) => strip_fences fuel' rest
        | None => s
        end
      else match s with
           | EmptyString => EmptyString
           | String c r => String c (strip_fences fuel' r)
           end
  end.

(** [full_context] *)
Definition full_context (body cmd ctx_body ctx_title : string) : string :=
  let code := match code_block body with Some g => g | None => EmptyString end in
  let context := Py.strip (Py.remove_all cmd (strip_fences (S (String.length body)) body)) in
  or_else code (or_else context (or_else ctx_body ctx_title)).

(** What rendering the replies requires of the assistant's answer. *)
Definition render_fix (r : Json.t) : result unit :=
  let? _ := Dyn.get r "root_cause" in Ok tt.

Definition render_improvement (imp : Json.t) : result unit :=
  let? area := Dyn.get_or imp "area" (Json.Str "") in
  let? _ := Dyn.str_method area in
  let? example := Dyn.get imp "example" in
  match example with
  | Some v => if Json.truthy v then let? _ := Dyn.slice 300 v in Ok tt else Ok tt
  | None => Ok tt
  end.

Definition render_improve (r : Json.t) : result unit :=
  let? imps := Dyn.get_or r "improvements" (Json.Arr []) in
  let? first := Dyn.slice 4 imps in
  let? items := Dyn.iterate first in
  all_ok render_improvement items.

Definition render_test (t : Json.t) : result unit :=
  let? code := Dyn.get_or t "code" (Json.Str "") in
  let? _ := Dyn.slice 400 code in
  Ok tt.

Definition render_tests (r : Json.t) : result unit :=
  let? tests := Dyn.get_or r "tests" (Json.Arr []) in
  let? first := Dyn.slice 3 tests in
  let? items := Dyn.iterate first in
  all_ok render_test items.

Definition render_docs (r : Json.t) : result unit :=
  let? _ := Dyn.get r "docstring" in Ok tt.

Section Handlers.

Context (cfg : config) (W : world).

(** [try: m  except Exception: pass] *)
Definition swallow (m : M unit) : M unit :=
  try_except m (fun _ => ret tt).

Definition _ensure_labels (repo tok : string) : M unit :=
  for_each LABELS (fun l =>
    swallow (gh_post W (RepoLabels repo) tok (LabelDef (fst l) (snd l)))).

(** One turn of the loop of [_run_code_review]: the review of a file, kept
    when its score is truthy. *)
Definition review_file (f : file) : M (option (string * Json.t)) :=
  let fname := filename f in
  let patch_text := Py.take 1500 (text_or_empty (patch f)) in
  let* res := groq_ask W (ReviewPrompt fname patch_text) 800 true in
  let* score := lift (Dyn.get res "score") in
  ret (match score with
       | Some v => if Json.truthy v then Some (fname, res) else None
       | None => None
       end).

Fixpoint review_loop (fs : list file) (reviews : list (string * Json.t))
  : M (list (string * Json.t)) :=
  match fs with
  | [] => ret reviews
  | f :: rest =>
      let* o := review_file f in
      review_loop rest (match o with Some r => reviews ++ [r] | None => reviews end)
  end.

(** The end of [_run_code_review], from [if not reviews] on: the comment
    and the label, for the reviews the loop kept. *)
Definition publish_review (repo : string) (pr_number : Z) (tok : string)
                          (reviews : list (string * Json.t)) : M unit :=
  match reviews with
  | [] => ret tt
  | _ =>
      let* cc := lift (review_comment reviews) in
      swallow
        (gh_post W (IssueComments repo pr_number) tok (CommentBody (fst cc)) >>
         if snd cc
         then gh_post W (IssueLabels repo pr_number) tok
                      (LabelList (Json.Arr [CRITICAL_LABEL]))
         else ret tt)
  end.

Definition _run_code_review (repo : string) (pr_number : Z) (tok : string)
                            (files : list file) (author : string) : M unit :=
  match reviewable files with
  | [] => ret tt
  | fs =>
      let* reviews := review_loop fs [] in
      publish_review repo pr_number tok reviews
  end.

(** The first half of [handle_pull_request], once its guards are passed:
    the token, the labels, the changed files and the assistant's analysis.
    [files] is [None] when the listing failed, which leaves the variable
    unbound. *)
Definition pr_analyse (payload : pull_request_event)
  : M (string * option (list file) * Json.t) :=
  let pr := pre_pull_request payload in
  let repo := pre_repo payload in
  let body := text_or_empty (pr_body pr) in
  let* tok := get_installation_token cfg W (pre_installation payload) in
  _ensure_labels repo tok >>
  let* files := try_except
                  (let* fs := gh_get W (PullFiles repo (pr_number pr)) tok in ret (Some fs))
                  (fun _ => ret None) in
  let file_names :=
    match files with
    | Some fs => map filename (firstn 15 fs)
    | None => []
    end in
  let patches :=
    match files with
    | Some fs =>
        fold_left (fun d f => store_text (filename f)
                                (Py.take 800 (text_or_empty (patch f))) d)
                  (firstn 5 fs) []
    | None => []
    end in
  let files_str := or_else (join newline file_names) "unknown" in
  let patches_str :=
    join (newline +:+ newline)
         (map (fun kv => "# " +:+ fst kv +:+ newline +:+ snd kv) patches) in
  let* res := groq_ask W
                (PolishPrompt (pr_title pr) (pr_head_ref pr) (pr_base_ref pr) (pr_login pr)
                   (or_else (Py.take 500 body) "(empty)") files_str
                   (Py.take 2000 patches_str))
                1500 false in
  ret (tok, files, res).

(** The second half: the patch, the labels, the comment, the review. *)
Definition pr_apply (payload : pull_request_event) (tok : string)
                    (files : option (list file)) (res : Json.t) : M unit :=
  let pr := pre_pull_request payload in
  let repo := pre_repo payload in
  let pr_number := pr_number pr in
  let body := text_or_empty (pr_body pr) in
  let file_names :=
    match files with
    | Some fs => map filename (firstn 15 fs)
    | None => []
    end in
  let* pd := lift (patch_data (pr_title pr) body res) in
  match pd with
  | [] => ret tt
  | _ => swallow (gh_patch W (PullPath repo pr_number) tok (PatchData pd))
  end >>
  let* labels := lift (Dyn.get_or res "labels" (Json.Arr [])) in
  let* risk := lift (Dyn.get_or res "risk_level" (Json.Str "low")) in
  (if Json.truthy labels
   then swallow (gh_post W (IssueLabels repo pr_number) tok (LabelList labels))
   else ret tt) >>
  lift (Dyn.hashable risk) >>
  let update_note :=
    match pd with
    | [] => None
    | _ => Some (match Json.lookup "body" pd with
                 | Some _ => "title + description"
                 | None => "title"
                 end)
    end in
  lift (Dyn.str_method risk) >>
  gh_post W (IssueComments repo pr_number) tok
    (CommentBody (PrAnalysisComment risk res (length file_names) update_note)) >>
  match files with
  | Some fs => _run_code_review repo pr_number tok fs (pr_login pr)
  | None => raise UnboundLocalError
  end.

Definition handle_pull_request (payload : pull_request_event) : M unit :=
  if negb (action_is (pre_action payload) "opened"
           || action_is (pre_action payload) "reopened") then ret tt else
  if member (pr_login (pre_pull_request payload)) SKIP_AUTHORS then ret tt else
  let* ctx := pr_analyse payload in
  pr_apply payload (fst (fst ctx)) (snd (fst ctx)) (snd ctx).

Definition handle_issues (payload : issues_event) : M unit :=
  if negb (action_is (ie_action payload) "opened") then ret tt else
  let issue := ie_issue payload in
  let repo := ie_repo payload in
  let issue_number := is_number issue in
  let author := is_login issue in
  let body := text_or_empty (is_body issue) in
  if member author SKIP_AUTHORS || is_pull_request issue then ret tt else
  let* tok := get_installation_token cfg W (ie_installation payload) in
  _ensure_labels repo tok >>
  let* res := groq_ask W
                (TriagePrompt repo (is_title issue) author
                   (or_else (Py.take 1500 body) "(empty)"))
                1500 false in
  let* labels := lift (Dyn.get_or res "labels" (Json.Arr [])) in
  let* priority := lift (Dyn.get_or res "priority" (Json.Str "medium")) in
  lift (Dyn.hashable priority) >>
  let* items := lift (match labels with
                      | Json.Arr l => Ok l
                      | _ => Raise AttributeError
                      end) in
  swallow (gh_post W (IssueLabels repo issue_number) tok (TriageLabels items priority)) >>
  let* type := lift (Dyn.get_or res "type" (Json.Str "")) in
  lift (Dyn.hashable type) >>
  let* complexity := lift (Dyn.get_or res "complexity" (Json.Str "moderate")) in
  lift (Dyn.hashable complexity) >>
  let* questions := lift (Dyn.get_or res "questions" (Json.Arr [])) in
  let* needs_info := lift (Dyn.get res "needs_info") in
  let* q_section :=
    lift (if match needs_info with Some v => Json.truthy v | None => false end
             && Json.truthy questions
          then let? first := Dyn.slice 2 questions in
               let? _ := Dyn.iterate first in
               Ok (Some first)
          else Ok None) in
  let* shown_type := lift (Dyn.get_or res "type" (Json.Str "issue")) in
  lift (Dyn.str_method shown_type) >>
  lift (Dyn.str_method priority) >>
  lift (Dyn.str_method complexity) >>
  gh_post W (IssueComments repo issue_number) tok
    (CommentBody (TriageComment res priority q_section)).

(** The reply to a recognised command. *)
Definition respond (cmd ctx_title context : string) : M (option response) :=
  if String.eqb cmd "/fix" then
    let* r := groq_ask W (FixPrompt ctx_title context) 1500 true in
    lift (render_fix r) >> ret (Some (FixResponse r))
  else if String.eqb cmd "/explain" then
    let* text := groq_text W (ExplainPrompt context) 800 in
    ret (Some (ExplainResponse text))
  else if String.eqb cmd "/improve" then
    let* r := groq_ask W (ImprovePrompt context) 1500 true in
    lift (render_improve r) >> ret (Some (ImproveResponse r))
  else if String.eqb cmd "/test" then
    let* r := groq_ask W (TestPrompt context) 1500 true in
    lift (render_tests r) >> ret (Some (TestResponse r))
  else if String.eqb cmd "/docs" then
    let* r := groq_ask W (DocsPrompt context) 1500 true in
    lift (render_docs r) >> ret (Some (DocsResponse r))
  else if String.eqb cmd "/review" then ret (Some ReviewResponse)
  else ret None.

Definition handle_issue_comment (payload : issue_comment_event) : M unit :=
  if negb (action_is (ce_action payload) "created") then ret tt else
  let body := ce_body payload in
  let author := ce_login payload in
  let repo := ce_repo payload in
  let issue_number := ce_issue_number payload in
  if member author SKIP_AUTHORS || Py.endswith "[bot]" author then ret tt else
  match find_command body with
  | None => ret tt
  | Some cmd =>
      let* tok := get_installation_token cfg W (ce_installation payload) in
      let* ctx := try_except
                    (let* issue := gh_get W (IssuePath repo issue_number) tok in
                     ret (text_or_empty (iv_title issue), text_or_empty (iv_body issue)))
                    (fun _ => ret (EmptyString, EmptyString)) in
      let ctx_title := fst ctx in
      let ctx_body := snd ctx in
      let context := full_context body cmd ctx_body ctx_title in
      let* r := respond cmd ctx_title (Py.take 2000 context) in
      match r with
      | Some resp =>
          gh_post W (IssueComments repo issue_number) tok
            (CommentBody (CommandComment cmd author resp))
      | None => ret tt
      end
  end.

Definition handle_push (payload : push_event) : M unit :=
  let ref := text_or_empty (pu_ref payload) in
  if negb (existsb (fun b => Py.contains b ref) ["/main"; "/master"]%string)
  then ret tt else
  let commits := pu_commits payload in
  let repo := pu_repo payload in
  match pu_installation payload with
  | None => ret tt
  | Some installation_id =>
      if installation_id =? 0 then ret tt else
      let bad := bad_commits commits in
      match bad with
      | [] => ret tt
      | _ =>
          let* tok := get_installation_token cfg W installation_id in
          swallow
            (if 3 <=? Z.of_nat (length bad)
             then gh_post W (Issues repo) tok (AlertIssue bad)
             else ret tt)
      end
  end.

End Handlers.

(** ** [server.py] *)

(** A delivery: the event type of the header with the payload the host
    sends for it. *)
Inductive delivery :=
| PullRequestDelivery (payload : pull_request_event)
| IssuesDelivery (payload : issues_event)
| IssueCommentDelivery (payload : issue_comment_event)
| PushDelivery (payload : push_event)
| InstallationDelivery
| PingDelivery
| OtherDelivery (event : string).

Record request := Request {
  signature_header : option string;   (* X-Hub-Signature-256, when sent *)
  data : list Byte.byte;              (* request.data *)
  event : delivery
}.

Section Server.

Context (cfg : config) (W : world).

Definition expected_signature (payload : list Byte.byte) : string :=
  ("sha256=" +:+ Hmac.hexdigest (Py.encode (WEBHOOK_SECRET cfg)) payload)%string.

Definition verify_signature (payload : list Byte.byte) (signature : option string)
  : result bool :=
  if String.eqb (WEBHOOK_SECRET cfg) "" then Ok true else
  match Hmac.compare_digest (expected_signature payload) (text_or_empty signature) with
  | Some b => Ok b
  | None => Raise TypeError
  end.

Definition dispatch (d : delivery) : M unit :=
  match d with
  | PullRequestDelivery p => handle_pull_request cfg W p
  | IssuesDelivery p => handle_issues cfg W p
  | IssueCommentDelivery p => handle_issue_comment cfg W p
  | PushDelivery p => handle_push cfg W p
  | InstallationDelivery | PingDelivery | OtherDelivery _ => ret tt
  end.

(** The status of the response of [webhook]. *)
Definition webhook (req : request) : M Z :=
  let sig := text_or_empty (signature_header req) in
  let* valid :=
    if String.eqb (WEBHOOK_SECRET cfg) "" then ret true
    else lift (verify_signature (data req) (Some sig)) in
  if negb valid then ret 401 else
  try_except (dispatch (event req) >> ret 200) (fun _ => ret 500).

(** What the framework answers: an exception that leaves the view is a
    server error. *)
Definition serve (req : request) (st : state) : Z * state :=
  match webhook req st with
  | (Ok status, st') => (status, st')
  | (Raise _, st') => (500, st')
  end.

End Server.

(** ** Observations on traces, and worlds to run the handlers in *)

Definition is_exchange (c : call) : bool :=
  match c with TokenExchange _ _ => true | _ => false end.

Definition is_patch (c : call) : bool :=
  match c with GhPatch _ _ _ => true | _ => false end.

(** A [POST] or [PATCH] to the repository host. *)
Definition is_write (c : call) : bool :=
  match c with GhPost _ _ _ | GhPatch _ _ _ => true | _ => false end.

(** The creation of an issue. *)
Definition is_alert (c : call) : bool :=
  match c with GhPost (Issues _) _ _ => true | _ => false end.

Definition is_assistant (c : call) : bool :=
  match c with GroqAsk _ _ _ | GroqText _ _ => true | _ => false end.


(** The state of a process that has just started. *)
Definition boot : state := State ∅ [] 0.

(** [c] with bit [k] inverted. *)
Definition flip_bit (k : Z) (c : ascii) : ascii :=
  Py.chr (Z.lxor (Py.code c) (2 ^ k)).

(** [s] with bit [k] of its character at position [i] inverted. *)
Fixpoint flip_at (i : nat) (k : Z) (s : string) : string :=
  match s, i with
  | EmptyString, _ => EmptyString
  | String c r, O => String (flip_bit k c) r
  | String c r, S i' => String c (flip_at i' k r)
  end.

(** A world in which nothing outside answers, with the reference decoder
    and a clock that stands still. *)
Definition silent : world :=
  World (fun _ => 0%Q) Json.loads (fun _ _ => None) (fun _ _ => None)
        (fun _ _ => false) (fun _ _ => None).

(** [silent], but the assistant answers every request with [text]. *)
Definition answering (text : string) : world :=
  World (fun _ => 0%Q) Json.loads (fun _ _ => None) (fun _ _ => None)
        (fun _ _ => false) (fun _ _ => Some text).

Definition cfg_key : config := Config "12345" "key".


Definition plain_comment : issue_comment_event :=
  IssueCommentEvent (Some "created"%string) "Thanks, this fixes it for me!"
                    "octocat" "octo/repo" 7 99.

Definition fox : list Byte.byte :=
  Py.encode "The quick brown fox jumps over the lazy dog".

Definition fox_header : string :=
  "sha256=f7bc83f430538424b13298e6aa6fb143ef4d59a14946175997479dbc2d1a3cd8".

(** The assertion signed at clock reading [t]. *)
Definition jwt_at (cfg : config) (t : Q) : jwt_claims :=
  Jwt (Qtrunc t - 60) (Qtrunc t + 10 * 60) (APP_ID cfg).

(** A state after one more reading of the clock. *)
Definition tick (st : state) : state :=
  State (token_cache st) (trace st) (S (ticks st)).

(** A world whose token endpoint issues [ghs_1] to every installation, with
    the given clock. *)
Definition issuing (readings : nat -> Q) : world :=
  World readings Json.loads (fun _ _ => Some "ghs_1"%string) (fun _ _ => None)
        (fun _ _ => false) (fun _ _ => None).

(** A process holding a token for installation 7 that expires at 3000. *)
Definition warm : state := State (<[7 := CacheEntry "ghs_0" 3000]> ∅) [] 0.



(** A clock that reads 0 twice and 2950 from then on. *)
Definition late_clock (n : nat) : Q := if Nat.ltb n 2 then 0%Q else 2950%Q.

Definition patches (tr : list call) : list call := filter (fun c => is_patch c) tr.
Definition alerts (tr : list call) : list call := filter (fun c => is_alert c) tr.

(** [m] only adds requests that satisfy [P] to the trace. *)
Definition emits {A} (P : call -> Prop) (m : M A) : Prop :=
  forall st, exists l, trace (snd (m st)) = trace st ++ l /\ Forall P l.

(** The two conditions of the pull-request patch: the body is empty or
    short once stripped; the assistant proposes a title, and another one. *)
Definition short_body (body : string) : bool :=
  String.eqb body "" || (Py.len (Py.strip body) <? 30).

Definition new_title (title : string) (d : list (string * Json.t)) : bool :=
  match Json.lookup "improved_title" d with
  | Some v => Json.truthy v && negb (Json.eq_str v title)
  | None => false
  end.


(** The request of the review of one file. *)
Definition review_call (f : file) : call :=
  GroqAsk (ReviewPrompt (filename f) (Py.take 1500 (text_or_empty (patch f)))) 800 true.

(** A state with one more request sent. *)
Definition sent (c : call) (st : state) : state :=
  State (token_cache st) (trace st ++ [c]) (ticks st).



(** The condition of the patch as the specification words it: the body is
    empty or shorter than 30 characters, or the suggested title is not the
    current one. *)
Definition spec_patch_condition (title body : string) (d : list (string * Json.t)) : bool :=
  (String.eqb body "" || (Py.len body <? 30))
  || match Json.lookup "improved_title" d with
     | Some v => negb (Json.eq_str v title)
     | None => false
     end.

(** A world for a pull request: tokens are issued, the pull request has no
    changed file, every write succeeds, and the assistant proposes the
    title the pull request already has. *)
Definition same_title_world : world :=
  World (fun _ => 0%Q) Json.loads (fun _ _ => Some "ghs_1"%string)
        (fun _ p => match p return option (get_reply p) with
                    | PullFiles _ _ => Some []
                    | IssuePath _ _ => None
                    end)
        (fun _ _ => true)
        (fun _ _ => Some (dq "{'improved_title': 'Fix login', 'description': 'Summary'}")).

Definition same_title_answer : list (string * Json.t) :=
  [("improved_title", Json.Str "Fix login"); ("description", Json.Str "Summary")]%string.

(** Forty spaces. *)
Definition blank_body : string :=
  "                                        ".

(** A pull request opened with a body of forty spaces. *)
Definition blank_pull_request : pull_request_event :=
  PullRequestEvent (Some "opened"%string)
    (PullRequest 12 "octocat" "Fix login" (Some blank_body) "fix-login" "main")
    "octo/repo" 99.

(** The same with a body of substance. *)
Definition described_pull_request : pull_request_event :=
  PullRequestEvent (Some "opened"%string)
    (PullRequest 12 "octocat" "fix login"
       (Some "This change repairs the login form for users with long names."%string)
       "fix-login" "main")
    "octo/repo" 99.

(** The condition of the alert as the specification words it. *)
Definition spec_alert_condition (payload : push_event) : bool :=
  (Py.endswith "/main" (text_or_empty (pu_ref payload))
   || Py.endswith "/master" (text_or_empty (pu_ref payload)))
  && (3 <=? Z.of_nat (length (bad_commits (pu_commits payload)))).

Definition three_bad_commits : list commit :=
  [Commit "1111111aaaa" "wip"; Commit "2222222bbbb" "more stuff";
   Commit "3333333cccc" "Update README"; Commit "4444444dddd" "feat: add login"]%string.

(** A push to main from a repository hook: the payload names no
    installation. *)
Definition push_without_installation : push_event :=
  PushEvent (Some "refs/heads/main"%string) three_bad_commits "octo/repo" None.

Definition push_to_main : push_event :=
  PushEvent (Some "refs/heads/main"%string) three_bad_commits "octo/repo" (Some 99).

(** A push to a branch whose name only starts like main. *)
Definition push_to_maintenance : push_event :=
  PushEvent (Some "refs/heads/maintenance"%string) three_bad_commits "octo/repo" (Some 99).

Definition push_to_feature : push_event :=
  PushEvent (Some "refs/heads/feature/login"%string) three_bad_commits "octo/repo" (Some 99).


(** A message of the assistant with two objects in it. *)
Definition two_objects : string := dq "Here: {'a': 1} and {'b': 2}".

(** Every request to the assistant in sight is the one of the fix. *)
Definition only_fix (c : call) : bool :=
  match c with
  | GroqAsk (FixPrompt _ _) _ _ => true
  | GroqAsk _ _ _ | GroqText _ _ => false
  | _ => true
  end.

Definition fix_and_explain : issue_comment_event :=
  IssueCommentEvent (Some "created"%string) "Please /explain and then /FIX this"
                    "octocat" "octo/repo" 7 99.


(** The world of [same_title_world], but the assistant proposes an empty
    title. *)
Definition empty_title_world : world :=
  World (fun _ => 0%Q) Json.loads (fun _ _ => Some "ghs_1"%string)
        (fun _ p => match p return option (get_reply p) with
                    | PullFiles _ _ => Some []
                    | IssuePath _ _ => None
                    end)
        (fun _ _ => true)
        (fun _ _ => Some (dq "{'improved_title': '', 'description': 'Summary'}")).

(** ** Further observations and scenarios *)

(** The status [webhook] answers with once the signature has passed. *)
Definition status_of (r : result unit) : Z :=
  match r with
  | Ok _ => 200
  | Raise _ => 500
  end.


(** A configuration without a webhook secret. *)
Definition cfg_open : config := Config "12345" "".

(** The requests that create the labels of a repository, in order. *)
Definition label_posts (repo tok : string) : list call :=
  map (fun l => GhPost (RepoLabels repo) tok (LabelDef (fst l) (snd l))) LABELS.

(** A comment of the bot itself, holding the name of a command. *)
Definition bot_comment : issue_comment_event :=
  IssueCommentEvent (Some "created"%string) "Fix posted. `/fix` by GitHub Autopilot"
                    "github-autopilot[bot]" "octo/repo" 7 99.

(** An issue that is a pull request, as the issues API lists it. *)
Definition pull_request_issue : issues_event :=
  IssuesEvent (Some "opened"%string)
    (Issue 12 "octocat" "Fix login" (Some "see the diff"%string) true) "octo/repo" 99.

(** A pull request opened by an excluded author. *)
Definition dependabot_pull_request : pull_request_event :=
  PullRequestEvent (Some "opened"%string)
    (PullRequest 13 "dependabot[bot]" "Bump requests" None "deps" "main") "octo/repo" 99.

(** A process holding tokens for installations 7 and 8, the first close to
    its expiry. *)
Definition two_tokens : state :=
  State (<[8 := CacheEntry "ghs_8" 9000]> (<[7 := CacheEntry "ghs_0" 30]> ∅)) [] 0.

(** A world where the label endpoint refuses every request. *)
Definition refusing : world :=
  World (fun _ => 0%Q) Json.loads (fun _ _ => Some "ghs_1"%string) (fun _ _ => None)
        (fun _ _ => false) (fun _ _ => None).

(** A comment posted on an issue or pull request. *)
Definition is_comment_post (c : call) : bool :=
  match c with
  | GhPost (IssueComments _ _) _ (CommentBody _) => true
  | _ => false
  end.

Definition comment_posts (tr : list call) : list call :=
  filter (fun c => is_comment_post c) tr.

(** [m] cannot return normally. *)
Definition never_completes {A} (m : M A) : Prop :=
  forall st, exists e, fst (m st) = Raise e.

(** The risk level the analysis comment shows. *)
Definition risk_of (d : list (string * Json.t)) : Json.t :=
  match Json.lookup "risk_level" d with
  | Some v => v
  | None => Json.Str "low"
  end.

Definition is_str (v : Json.t) : bool :=
  match v with Json.Str _ => true | _ => false end.

(** A world where the listing of the changed files fails and every write is
    refused, while the assistant gives a full analysis. *)
Definition no_listing : world :=
  World (fun _ => 0%Q) Json.loads (fun _ _ => Some "ghs_1"%string) (fun _ _ => None)
        (fun _ c => is_comment_post c)
        (fun _ _ => Some (dq "{'improved_title': 'Fix login', 'risk_level': 'high'}")).

(** The same, but the assistant leaves the risk level null. *)
Definition null_risk : world :=
  World (fun _ => 0%Q) Json.loads (fun _ _ => Some "ghs_1"%string)
        (fun _ p => match p return option (get_reply p) with
                    | PullFiles _ _ => Some []
                    | IssuePath _ _ => None
                    end)
        (fun _ _ => true)
        (fun _ _ => Some (dq "{'improved_title': 'Fix login', 'risk_level': null}")).

(** The end of [pr_apply]: the analysis comment, then the review. *)
Definition analysis_tail (W : world) (payload : pull_request_event) (tok : string)
                         (files : option (list file)) (d : list (string * Json.t))
                         (update_note : option string) : M unit :=
  bind (gh_post W (IssueComments (pre_repo payload) (pr_number (pre_pull_request payload)))
          tok
          (CommentBody
             (PrAnalysisComment (risk_of d) (Json.Obj d)
                (length (match files with
                         | Some fs => map filename (firstn 15 fs)
                         | None => []
                         end))
                update_note)))
       (fun _ => match files with
                 | Some fs => _run_code_review W (pre_repo payload)
                                (pr_number (pre_pull_request payload))
                                tok fs (pr_login (pre_pull_request payload))
                 | None => raise UnboundLocalError
                 end).

(** Six changed files, four of them open to review. *)
Definition six_files : list file :=
  [File "a.py" (Some "modified"%string) (Some 3) None;
   File "b.md" (Some "modified"%string) (Some 9) None;
   File "c.js" (Some "removed"%string) (Some 2) None;
   File "d.ts" (Some "added"%string) (Some 1) None;
   File "e.go" (Some "modified"%string) (Some 4) None;
   File "f.rs" (Some "modified"%string) (Some 5) None]%string.

(** Every character of [s] satisfies [f]. *)
Fixpoint every (f : ascii -> bool) (s : string) : bool :=
  match s with
  | EmptyString => true
  | String c r => f c && every f r
  end.

(** The number of requests of a kind in a trace. *)
Definition calls (q : call -> bool) (tr : list call) : nat :=
  length (filter (fun c => q c) tr).

(** [m] adds at most [n] requests of the kind [q] to the trace. *)
Definition costs {A} (q : call -> bool) (n : nat) (m : M A) : Prop :=
  forall st, exists l, trace (snd (m st)) = trace st ++ l /\ (calls q l <= n)%nat.

(** What a delivery may cost: questions to the assistant, and writes to
    the repository. *)
Definition budget (d : delivery) : nat * nat :=
  match d with
  | PullRequestDelivery _ => (5, 20)
  | IssuesDelivery _ => (1, 17)
  | IssueCommentDelivery _ => (1, 1)
  | PushDelivery _ => (0, 1)
  | InstallationDelivery | PingDelivery | OtherDelivery _ => (0, 0)
  end%nat.


(** A request for a review in a comment. *)
Definition review_request : issue_comment_event :=
  IssueCommentEvent (Some "created"%string) "/review please" "octocat" "octo/repo" 7 99.

(** The texts of a prompt that are cut before they are sent, with their
    sizes. *)
Definition bounded_prompt (p : prompt) : Prop :=
  match p with
  | PolishPrompt _ _ _ _ body _ patches_str =>
      (String.length body <= 500)%nat /\ (String.length patches_str <= 2000)%nat
  | ReviewPrompt _ patch_text => (String.length patch_text <= 1500)%nat
  | TriagePrompt _ _ _ body => (String.length body <= 1500)%nat
  | FixPrompt _ context | ExplainPrompt context | ImprovePrompt context
  | TestPrompt context | DocsPrompt context => (String.length context <= 2000)%nat
  end.

Definition bounded (c : call) : Prop :=
  match c with
  | GroqAsk p _ _ | GroqText p _ => bounded_prompt p
  | _ => True
  end.

(** The field of an analysis, with the default the handler gives. *)
Definition field (k : string) (default : Json.t) (d : list (string * Json.t)) : Json.t :=
  match Json.lookup k d with Some v => v | None => default end.

Definition is_arr (v : Json.t) : bool :=
  match v with Json.Arr _ => true | _ => false end.

Definition needs_info (d : list (string * Json.t)) : bool :=
  match Json.lookup "needs_info" d with Some v => Json.truthy v | None => false end.

(** A world where everything is granted and the assistant triages with
    three questions. *)
Definition triaging : world :=
  World (fun _ => 0%Q) Json.loads (fun _ _ => Some "ghs_1"%string) (fun _ _ => None)
        (fun _ _ => true)
        (fun _ _ => Some (dq "{'labels': ['bug'], 'priority': 'high', 'needs_info': true, 'questions': ['Which version?', 'Which OS?', 'Logs?']}")).

Definition crash_report : issues_event :=
  IssuesEvent (Some "opened"%string)
    (Issue 5 "octocat" "Crash on start" (Some "It crashes."%string) false) "octo/repo" 99.
(** * Properties *)

(** ** The library models against known values *)

Example sha256_abc :
  Hmac.hex (Sha256.digest (Py.encode "abc"))
  = "ba7816bf8f01cfea414140de5dae2223b00361a396177a9cb410ff61f20015ad"%string.
Proof. vm_compute. reflexivity. Qed.

Example hmac_fox :
  Hmac.hexdigest (Py.encode "key") (Py.encode "The quick brown fox jumps over the lazy dog")
  = "f7bc83f430538424b13298e6aa6fb143ef4d59a14946175997479dbc2d1a3cd8"%string.
Proof. vm_compute. reflexivity. Qed.

Example loads_object :
  Json.loads (dq "{ 'a': 1 }") = Some (Json.Obj [("a"%string, Json.Int 1)]).
Proof. vm_compute. reflexivity. Qed.

Example loads_trailing_text : Json.loads (dq "{'a': 1} and {'b': 2}") = None.
Proof. vm_compute. reflexivity. Qed.

Example conventional_examples :
  map CONVENTIONAL ["feat: add"; "Fix(api)!: drop"; "fix:"; "update readme"; "feature: x"]%string
  = [true; true; false; false; false].
Proof. vm_compute. reflexivity. Qed.

(** ** The assistant's reply *)

Section Reply.

Context (W : world).

Lemma contains_char_cons a c r :
  Py.contains (String a EmptyString) (String c r)
  = Ascii.eqb a c || Py.contains (String a EmptyString) r.
Proof. simpl. rewrite andb_true_r. reflexivity. Qed.

Lemma upto_last_close_none s :
  Py.contains "}" s = false -> upto_last_close s = None.
Proof.
  induction s as [|c r IH]; [reflexivity|].
  rewrite contains_char_cons. intros H.
  apply orb_false_iff in H as [Hc Hr]. simpl. rewrite (IH Hr).
  rewrite Ascii.eqb_sym, Hc. reflexivity.
Qed.

Lemma search_braces_no_open s :
  Py.contains "{" s = false -> search_braces s = None.
Proof.
  induction s as [|c r IH]; [reflexivity|].
  rewrite contains_char_cons. intros H.
  apply orb_false_iff in H as [Hc Hr]. simpl.
  rewrite Ascii.eqb_sym, Hc. auto.
Qed.

Lemma search_braces_no_close s :
  Py.contains "}" s = false -> search_braces s = None.
Proof.
  induction s as [|c r IH]; [reflexivity|].
  rewrite contains_char_cons. intros H.
  apply orb_false_iff in H as [Hc Hr]. simpl.
  rewrite (upto_last_close_none r Hr), (IH Hr).
  destruct (Ascii.eqb c "{"); reflexivity.
Qed.

Lemma upto_last_close_cons c r :
  upto_last_close (String c r)
  = match upto_last_close r with
    | Some m => Some (String c m)
    | None => if Ascii.eqb c "}" then Some (String c EmptyString) else None
    end.
Proof. reflexivity. Qed.

Lemma search_braces_cons c r :
  search_braces (String c r)
  = if Ascii.eqb c "{"
    then match upto_last_close r with
         | Some m => Some (String c m)
         | None => None
         end
    else search_braces r.
Proof. reflexivity. Qed.

Lemma upto_last_close_span m b :
  Py.contains "}" b = false ->
  upto_last_close (m +:+ "}" +:+ b) = Some (m +:+ "}").
Proof.
  intros Hb. induction m as [|c m IH].
  - change ("" +:+ "}" +:+ b) with (String "}" b).
    rewrite upto_last_close_cons, (upto_last_close_none b Hb). reflexivity.
  - change (String c m +:+ "}" +:+ b) with (String c (m +:+ "}" +:+ b)).
    rewrite upto_last_close_cons, IH. reflexivity.
Qed.

(** The pattern takes the text from the first opening brace to the last
    closing brace, whatever lies between. *)
Lemma search_braces_span a m b :
  Py.contains "{" a = false -> Py.contains "}" b = false ->
  search_braces (a +:+ "{" +:+ m +:+ "}" +:+ b) = Some ("{" +:+ m +:+ "}").
Proof.
  intros Ha Hb. induction a as [|c a IH].
  - change ("" +:+ "{" +:+ m +:+ "}" +:+ b) with (String "{" (m +:+ "}" +:+ b)).
    rewrite search_braces_cons, (upto_last_close_span m b Hb). reflexivity.
  - rewrite contains_char_cons in Ha. apply orb_false_iff in Ha as [Hc Ha].
    change (String c a +:+ "{" +:+ m +:+ "}" +:+ b)
      with (String c (a +:+ "{" +:+ m +:+ "}" +:+ b)).
    rewrite search_braces_cons, Ascii.eqb_sym, Hc. apply IH, Ha.
Qed.

Lemma search_braces_span_witness :
  search_braces ("prefix " +:+ "{" +:+ "a} {b" +:+ "}" +:+ " suffix")
  = Some ("{" +:+ "a} {b" +:+ "}").
Proof. apply (search_braces_span "prefix " "a} {b" " suffix"); reflexivity. Defined.

(** A text without an opening brace, or without a closing one, comes back
    wrapped under the key [raw]; nothing is raised. *)
Lemma parse_reply_no_braces text :
  Py.contains "{" text = false \/ Py.contains "}" text = false ->
  parse_reply W text = Ok (Json.Obj [("raw"%string, Json.Str text)]).
Proof.
  intros [H|H]; unfold parse_reply.
  - rewrite (search_braces_no_open _ H). reflexivity.
  - rewrite (search_braces_no_close _ H). reflexivity.
Qed.

(** Whatever the decoder raises on the matched stretch leaves
    [groq_ask]: the call has no handler around [json.loads]. *)
Lemma groq_ask_decode_error p max_tokens fast st text m :
  complete W (length (trace st)) (GroqAsk p max_tokens fast) = Some text ->
  search_braces text = Some m ->
  json_loads W m = None ->
  fst (groq_ask W p max_tokens fast st) = Raise JSONDecodeError.
Proof.
  intros Hc Hs Hl. unfold groq_ask, bind, send, parse_reply. simpl.
  rewrite Hc, Hs, Hl. reflexivity.
Qed.

End Reply.

Lemma groq_ask_decode_error_witness :
  fst (groq_ask (answering "{oops}") (ExplainPrompt "x") 800 true boot)
  = Raise JSONDecodeError.
Proof.
  apply (groq_ask_decode_error (answering "{oops}") (ExplainPrompt "x") 800 true boot
           "{oops}" "{oops}"); reflexivity.
Defined.

Lemma parse_reply_no_braces_witness :
  parse_reply silent "no json here" = Ok (Json.Obj [("raw"%string, Json.Str "no json here")]).
Proof. apply (parse_reply_no_braces silent "no json here"). left. reflexivity. Defined.

(** The example of the specification: the object between the braces is
    what comes back. *)
Example parse_reply_embedded_object :
  parse_reply silent (dq "prefix { 'a': 1 } suffix")
  = Ok (Json.Obj [("a"%string, Json.Int 1)]).
Proof. vm_compute. reflexivity. Qed.

(** C1, at the failing input.  The assistant answers with two objects in
    one message.  The pattern runs from the first opening brace to the last
    closing brace, so the decoder is given both objects and the words
    between them, not the first object; it rejects that text, and
    [groq_ask] raises [JSONDecodeError] although nothing went wrong on the
    wire. *)
Theorem groq_ask_raises_on_parse_failure :
  search_braces two_objects = Some (dq "{'a': 1} and {'b': 2}")
  /\ Json.loads (dq "{'a': 1}") = Some (Json.Obj [("a"%string, Json.Int 1)])
  /\ Json.loads (dq "{'a': 1} and {'b': 2}") = None
  /\ groq_ask (answering two_objects) (ExplainPrompt "x") 800 true boot
     = (Raise JSONDecodeError, sent (GroqAsk (ExplainPrompt "x") 800 true) boot).
Proof. vm_compute. repeat split; reflexivity. Qed.

(** ** The command of a comment *)

Lemma find_first_match {A} (f : A -> bool) pre x post :
  f x = true -> (forall y, In y pre -> f y = false) ->
  List.find f (pre ++ x :: post) = Some x.
Proof.
  intros Hx Hpre. induction pre as [|y pre IH]; simpl.
  - rewrite Hx. reflexivity.
  - rewrite (Hpre y (or_introl eq_refl)). apply IH.
    intros z Hz. apply Hpre. right. exact Hz.
Qed.

Lemma find_no_match {A} (f : A -> bool) l :
  (forall y, In y l -> f y = false) -> List.find f l = None.
Proof.
  induction l as [|y l IH]; intros H; simpl; [reflexivity|].
  rewrite (H y (or_introl eq_refl)). apply IH.
  intros z Hz. apply H. right. exact Hz.
Qed.

(** C8.  A created comment in which no command token occurs: the handler
    returns at once and leaves the state as it found it, so the trace of
    outbound requests gains nothing, neither a token exchange nor a read
    nor an assistant call nor a post. *)
Theorem handle_issue_comment_without_command
    (cfg : config) (W : world) (payload : issue_comment_event) (st : state) :
  ce_action payload = Some "created"%string ->
  (forall c, In c COMMANDS -> Py.contains c (Py.lower (ce_body payload)) = false) ->
  handle_issue_comment cfg W payload st = (Ok tt, st).
Proof.
  intros Ha Hnone. unfold handle_issue_comment, action_is. rewrite Ha.
  rewrite String.eqb_refl. cbn [negb].
  destruct (member (ce_login payload) SKIP_AUTHORS || Py.endswith "[bot]" (ce_login payload));
    [reflexivity|].
  assert (find_command (ce_body payload) = None) as ->; [|reflexivity].
  unfold find_command. apply find_no_match. intros c Hc. apply Hnone, Hc.
Qed.

Lemma handle_issue_comment_without_command_witness :
  handle_issue_comment cfg_key silent plain_comment boot = (Ok tt, boot).
Proof.
  apply (handle_issue_comment_without_command cfg_key silent plain_comment boot).
  - reflexivity.
  - intros c Hc. simpl in Hc.
    repeat (destruct Hc as [<-|Hc]; [vm_compute; reflexivity|]). destruct Hc.
Defined.

(** ** The signature of a delivery *)

Lemma isascii_app a b :
  Py.isascii (a +:+ b) = Py.isascii a && Py.isascii b.
Proof.
  induction a as [|c a IH]; simpl; [reflexivity|].
  rewrite IH, andb_assoc. reflexivity.
Qed.

Lemma hex_digits_ascii (b : Byte.byte) :
  Py.ascii_char (Hmac.hex_digit (Sha256.Z_of_byte b / 16)) = true
  /\ Py.ascii_char (Hmac.hex_digit (Sha256.Z_of_byte b mod 16)) = true.
Proof. destruct b; vm_compute; split; reflexivity. Qed.

Lemma isascii_hex bs : Py.isascii (Hmac.hex bs) = true.
Proof.
  induction bs as [|b bs IH]; [reflexivity|].
  destruct (hex_digits_ascii b) as [H1 H2].
  cbn [Hmac.hex Py.isascii]. rewrite H1, H2, IH. reflexivity.
Qed.

Lemma isascii_expected cfg payload :
  Py.isascii (expected_signature cfg payload) = true.
Proof.
  unfold expected_signature. rewrite isascii_app.
  unfold Hmac.hexdigest. rewrite isascii_hex. reflexivity.
Qed.

Lemma flip_bit_ascii (c : ascii) :
  Py.ascii_char c = true ->
  Py.ascii_char (flip_bit 7 c) = false
  /\ forall k, 0 <= k < 7 ->
       Py.ascii_char (flip_bit k c) = true /\ flip_bit k c <> c.
Proof.
  intros Hc. split.
  - destruct c as [[] [] [] [] [] [] [] []]; try discriminate Hc; reflexivity.
  - intros k Hk.
    assert (k = 0 \/ k = 1 \/ k = 2 \/ k = 3 \/ k = 4 \/ k = 5 \/ k = 6) as Hcases by lia.
    destruct c as [[] [] [] [] [] [] [] []]; try discriminate Hc;
      decompose [or] Hcases; subst k; (split; [reflexivity | discriminate]).
Qed.

Lemma flip_at_high_bit s i :
  (i < String.length s)%nat -> Py.isascii s = true ->
  Py.isascii (flip_at i 7 s) = false.
Proof.
  revert i. induction s as [|c r IH]; intros i Hi Hs; simpl in Hi; [lia|].
  simpl in Hs. apply andb_true_iff in Hs as [Hc Hr].
  destruct i as [|i]; simpl.
  - rewrite (proj1 (flip_bit_ascii c Hc)). reflexivity.
  - rewrite Hc, (IH i); [reflexivity | lia | exact Hr].
Qed.

Lemma flip_at_low_bit s i k :
  (i < String.length s)%nat -> 0 <= k < 7 -> Py.isascii s = true ->
  Py.isascii (flip_at i k s) = true /\ flip_at i k s <> s.
Proof.
  revert i. induction s as [|c r IH]; intros i Hi Hk Hs; simpl in Hi; [lia|].
  simpl in Hs. apply andb_true_iff in Hs as [Hc Hr].
  destruct i as [|i]; simpl.
  - destruct (proj2 (flip_bit_ascii c Hc) k Hk) as [H1 H2].
    rewrite H1, Hr. split; [reflexivity | congruence].
  - destruct (IH i) as [H1 H2]; [lia | exact Hk | exact Hr |].
    rewrite Hc, H1. split; [reflexivity | congruence].
Qed.

Section Signature.

Context (cfg : config) (W : world).
Hypothesis configured : WEBHOOK_SECRET cfg <> EmptyString.

Lemma secret_configured : String.eqb (WEBHOOK_SECRET cfg) "" = false.
Proof. apply String.eqb_neq. exact configured. Qed.

(** The header the host computes is accepted. *)
Lemma verify_signature_accepts payload :
  verify_signature cfg payload (Some (expected_signature cfg payload)) = Ok true.
Proof.
  unfold verify_signature, Hmac.compare_digest. rewrite secret_configured.
  cbn [text_or_empty]. rewrite isascii_expected, String.eqb_refl. reflexivity.
Qed.

(** Any other header made of ASCII characters is refused. *)
Lemma verify_signature_refuses payload sig :
  Py.isascii sig = true -> sig <> expected_signature cfg payload ->
  verify_signature cfg payload (Some sig) = Ok false.
Proof.
  intros Ha Hne. unfold verify_signature, Hmac.compare_digest.
  rewrite secret_configured. cbn [text_or_empty].
  rewrite isascii_expected, Ha.
  assert (String.eqb (expected_signature cfg payload) sig = false) as ->;
    [apply String.eqb_neq; congruence | reflexivity].
Qed.

(** A header with a character outside ASCII makes the comparison raise. *)
Lemma verify_signature_raises payload sig :
  Py.isascii sig = false ->
  verify_signature cfg payload (Some sig) = Raise TypeError.
Proof.
  intros Ha. unfold verify_signature, Hmac.compare_digest.
  rewrite secret_configured. cbn [text_or_empty].
  rewrite Ha, andb_false_r. reflexivity.
Qed.

(** No header at all is the empty header, and is refused without an
    exception. *)
Lemma verify_signature_missing payload :
  verify_signature cfg payload None = Ok false
  /\ verify_signature cfg payload (Some EmptyString) = Ok false.
Proof.
  assert (verify_signature cfg payload (Some EmptyString) = Ok false) as H.
  { apply verify_signature_refuses; [reflexivity|].
    unfold expected_signature. discriminate. }
  split; [exact H | exact H].
Qed.

Lemma webhook_unfold req st :
  webhook cfg W req st
  = match verify_signature cfg (data req) (Some (text_or_empty (signature_header req))) with
    | Ok true => try_except (bind (dispatch cfg W (event req)) (fun _ => ret 200))
                            (fun _ => ret 500) st
    | Ok false => (Ok 401, st)
    | Raise e => (Raise e, st)
    end.
Proof.
  unfold webhook. rewrite secret_configured. unfold bind at 1, lift.
  destruct (verify_signature _ _ _) as [[|]|e]; reflexivity.
Qed.

(** The three outcomes of [webhook] by the signature header: the expected
    header goes on to the handlers; another ASCII header (a missing one
    counts as empty) is answered 401 with the state untouched; a header
    with a character outside ASCII raises out of the view before any
    handler runs. *)
Lemma webhook_by_header req st :
  (signature_header req = Some (expected_signature cfg (data req)) ->
   webhook cfg W req st
   = try_except (bind (dispatch cfg W (event req)) (fun _ => ret 200))
                (fun _ => ret 500) st)
  /\ (Py.isascii (text_or_empty (signature_header req)) = true ->
      text_or_empty (signature_header req) <> expected_signature cfg (data req) ->
      webhook cfg W req st = (Ok 401, st))
  /\ (Py.isascii (text_or_empty (signature_header req)) = false ->
      webhook cfg W req st = (Raise TypeError, st) /\ serve cfg W req st = (500, st)).
Proof.
  repeat split.
  - intros E. rewrite webhook_unfold, E. cbn [text_or_empty].
    rewrite verify_signature_accepts. reflexivity.
  - intros Ha Hne. rewrite webhook_unfold, verify_signature_refuses; auto.
  - rewrite webhook_unfold, verify_signature_raises; auto.
  - unfold serve. rewrite webhook_unfold, verify_signature_raises; auto.
Qed.

(** One bit of the expected header inverted: the seven low bits of a
    character give another ASCII header and the answer 401; the high bit
    gives a character outside ASCII, and the view raises. *)
Lemma webhook_header_bit_flip body ev i k st :
  (i < String.length (expected_signature cfg body))%nat ->
  let req := Request (Some (flip_at i k (expected_signature cfg body))) body ev in
  (0 <= k < 7 -> webhook cfg W req st = (Ok 401, st))
  /\ (k = 7 -> webhook cfg W req st = (Raise TypeError, st)
               /\ serve cfg W req st = (500, st)).
Proof.
  intros Hi req. split.
  - intros Hk.
    destruct (flip_at_low_bit _ i k Hi Hk (isascii_expected cfg body)) as [H1 H2].
    apply (proj1 (proj2 (webhook_by_header req st))); assumption.
  - intros ->.
    apply (proj2 (proj2 (webhook_by_header req st))).
    apply flip_at_high_bit; [exact Hi | apply isascii_expected].
Qed.

(** The header of one body presented with another: refused as soon as the
    two digests differ. *)
Lemma webhook_other_body body body' ev st :
  Hmac.hexdigest (Py.encode (WEBHOOK_SECRET cfg)) body'
  <> Hmac.hexdigest (Py.encode (WEBHOOK_SECRET cfg)) body ->
  webhook cfg W (Request (Some (expected_signature cfg body)) body' ev) st = (Ok 401, st).
Proof.
  intros Hne.
  apply (proj1 (proj2 (webhook_by_header
                         (Request (Some (expected_signature cfg body)) body' ev) st))).
  - apply isascii_expected.
  - cbn. unfold expected_signature. intros E. apply Hne.
    injection E as E. symmetry. exact E.
Qed.

End Signature.

Lemma cfg_key_configured : WEBHOOK_SECRET cfg_key <> EmptyString.
Proof. discriminate. Qed.

Lemma verify_signature_accepts_witness :
  verify_signature cfg_key fox (Some fox_header) = Ok true.
Proof. exact (verify_signature_accepts cfg_key cfg_key_configured fox). Defined.

Lemma webhook_header_bit_flip_witness :
  webhook cfg_key silent (Request (Some (flip_at 9 0 fox_header)) fox PingDelivery) boot
  = (Ok 401, boot).
Proof.
  apply (proj1 (webhook_header_bit_flip cfg_key silent cfg_key_configured
                  fox PingDelivery 9 0 boot ltac:(vm_compute; lia))).
  lia.
Defined.

Lemma webhook_other_body_witness :
  webhook cfg_key silent (Request (Some fox_header) (Py.encode "The quick brown fox") PingDelivery) boot
  = (Ok 401, boot).
Proof.
  apply (webhook_other_body cfg_key silent cfg_key_configured
           fox (Py.encode "The quick brown fox") PingDelivery boot).
  vm_compute. discriminate.
Defined.

(** C2, at the failing input.  The secret is "key" and the body the pangram,
    so the header the host sends is [fox_header]; it is accepted.  Inverting
    the high bit of its first character, the letter s, gives the character
    U+00F3.  [hmac.compare_digest] compares two [str] only when both are
    ASCII: it raises [TypeError], the exception leaves [webhook], which has
    no handler around the check, and the answer is the server error 500,
    not 401.  No handler has run: the state is untouched. *)
Theorem webhook_high_bit_flip_is_not_401 :
  webhook cfg_key silent (Request (Some fox_header) fox PingDelivery) boot = (Ok 200, boot)
  /\ flip_at 0 7 fox_header
     = String (Py.chr 243) "ha256=f7bc83f430538424b13298e6aa6fb143ef4d59a14946175997479dbc2d1a3cd8"
  /\ webhook cfg_key silent (Request (Some (flip_at 0 7 fox_header)) fox PingDelivery) boot
     = (Raise TypeError, boot)
  /\ serve cfg_key silent (Request (Some (flip_at 0 7 fox_header)) fox PingDelivery) boot
     = (500, boot).
Proof. vm_compute. repeat split; reflexivity. Qed.

(** The part of C10 that holds: with a secret configured, a delivery
    without the signature header is compared as the empty header, nothing
    is raised, and the answer is 401. *)
Lemma webhook_missing_header cfg W (configured : WEBHOOK_SECRET cfg <> EmptyString) body ev st :
  verify_signature cfg body None = Ok false
  /\ webhook cfg W (Request None body ev) st = (Ok 401, st).
Proof.
  split; [apply verify_signature_missing, configured|].
  apply (proj1 (proj2 (webhook_by_header cfg W configured (Request None body ev) st))).
  - reflexivity.
  - cbn. unfold expected_signature. discriminate.
Qed.

Lemma webhook_missing_header_witness :
  webhook cfg_key silent (Request None fox PingDelivery) boot = (Ok 401, boot).
Proof.
  exact (proj2 (webhook_missing_header cfg_key silent cfg_key_configured fox PingDelivery boot)).
Defined.

(** C10, at the failing input.  A signature header holding one character
    outside ASCII, here U+00E9: [verify_signature] raises [TypeError]
    instead of returning, and the exception escapes [webhook]. *)
Theorem verify_signature_raises_on_non_ascii_header :
  verify_signature cfg_key fox (Some ("sha256=caf" +:+ String (Py.chr 233) ""))
  = Raise TypeError
  /\ fst (webhook cfg_key silent
            (Request (Some ("sha256=caf" +:+ String (Py.chr 233) "")) fox PingDelivery) boot)
     = Raise TypeError.
Proof. vm_compute. split; reflexivity. Qed.

(** ** The token cache *)

Section Tokens.

Context (cfg : config) (W : world).

(** What a refresh does. *)
Lemma fetch_installation_token_run id st :
  fetch_installation_token cfg W id st
  = match exchange W (length (trace st)) id with
    | Some tok =>
        (Ok tok,
         State (<[id := CacheEntry tok (clock W (S (ticks st)) + inject_Z (50 * 60))%Q]>
                  (token_cache st))
               (trace st ++ [TokenExchange id (jwt_at cfg (clock W (ticks st)))])
               (S (S (ticks st))))
    | None =>
        (Raise HTTPError,
         State (token_cache st)
               (trace st ++ [TokenExchange id (jwt_at cfg (clock W (ticks st)))])
               (S (ticks st)))
    end.
Proof.
  unfold fetch_installation_token, get_jwt, post_access_tokens, bind, time, send,
    cache_set, ret, raise. cbn.
  destruct (exchange W (length (trace st)) id); reflexivity.
Qed.

(** What a call does, by the state of the cache. *)
Lemma get_installation_token_run id st :
  get_installation_token cfg W id st
  = match token_cache st !! id with
    | Some c =>
        if Qgtb (expires c) (clock W (ticks st) + 60)
        then (Ok (token c), tick st)
        else fetch_installation_token cfg W id (tick st)
    | None => fetch_installation_token cfg W id st
    end.
Proof.
  unfold get_installation_token, bind, cache_get, time, ret. cbn.
  destruct (token_cache st !! id) as [c|]; [|reflexivity].
  cbn. destruct (Qgtb _ _); reflexivity.
Qed.

Lemma Qgtb_true x y : Qgtb x y = true <-> (y < x)%Q.
Proof.
  unfold Qgtb. rewrite negb_true_iff, <- not_true_iff_false, Qle_bool_iff.
  split; [apply Qnot_le_lt | apply Qlt_not_le].
Qed.

Lemma Qgtb_false x y : Qgtb x y = false <-> (x <= y)%Q.
Proof.
  unfold Qgtb. rewrite negb_false_iff, Qle_bool_iff. reflexivity.
Qed.

(** C3.  A call that is answered from the cache, without an exchange,
    returns the cached token of an entry with more than 60 seconds left,
    hence at least 60, and leaves the cache as it was.  A call that finds
    no entry, or an entry with 60 seconds or less left, sends exactly one
    exchange; when the exchange succeeds, the entry of the installation is
    replaced by one built from the new token and the time of its arrival
    alone, and that new token is what the call returns. *)
Theorem get_installation_token_margin id st :
  (forall tok,
      fst (get_installation_token cfg W id st) = Ok tok ->
      trace (snd (get_installation_token cfg W id st)) = trace st ->
      exists c,
        token_cache st !! id = Some c /\ tok = token c
        /\ (60 <= expires c - clock W (ticks st))%Q
        /\ token_cache (snd (get_installation_token cfg W id st)) = token_cache st)
  /\ ((token_cache st !! id = None
       \/ exists c, token_cache st !! id = Some c
                    /\ (expires c - clock W (ticks st) < 60)%Q) ->
      exists app_jwt,
        trace (snd (get_installation_token cfg W id st))
        = trace st ++ [TokenExchange id app_jwt]
        /\ match exchange W (length (trace st)) id with
           | Some tok =>
               fst (get_installation_token cfg W id st) = Ok tok
               /\ exists t,
                    token_cache (snd (get_installation_token cfg W id st))
                    = <[id := CacheEntry tok (t + inject_Z (50 * 60))%Q]> (token_cache st)
           | None =>
               fst (get_installation_token cfg W id st) = Raise HTTPError
               /\ token_cache (snd (get_installation_token cfg W id st)) = token_cache st
           end).
Proof.
  rewrite get_installation_token_run. split.
  - intros tok Hr Htr.
    destruct (token_cache st !! id) as [c|] eqn:Hc.
    + destruct (Qgtb (expires c) (clock W (ticks st) + 60)) eqn:Hg.
      * exists c. cbn in Hr. injection Hr as <-.
        apply Qgtb_true in Hg.
        split; [reflexivity|]. split; [reflexivity|]. split; [lra | reflexivity].
      * exfalso. rewrite fetch_installation_token_run in Htr.
        destruct (exchange W _ id); cbn in Htr;
          apply (f_equal (@length call)) in Htr;
          rewrite length_app in Htr; cbn in Htr; lia.
    + exfalso. rewrite fetch_installation_token_run in Htr.
      destruct (exchange W _ id); cbn in Htr;
        apply (f_equal (@length call)) in Htr;
        rewrite length_app in Htr; cbn in Htr; lia.
  - intros [Hnone | [c [Hc Hlt]]].
    + rewrite Hnone, fetch_installation_token_run.
      exists (jwt_at cfg (clock W (ticks st))).
      destruct (exchange W _ id); cbn; repeat split; eauto.
    + rewrite Hc.
      assert (Qgtb (expires c) (clock W (ticks st) + 60) = false) as ->
        by (apply Qgtb_false; lra).
      rewrite fetch_installation_token_run. cbn.
      exists (jwt_at cfg (clock W (S (ticks st)))).
      destruct (exchange W _ id); cbn; repeat split; eauto.
Qed.

End Tokens.

Lemma get_installation_token_margin_witness :
  (exists c, token_cache warm !! 7 = Some c /\ "ghs_0"%string = token c
             /\ (60 <= expires c - clock (issuing late_clock) (ticks warm))%Q
             /\ token_cache (snd (get_installation_token cfg_key (issuing late_clock) 7 warm))
                = token_cache warm)
  /\ exists app_jwt,
       trace (snd (get_installation_token cfg_key (issuing late_clock) 7 boot))
       = trace boot ++ [TokenExchange 7 app_jwt]
       /\ fst (get_installation_token cfg_key (issuing late_clock) 7 boot) = Ok "ghs_1"%string
       /\ exists t,
            token_cache (snd (get_installation_token cfg_key (issuing late_clock) 7 boot))
            = <[7 := CacheEntry "ghs_1" (t + inject_Z (50 * 60))%Q]> (token_cache boot).
Proof.
  split.
  - apply (proj1 (get_installation_token_margin cfg_key (issuing late_clock) 7 warm)
             "ghs_0"%string); vm_compute; reflexivity.
  - apply (proj2 (get_installation_token_margin cfg_key (issuing late_clock) 7 boot)).
    left. reflexivity.
Defined.

(** ** Two calls in a row *)



Section TwoCalls.

Context (cfg : config) (W : world) (id : Z) (st : state).
Hypothesis miss : token_cache st !! id = None.
Hypothesis issued : exchange W (length (trace st)) id <> None.


End TwoCalls.




(** ** What a computation adds to the trace *)

Section Emits.

Context (P : call -> Prop).

Lemma emits_ret {A} (a : A) : emits P (ret a).
Proof. intros st. exists []. rewrite app_nil_r. split; [reflexivity | constructor]. Qed.

Lemma emits_raise {A} (e : exn) : emits P (@raise A e).
Proof. intros st. exists []. rewrite app_nil_r. split; [reflexivity | constructor]. Qed.

Lemma emits_lift {A} (r : result A) : emits P (lift r).
Proof. intros st. exists []. rewrite app_nil_r. split; [reflexivity | constructor]. Qed.

Lemma emits_bind {A B} (m : M A) (k : A -> M B) :
  emits P m -> (forall a, emits P (k a)) -> emits P (bind m k).
Proof.
  intros Hm Hk st. unfold bind. destruct (Hm st) as [l [El Fl]].
  destruct (m st) as [[a|e] st1]; cbn in El.
  - destruct (Hk a st1) as [l' [El' Fl']].
    exists (l ++ l'). rewrite El', El, app_assoc. split; [reflexivity|].
    apply Forall_app; split; assumption.
  - exists l. split; assumption.
Qed.

Lemma emits_try_except {A} (m : M A) (h : exn -> M A) :
  emits P m -> (forall e, emits P (h e)) -> emits P (try_except m h).
Proof.
  intros Hm Hh st. unfold try_except. destruct (Hm st) as [l [El Fl]].
  destruct (m st) as [[a|e] st1]; cbn in El.
  - exists l. split; assumption.
  - destruct (Hh e st1) as [l' [El' Fl']].
    exists (l ++ l'). rewrite El', El, app_assoc. split; [reflexivity|].
    apply Forall_app; split; assumption.
Qed.

Lemma emits_swallow (m : M unit) : emits P m -> emits P (swallow m).
Proof. intros Hm. apply emits_try_except; [exact Hm | intros e; apply emits_ret]. Qed.

Lemma emits_send (c : call) : P c -> emits P (send c).
Proof.
  intros Hc st. exists [c]. split; [reflexivity|]. constructor; [exact Hc | constructor].
Qed.

Lemma emits_for_each {A} (xs : list A) (body : A -> M unit) :
  (forall x, emits P (body x)) -> emits P (for_each xs body).
Proof.
  intros Hb. induction xs as [|x xs IH]; cbn [for_each].
  - apply emits_ret.
  - apply emits_bind; [apply Hb | intros _; exact IH].
Qed.

Lemma emits_time W : emits P (time W).
Proof. intros st. exists []. rewrite app_nil_r. split; [reflexivity | constructor]. Qed.

Lemma emits_gh_post W path tok d :
  P (GhPost path tok d) -> emits P (gh_post W path tok d).
Proof.
  intros Hc. unfold gh_post. apply emits_bind; [apply emits_send, Hc|].
  intros n. destruct (accept W n _); [apply emits_ret | apply emits_raise].
Qed.

Lemma emits_gh_patch W path tok d :
  P (GhPatch path tok d) -> emits P (gh_patch W path tok d).
Proof.
  intros Hc. unfold gh_patch. apply emits_bind; [apply emits_send, Hc|].
  intros n. destruct (accept W n _); [apply emits_ret | apply emits_raise].
Qed.

Lemma emits_gh_get W path tok :
  P (GhGet path tok) -> emits P (gh_get W path tok).
Proof.
  intros Hc. unfold gh_get. apply emits_bind; [apply emits_send, Hc|].
  intros n. destruct (fetch W n path); [apply emits_ret | apply emits_raise].
Qed.

Lemma emits_groq_ask W p max_tokens fast :
  P (GroqAsk p max_tokens fast) -> emits P (groq_ask W p max_tokens fast).
Proof.
  intros Hc. unfold groq_ask. apply emits_bind; [apply emits_send, Hc|].
  intros n. destruct (complete W n _); [|apply emits_raise].
  destruct (parse_reply W s); [apply emits_ret | apply emits_raise].
Qed.

Lemma emits_groq_text W p max_tokens :
  P (GroqText p max_tokens) -> emits P (groq_text W p max_tokens).
Proof.
  intros Hc. unfold groq_text. apply emits_bind; [apply emits_send, Hc|].
  intros n. destruct (complete W n _); [apply emits_ret | apply emits_raise].
Qed.

Lemma emits_get_installation_token cfg W id :
  (forall app_jwt, P (TokenExchange id app_jwt)) ->
  emits P (get_installation_token cfg W id).
Proof.
  intros Hc st. rewrite get_installation_token_run.
  assert (forall st', exists l,
             trace (snd (fetch_installation_token cfg W id st')) = trace st' ++ l
             /\ Forall P l) as Hfetch.
  { intros st'. rewrite fetch_installation_token_run.
    exists [TokenExchange id (jwt_at cfg (clock W (ticks st')))].
    split; [destruct (exchange W _ id); reflexivity|].
    constructor; [apply Hc | constructor]. }
  destruct (token_cache st !! id) as [c|]; [|apply Hfetch].
  destruct (Qgtb _ _); [|apply (Hfetch (tick st))].
  exists []. rewrite app_nil_r. split; [reflexivity | constructor].
Qed.

End Emits.

Lemma filter_rejects (q : call -> bool) l :
  Forall (fun c => q c = false) l -> filter (fun c => q c) l = [].
Proof.
  induction 1 as [|c l Hc _ IH]; [reflexivity|].
  rewrite filter_cons_False; [exact IH|]. rewrite Hc. exact id.
Qed.

(** A computation that only adds requests rejected by [q] leaves the
    [q]-part of the trace as it was. *)
Lemma emits_filter {A} (q : call -> bool) (m : M A) st :
  emits (fun c => q c = false) m ->
  filter (fun c => q c) (trace (snd (m st))) = filter (fun c => q c) (trace st).
Proof.
  intros Hm. destruct (Hm st) as [l [El Fl]].
  rewrite El, filter_app, (filter_rejects q l Fl), app_nil_r. reflexivity.
Qed.


Ltac emits_step :=
  first
    [ apply emits_ret | apply emits_raise | apply emits_lift | apply emits_time
    | apply emits_gh_post | apply emits_gh_patch | apply emits_gh_get
    | apply emits_groq_ask | apply emits_groq_text
    | apply emits_get_installation_token; intros ?
    | apply emits_swallow
    | apply emits_for_each; intros ?
    | apply emits_try_except; [|intros ?]
    | apply emits_bind; [|intros ?]
    | match goal with
      | |- emits _ (match ?x with _ => _ end) => destruct x
      end
    | reflexivity | exact I | solve [auto] ].

Ltac emits_auto := repeat emits_step.

Section HandlersEmit.

Context (P : call -> Prop) (cfg : config) (W : world).

Lemma emits_ensure_labels repo tok :
  (forall d, P (GhPost (RepoLabels repo) tok d)) ->
  emits P (_ensure_labels W repo tok).
Proof. intros H. unfold _ensure_labels. emits_auto. Qed.

Lemma emits_review_file f :
  (forall p, P (GroqAsk p 800 true)) -> emits P (review_file W f).
Proof. intros H. unfold review_file. emits_auto. Qed.

Lemma emits_review_loop fs acc :
  (forall p, P (GroqAsk p 800 true)) -> emits P (review_loop W fs acc).
Proof.
  intros H. revert acc. induction fs as [|f fs IH]; intros acc; cbn [review_loop].
  - apply emits_ret.
  - apply emits_bind; [apply emits_review_file, H | intros o; apply IH].
Qed.

Lemma emits_run_code_review repo n tok files author :
  (forall p, P (GroqAsk p 800 true)) ->
  (forall path d, P (GhPost path tok d)) ->
  emits P (_run_code_review W repo n tok files author).
Proof.
  intros Hask Hpost. unfold _run_code_review.
  destruct (reviewable files) as [|f fs]; [apply emits_ret|].
  apply emits_bind; [apply emits_review_loop, Hask|].
  intros reviews. destruct reviews; [apply emits_ret|]. emits_auto.
Qed.

End HandlersEmit.

(** ** The review of the changed files *)

Section Review.

Context (W : world).

Lemma review_file_run f st :
  review_file W f st
  = match complete W (length (trace st)) (review_call f) with
    | None => (Raise HTTPError, sent (review_call f) st)
    | Some text =>
        match parse_reply W text with
        | Raise e => (Raise e, sent (review_call f) st)
        | Ok res =>
            match Dyn.get res "score" with
            | Raise e => (Raise e, sent (review_call f) st)
            | Ok score =>
                (Ok (match score with
                     | Some v => if Json.truthy v then Some (filename f, res) else None
                     | None => None
                     end), sent (review_call f) st)
            end
        end
    end.
Proof.
  unfold review_file, groq_ask, bind, send, lift, ret, raise, review_call, sent. cbn.
  destruct (complete W _ _) as [text|]; [|reflexivity].
  destruct (parse_reply W text) as [res|e]; [|reflexivity].
  destruct (Dyn.get res "score") as [score|e]; reflexivity.
Qed.



End Review.

Lemma gh_post_run W path tok d st :
  gh_post W path tok d st
  = (if accept W (length (trace st)) (GhPost path tok d) then Ok tt else Raise HTTPError,
     sent (GhPost path tok d) st).
Proof.
  unfold gh_post, bind, send, ret, raise, sent. cbn.
  destruct (accept W _ _); reflexivity.
Qed.

Lemma gh_patch_run W path tok d st :
  gh_patch W path tok d st
  = (if accept W (length (trace st)) (GhPatch path tok d) then Ok tt else Raise HTTPError,
     sent (GhPatch path tok d) st).
Proof.
  unfold gh_patch, bind, send, ret, raise, sent. cbn.
  destruct (accept W _ _); reflexivity.
Qed.

Lemma run_code_review_unfold W repo n tok files author st :
  _run_code_review W repo n tok files author st
  = match review_loop W (reviewable files) [] st with
    | (Ok reviews, st1) => publish_review W repo n tok reviews st1
    | (Raise e, st1) => (Raise e, st1)
    end.
Proof.
  unfold _run_code_review. destruct (reviewable files) as [|f fs]; reflexivity.
Qed.

Lemma emits_publish_review P W repo n tok reviews :
  (forall path d, P (GhPost path tok d)) ->
  emits P (publish_review W repo n tok reviews).
Proof. intros H. unfold publish_review. destruct reviews; emits_auto. Qed.





(** ** The patch of a pull request *)

Lemma patch_data_object title body d :
  patch_data title body (Json.Obj d)
  = Ok ((if new_title title d
         then match Json.lookup "improved_title" d with
              | Some v => [("title"%string, v)]
              | None => []
              end
         else [])
        ++ (if short_body body
            then [("body"%string,
                   match Json.lookup "description" d with
                   | Some v => v
                   | None => Json.Str body
                   end)]
            else [])).
Proof.
  unfold patch_data, new_title, short_body, Dyn.get_or, Dyn.get, bindR.
  destruct (Json.lookup "improved_title" d) as [v|];
    [destruct (Json.truthy v && negb (Json.eq_str v title))|];
    destruct (String.eqb body "" || (Py.len (Py.strip body) <? 30)); reflexivity.
Qed.

Lemma emits_pr_analyse cfg W payload :
  emits (fun c => is_patch c = false) (pr_analyse cfg W payload).
Proof.
  unfold pr_analyse.
  apply emits_bind; [emits_auto|]. intros tok.
  apply emits_bind; [apply emits_ensure_labels; reflexivity|]. intros _.
  emits_auto.
Qed.

Lemma bind_ok {A B} (m : M A) (k : A -> M B) st a st1 :
  m st = (Ok a, st1) -> bind m k st = k a st1.
Proof. intros E. unfold bind. rewrite E. reflexivity. Qed.

Lemma bind_raise {A B} (m : M A) (k : A -> M B) st e st1 :
  m st = (Raise e, st1) -> bind m k st = (Raise e, st1).
Proof. intros E. unfold bind. rewrite E. reflexivity. Qed.

Lemma swallow_gh_patch W path tok d st :
  swallow (gh_patch W path tok d) st = (Ok tt, sent (GhPatch path tok d) st).
Proof.
  unfold swallow, try_except. rewrite gh_patch_run.
  destruct (accept W _ _); reflexivity.
Qed.

Lemma patches_sent_patch path tok d st :
  patches (trace (sent (GhPatch path tok d) st))
  = patches (trace st) ++ [GhPatch path tok d].
Proof.
  unfold patches, sent. cbn. rewrite filter_app.
  rewrite filter_cons_True by exact I. reflexivity.
Qed.

Lemma handle_pull_request_guards cfg W payload st :
  (pre_action payload = Some "opened"%string \/ pre_action payload = Some "reopened"%string) ->
  member (pr_login (pre_pull_request payload)) SKIP_AUTHORS = false ->
  handle_pull_request cfg W payload st
  = bind (pr_analyse cfg W payload)
         (fun ctx => pr_apply W payload (fst (fst ctx)) (snd (fst ctx)) (snd ctx)) st.
Proof.
  intros Ha Hs. unfold handle_pull_request. rewrite Hs.
  destruct Ha as [-> | ->]; reflexivity.
Qed.

(** After [patch_data] is computed, [pr_apply] sends the patch when the
    dict is not empty and nothing that is a patch afterwards. *)
Lemma pr_apply_patches W payload tok files d st :
  patches (trace (snd (pr_apply W payload tok files (Json.Obj d) st)))
  = patches (trace st)
    ++ match patch_data (pr_title (pre_pull_request payload))
                        (text_or_empty (pr_body (pre_pull_request payload)))
                        (Json.Obj d) with
       | Ok (item :: pd) =>
           [GhPatch (PullPath (pre_repo payload) (pr_number (pre_pull_request payload)))
                    tok (PatchData (item :: pd))]
       | _ => []
       end.
Proof.
  unfold pr_apply. rewrite patch_data_object.
  set (pd := _ ++ _).
  unfold bind at 1, lift at 1.
  match goal with
  | |- context [bind ?m ?k st] =>
      assert (forall u, emits (fun c => is_patch c = false) (k u)) as Hrest
  end.
  { intros u. emits_auto. apply emits_run_code_review; reflexivity. }
  destruct pd as [|item pd].
  - rewrite (bind_ok _ _ st tt st) by reflexivity.
    rewrite app_nil_r. apply (emits_filter is_patch _ st (Hrest tt)).
  - rewrite (bind_ok _ _ st tt _ (swallow_gh_patch W _ tok _ st)).
    unfold patches at 1.
    rewrite (emits_filter is_patch _ _ (Hrest tt)).
    apply patches_sent_patch.
Qed.

(** C5 as stated fails.  The pull request has a body of forty spaces and
    the title the assistant proposes: the body is neither empty nor under
    30 characters and the title does not differ, yet the handler patches
    the body, because it measures the body once stripped. *)
Lemma blank_body_is_patched :
  ~ (patches (trace (snd (handle_pull_request cfg_key same_title_world
                            blank_pull_request boot))) <> []
     <-> spec_patch_condition "Fix login" blank_body same_title_answer = true).
Proof.
  intros [H _].
  assert (spec_patch_condition "Fix login" blank_body same_title_answer = false) as E
    by (vm_compute; reflexivity).
  rewrite E in H. apply diff_false_true. apply H. vm_compute. discriminate.
Qed.

(** The other way round: an empty suggestion differs from the current
    title, but it is falsy and the body is long; nothing is patched. *)
Example empty_suggestion_is_not_patched :
  spec_patch_condition "fix login"
    "This change repairs the login form for users with long names."
    [("improved_title", Json.Str ""); ("description", Json.Str "Summary")]%string = true
  /\ patches (trace (snd (handle_pull_request cfg_key empty_title_world
                            described_pull_request boot))) = [].
Proof. vm_compute. split; reflexivity. Qed.

(** C5, amended.  For an opened or reopened pull request of an author that
    is not excluded, once the token, the files and the assistant's analysis
    are there: the handler sends one patch exactly when the body, stripped
    of surrounding white space, is empty or under 30 characters, or the
    assistant proposes a title that is truthy and differs from the current
    one; otherwise it sends none.  When the body is not short the patch has
    no body field, so a patch of the title alone leaves the body as it is.
    When the analysis is not obtained, no patch is sent. *)
Theorem pull_request_patch_condition cfg W payload st :
  (pre_action payload = Some "opened"%string \/ pre_action payload = Some "reopened"%string) ->
  member (pr_login (pre_pull_request payload)) SKIP_AUTHORS = false ->
  (forall e st1,
      pr_analyse cfg W payload st = (Raise e, st1) ->
      patches (trace (snd (handle_pull_request cfg W payload st))) = patches (trace st))
  /\ (forall tok files d st1,
         pr_analyse cfg W payload st = (Ok (tok, files, Json.Obj d), st1) ->
         exists pd,
           patch_data (pr_title (pre_pull_request payload))
                      (text_or_empty (pr_body (pre_pull_request payload))) (Json.Obj d)
           = Ok pd
           /\ patches (trace (snd (handle_pull_request cfg W payload st)))
              = patches (trace st)
                ++ (if short_body (text_or_empty (pr_body (pre_pull_request payload)))
                       || new_title (pr_title (pre_pull_request payload)) d
                    then [GhPatch (PullPath (pre_repo payload)
                                            (pr_number (pre_pull_request payload)))
                                  tok (PatchData pd)]
                    else [])
           /\ (short_body (text_or_empty (pr_body (pre_pull_request payload))) = false ->
               Json.lookup "body" pd = None)).
Proof.
  intros Ha Hs. rewrite (handle_pull_request_guards cfg W payload st Ha Hs).
  pose proof (emits_filter is_patch (pr_analyse cfg W payload) st
                (emits_pr_analyse cfg W payload)) as Hpre.
  split.
  - intros e st1 E. rewrite (bind_raise _ _ _ _ _ E). rewrite E in Hpre. exact Hpre.
  - intros tok files d st1 E. rewrite (bind_ok _ _ _ _ _ E). rewrite E in Hpre.
    cbn [fst snd] in *. rewrite pr_apply_patches, patch_data_object.
    fold (patches (trace st1)) in Hpre. fold (patches (trace st)) in Hpre. rewrite Hpre.
    eexists. split; [reflexivity|].
    unfold new_title.
    destruct (Json.lookup "improved_title" d) as [v|];
      [destruct (Json.truthy v && negb (Json.eq_str v _))|];
      destruct (short_body _); cbn; (split; [reflexivity | congruence]).
Qed.

Lemma pull_request_patch_condition_witness :
  (exists pd,
      patch_data "Fix login" blank_body (Json.Obj same_title_answer) = Ok pd
      /\ patches (trace (snd (handle_pull_request cfg_key same_title_world
                                blank_pull_request boot)))
         = [GhPatch (PullPath "octo/repo" 12) "ghs_1" (PatchData pd)])
  /\ patches (trace (snd (handle_pull_request cfg_key same_title_world
                            described_pull_request boot)))
     = [GhPatch (PullPath "octo/repo" 12) "ghs_1"
                (PatchData [("title"%string, Json.Str "Fix login")])].
Proof.
  split.
  - destruct (proj2 (pull_request_patch_condition cfg_key same_title_world
                       blank_pull_request boot (or_introl eq_refl) eq_refl)
                "ghs_1"%string (Some []) same_title_answer
                (snd (pr_analyse cfg_key same_title_world blank_pull_request boot))
                ltac:(vm_compute; reflexivity)) as [pd [H1 [H2 _]]].
    exists pd. split; [exact H1 | exact H2].
  - destruct (proj2 (pull_request_patch_condition cfg_key same_title_world
                       described_pull_request boot (or_introl eq_refl) eq_refl)
                "ghs_1"%string (Some []) same_title_answer
                (snd (pr_analyse cfg_key same_title_world described_pull_request boot))
                ltac:(vm_compute; reflexivity)) as [pd [H1 [H2 H3]]].
    vm_compute in H1. injection H1 as <-. exact H2.
Defined.

(** ** The push handler *)

Lemma startswith_refl s : Py.startswith s s = true.
Proof. induction s as [|c s IH]; cbn; [reflexivity|]. rewrite Ascii.eqb_refl. exact IH. Qed.

Lemma endswith_contains p s : Py.endswith p s = true -> Py.contains p s = true.
Proof.
  induction s as [|c s IH]; cbn [Py.endswith Py.contains].
  - rewrite orb_false_r. intros E. apply String.eqb_eq in E. subst p. reflexivity.
  - intros E. apply orb_true_iff in E as [E|E].
    + apply String.eqb_eq in E. subst p. rewrite startswith_refl. reflexivity.
    + rewrite (IH E). apply orb_true_r.
Qed.

Lemma alerts_sent_alert repo tok d st :
  alerts (trace (sent (GhPost (Issues repo) tok d) st))
  = alerts (trace st) ++ [GhPost (Issues repo) tok d].
Proof.
  unfold alerts, sent. cbn. rewrite filter_app.
  rewrite filter_cons_True by exact I. reflexivity.
Qed.

(** C6 as stated fails.  A push to refs/heads/main with three commits that
    are neither conventional nor merges, delivered without an installation
    id: the handler returns at its guard and opens no issue. *)
Lemma push_without_installation_is_silent :
  ~ (length (alerts (trace (snd (handle_push cfg_key (issuing late_clock)
                                   push_without_installation boot)))) = 1%nat
     <-> spec_alert_condition push_without_installation = true).
Proof.
  intros [_ H].
  assert (0 = 1)%nat as E; [|discriminate E].
  apply H. vm_compute. reflexivity.
Qed.

(** The test of the ref is one of containment: a branch whose name only
    begins like main is treated as main. *)
Example push_to_maintenance_alerts :
  alerts (trace (snd (handle_push cfg_key (issuing late_clock) push_to_maintenance boot)))
  = [GhPost (Issues "octo/repo") "ghs_1" (AlertIssue (bad_commits three_bad_commits))].
Proof. vm_compute. reflexivity. Qed.

(** C6, amended.  For a push that carries an installation id, to a ref
    ending in /main or /master, once the installation token is obtained:
    the handler posts one alert issue when at least three of the first ten
    commits are neither conventional nor merges, and none when there are
    fewer, two included.  A push to a ref in which neither /main nor
    /master occurs does nothing at all. *)
Theorem handle_push_alert cfg W payload st :
  (forall id tok st1,
      (Py.endswith "/main" (text_or_empty (pu_ref payload)) = true
       \/ Py.endswith "/master" (text_or_empty (pu_ref payload)) = true) ->
      pu_installation payload = Some id -> id <> 0 ->
      get_installation_token cfg W id st = (Ok tok, st1) ->
      alerts (trace (snd (handle_push cfg W payload st)))
      = alerts (trace st)
        ++ (if 3 <=? Z.of_nat (length (bad_commits (pu_commits payload)))
            then [GhPost (Issues (pu_repo payload)) tok
                         (AlertIssue (bad_commits (pu_commits payload)))]
            else []))
  /\ (Py.contains "/main" (text_or_empty (pu_ref payload)) = false ->
      Py.contains "/master" (text_or_empty (pu_ref payload)) = false ->
      handle_push cfg W payload st = (Ok tt, st)).
Proof.
  split.
  - intros id tok st1 Href Hid Hnz Htok. unfold handle_push.
    assert (existsb (fun b => Py.contains b (text_or_empty (pu_ref payload)))
                    ["/main"; "/master"]%string = true) as ->.
    { cbn [existsb]. destruct Href as [H|H]; rewrite (endswith_contains _ _ H);
        [reflexivity | apply orb_true_r]. }
    cbn [negb]. rewrite Hid.
    assert ((id =? 0) = false) as -> by (apply Z.eqb_neq; exact Hnz).
    pose proof (emits_filter is_alert (get_installation_token cfg W id) st
                  (emits_get_installation_token _ cfg W id (fun _ => eq_refl))) as Hpre.
    rewrite Htok in Hpre. cbn [snd] in Hpre.
    fold (alerts (trace st1)) in Hpre. fold (alerts (trace st)) in Hpre.
    destruct (bad_commits (pu_commits payload)) as [|b bad] eqn:Hbad.
    + cbn. rewrite app_nil_r. reflexivity.
    + rewrite (bind_ok _ _ _ _ _ Htok). unfold swallow, try_except.
      destruct (3 <=? Z.of_nat (length (b :: bad))).
      * rewrite gh_post_run. destruct (accept W _ _); cbn [snd ret];
          unfold ret; cbn [snd]; rewrite alerts_sent_alert, Hpre; reflexivity.
      * cbn. rewrite app_nil_r. exact Hpre.
  - intros H1 H2. unfold handle_push. cbn [existsb]. rewrite H1, H2. reflexivity.
Qed.

Lemma handle_push_alert_witness :
  alerts (trace (snd (handle_push cfg_key (issuing late_clock) push_to_main boot)))
  = [GhPost (Issues "octo/repo") "ghs_1" (AlertIssue (bad_commits three_bad_commits))]
  /\ handle_push cfg_key (issuing late_clock) push_to_feature boot = (Ok tt, boot).
Proof.
  split.
  - apply (proj1 (handle_push_alert cfg_key (issuing late_clock) push_to_main boot)
             99 "ghs_1"%string
             (snd (get_installation_token cfg_key (issuing late_clock) 99 boot))).
    + left. reflexivity.
    + reflexivity.
    + discriminate.
    + vm_compute. reflexivity.
  - apply (proj2 (handle_push_alert cfg_key (issuing late_clock) push_to_feature boot));
      reflexivity.
Defined.

(** ** The dispatch of a command *)

Lemma emits_respond_fix W ctx_title context :
  emits (fun c => only_fix c = true) (respond W "/fix" ctx_title context).
Proof. unfold respond. rewrite String.eqb_refl. emits_auto. Qed.

(** C7.  The command is the first token of COMMANDS, in the order /fix,
    /explain, /improve, /test, /docs, /review, that occurs in the
    lower-cased comment; so a comment holding both /fix and /explain is
    always dispatched as /fix: the handler then calls the assistant with
    the prompt of the fix and with no other prompt. *)
Theorem find_command_first_match_wins (body : string) :
  COMMANDS = ["/fix"; "/explain"; "/improve"; "/test"; "/docs"; "/review"]%string
  /\ (forall pre c post,
        COMMANDS = pre ++ c :: post ->
        Py.contains c (Py.lower body) = true ->
        (forall c', In c' pre -> Py.contains c' (Py.lower body) = false) ->
        find_command body = Some c)
  /\ (Py.contains "/fix" (Py.lower body) = true ->
      Py.contains "/explain" (Py.lower body) = true ->
      find_command body = Some "/fix"%string
      /\ forall cfg W payload,
           ce_body payload = body ->
           emits (fun c => only_fix c = true) (handle_issue_comment cfg W payload)).
Proof.
  split; [reflexivity|]. split.
  - intros pre c post E Hc Hpre. unfold find_command. rewrite E.
    apply find_first_match; assumption.
  - intros Hfix _.
    assert (find_command body = Some "/fix"%string) as Hcmd.
    { unfold find_command, COMMANDS. simpl. rewrite Hfix. reflexivity. }
    split; [exact Hcmd|].
    intros cfg W payload Hbody. unfold handle_issue_comment. rewrite Hbody, Hcmd.
    destruct (negb (action_is (ce_action payload) "created")); [apply emits_ret|].
    destruct (member _ _ || Py.endswith _ _); [apply emits_ret|].
    apply emits_bind; [emits_auto|]. intros tok.
    apply emits_bind; [emits_auto|]. intros ctx.
    apply emits_bind; [apply emits_respond_fix|]. intros r.
    destruct r; emits_auto.
Qed.

Lemma find_command_first_match_wins_witness :
  find_command "Please /explain and then /FIX this" = Some "/fix"%string
  /\ emits (fun c => only_fix c = true)
           (handle_issue_comment cfg_key (issuing late_clock) fix_and_explain).
Proof.
  destruct (proj2 (proj2 (find_command_first_match_wins
                            "Please /explain and then /FIX this"))
              eq_refl eq_refl) as [H1 H2].
  split; [exact H1|].
  apply (H2 cfg_key (issuing late_clock) fix_and_explain). reflexivity.
Defined.

(** * Further properties of the code *)

(** ** The gateway *)

Lemma run_handlers (m : M unit) st :
  try_except (bind m (fun _ => ret 200)) (fun _ => ret 500) st
  = (Ok (status_of (fst (m st))), snd (m st)).
Proof.
  unfold try_except, bind, ret. destruct (m st) as [[u|e] st1]; reflexivity.
Qed.

Lemma webhook_open cfg W req st :
  WEBHOOK_SECRET cfg = EmptyString ->
  webhook cfg W req st
  = (Ok (status_of (fst (dispatch cfg W (event req) st))),
     snd (dispatch cfg W (event req) st)).
Proof.
  intros E. unfold webhook. rewrite E. cbn [String.eqb].
  rewrite (bind_ok _ _ st true st eq_refl). cbn [negb]. apply run_handlers.
Qed.







(** ** The credential manager *)

(** X4.  A call for one installation never touches the entry of another;
    a token it returns is the token the cache holds for the installation
    afterwards; the only exception it raises is the one of the exchange,
    and then the cache is as before; and it sends nothing or one exchange,
    for that installation. *)
Theorem get_installation_token_frame cfg W id st :
  (forall id', id' <> id ->
      token_cache (snd (get_installation_token cfg W id st)) !! id'
      = token_cache st !! id')
  /\ (forall tok,
         fst (get_installation_token cfg W id st) = Ok tok ->
         exists c, token_cache (snd (get_installation_token cfg W id st)) !! id = Some c
                   /\ token c = tok)
  /\ (forall e,
         fst (get_installation_token cfg W id st) = Raise e ->
         e = HTTPError
         /\ token_cache (snd (get_installation_token cfg W id st)) = token_cache st)
  /\ (trace (snd (get_installation_token cfg W id st)) = trace st
      \/ exists app_jwt,
           trace (snd (get_installation_token cfg W id st))
           = trace st ++ [TokenExchange id app_jwt]).
Proof.
  rewrite get_installation_token_run.
  assert (forall st0,
             token_cache st0 = token_cache st -> trace st0 = trace st ->
             (forall id', id' <> id ->
                 token_cache (snd (fetch_installation_token cfg W id st0)) !! id'
                 = token_cache st !! id')
             /\ (forall tok,
                    fst (fetch_installation_token cfg W id st0) = Ok tok ->
                    exists c, token_cache (snd (fetch_installation_token cfg W id st0)) !! id
                              = Some c /\ token c = tok)
             /\ (forall e,
                    fst (fetch_installation_token cfg W id st0) = Raise e ->
                    e = HTTPError
                    /\ token_cache (snd (fetch_installation_token cfg W id st0))
                       = token_cache st)
             /\ (trace (snd (fetch_installation_token cfg W id st0)) = trace st
                 \/ exists app_jwt,
                      trace (snd (fetch_installation_token cfg W id st0))
                      = trace st ++ [TokenExchange id app_jwt])) as Hfetch.
  { intros st0 Hc Ht. rewrite fetch_installation_token_run, Hc, Ht.
    destruct (exchange W _ id) as [tok|]; cbn [fst snd token_cache trace].
    - split; [intros id' Hne; apply lookup_insert_ne; congruence|].
      split; [intros tok' E; injection E as <-; eexists; split;
              [apply lookup_insert_eq | reflexivity]|].
      split; [intros e E; discriminate E|]. right. eauto.
    - split; [reflexivity|]. split; [intros tok E; discriminate E|].
      split; [intros e E; injection E as <-; split; reflexivity|]. right. eauto. }
  destruct (token_cache st !! id) as [c|] eqn:Hc; [|apply Hfetch; reflexivity].
  destruct (Qgtb _ _); [|apply (Hfetch (tick st)); reflexivity].
  cbn [fst snd tick token_cache trace].
  split; [reflexivity|].
  split; [intros tok E; injection E as <-; eauto|].
  split; [intros e E; discriminate E|]. left. reflexivity.
Qed.

(** X5.  Every exchange a call sends carries an assertion issued by the
    App, dated 60 seconds back and expiring 600 seconds ahead, so valid
    for 660 seconds. *)
Theorem exchange_carries_app_assertion cfg W id :
  emits (fun c => match c with
                  | TokenExchange i j => i = id /\ iss j = APP_ID cfg /\ exp j - iat j = 660
                  | _ => False
                  end)
        (get_installation_token cfg W id).
Proof.
  intros st. rewrite get_installation_token_run.
  assert (forall st0, exists l,
             trace (snd (fetch_installation_token cfg W id st0)) = trace st0 ++ l
             /\ Forall (fun c => match c with
                                 | TokenExchange i j =>
                                     i = id /\ iss j = APP_ID cfg /\ exp j - iat j = 660
                                 | _ => False
                                 end) l) as Hfetch.
  { intros st0. rewrite fetch_installation_token_run.
    exists [TokenExchange id (jwt_at cfg (clock W (ticks st0)))].
    split; [destruct (exchange W _ id); reflexivity|].
    constructor; [|constructor].
    split; [reflexivity|]. split; [reflexivity|]. unfold jwt_at. cbn [iat exp]. lia. }
  destruct (token_cache st !! id) as [c|]; [|apply Hfetch].
  destruct (Qgtb _ _); [|apply (Hfetch (tick st))].
  exists []. rewrite app_nil_r. split; [reflexivity | constructor].
Qed.

Lemma get_installation_token_frame_witness :
  token_cache (snd (get_installation_token cfg_key (issuing late_clock) 7 two_tokens)) !! 8
  = Some (CacheEntry "ghs_8" 9000)
  /\ exists c,
       token_cache (snd (get_installation_token cfg_key (issuing late_clock) 7 two_tokens)) !! 7
       = Some c /\ token c = "ghs_1"%string.
Proof.
  destruct (get_installation_token_frame cfg_key (issuing late_clock) 7 two_tokens)
    as [H1 [H2 _]].
  split.
  - rewrite (H1 8); [reflexivity | discriminate].
  - apply H2. vm_compute. reflexivity.
Defined.

(** ** The labels of a repository *)

Lemma swallow_gh_post W path tok d st :
  swallow (gh_post W path tok d) st = (Ok tt, sent (GhPost path tok d) st).
Proof.
  unfold swallow, try_except. rewrite gh_post_run.
  destruct (accept W _ _); reflexivity.
Qed.

Lemma for_each_swallow_post {A} W path tok (f : A -> payload) xs : forall st,
  for_each xs (fun x => swallow (gh_post W path tok (f x))) st
  = (Ok tt,
     State (token_cache st) (trace st ++ map (fun x => GhPost path tok (f x)) xs) (ticks st)).
Proof.
  induction xs as [|x xs IH]; intros st; cbn [for_each map].
  - rewrite app_nil_r. destruct st; reflexivity.
  - rewrite (bind_ok _ _ st tt _ (swallow_gh_post W path tok (f x) st)).
    rewrite IH. unfold sent. cbn [token_cache trace ticks].
    rewrite <- app_assoc. reflexivity.
Qed.

(** X6.  [_ensure_labels] cannot fail.  Whatever the host answers, label
    already there or request refused, it sends the fifteen label requests,
    in the order of the table, to the labels of the repository, and returns
    normally; the cache and the clock are not touched. *)
Theorem ensure_labels_always_completes W repo tok st :
  _ensure_labels W repo tok st
  = (Ok tt, State (token_cache st) (trace st ++ label_posts repo tok) (ticks st))
  /\ length (label_posts repo tok) = 15%nat.
Proof.
  split; [|reflexivity].
  unfold _ensure_labels, label_posts.
  apply (for_each_swallow_post W (RepoLabels repo) tok
           (fun l => LabelDef (fst l) (snd l)) LABELS st).
Qed.

(** ** The guards of the handlers *)

(** X7.  A comment that was not just created, or whose author is one of
    the excluded accounts or any account whose login ends in [bot], is
    left alone even when it holds a command: nothing is sent, nothing
    changes.  The bot does not answer its own replies, which name the
    command they answer. *)
Theorem handle_issue_comment_ignores_bots cfg W payload st :
  ce_action payload <> Some "created"%string
  \/ member (ce_login payload) SKIP_AUTHORS = true
  \/ Py.endswith "[bot]" (ce_login payload) = true ->
  handle_issue_comment cfg W payload st = (Ok tt, st).
Proof.
  intros H. unfold handle_issue_comment.
  destruct (action_is (ce_action payload) "created") eqn:Ha; [|reflexivity].
  cbn [negb].
  destruct H as [H | [H | H]].
  - exfalso. apply H. unfold action_is in Ha.
    destruct (ce_action payload) as [a|]; [|discriminate].
    apply String.eqb_eq in Ha. congruence.
  - rewrite H. reflexivity.
  - rewrite H, orb_true_r. reflexivity.
Qed.

Lemma handle_issue_comment_ignores_bots_witness :
  find_command (ce_body bot_comment) = Some "/fix"%string
  /\ handle_issue_comment cfg_key (issuing late_clock) bot_comment boot = (Ok tt, boot).
Proof.
  split; [reflexivity|].
  apply (handle_issue_comment_ignores_bots cfg_key (issuing late_clock) bot_comment boot).
  right. right. reflexivity.
Defined.

(** X8.  An issue event that is not an opening, or whose author is
    excluded, or that is a pull request in the guise of an issue, is left
    alone: nothing is sent, nothing changes. *)
Theorem handle_issues_guards cfg W payload st :
  ie_action payload <> Some "opened"%string
  \/ member (is_login (ie_issue payload)) SKIP_AUTHORS = true
  \/ is_pull_request (ie_issue payload) = true ->
  handle_issues cfg W payload st = (Ok tt, st).
Proof.
  intros H. unfold handle_issues.
  destruct (action_is (ie_action payload) "opened") eqn:Ha; [|reflexivity].
  cbn [negb].
  destruct H as [H | [H | H]].
  - exfalso. apply H. unfold action_is in Ha.
    destruct (ie_action payload) as [a|]; [|discriminate].
    apply String.eqb_eq in Ha. congruence.
  - rewrite H. reflexivity.
  - rewrite H, orb_true_r. reflexivity.
Qed.

Lemma handle_issues_guards_witness :
  handle_issues cfg_key (issuing late_clock) pull_request_issue boot = (Ok tt, boot).
Proof.
  apply (handle_issues_guards cfg_key (issuing late_clock) pull_request_issue boot).
  right. right. reflexivity.
Defined.

(** X9.  A pull-request event with an action other than opened and
    reopened (an edit, a close, a synchronize), or from an excluded author,
    is left alone: nothing is sent, nothing changes. *)
Theorem handle_pull_request_skips cfg W payload st :
  (pre_action payload <> Some "opened"%string
   /\ pre_action payload <> Some "reopened"%string)
  \/ member (pr_login (pre_pull_request payload)) SKIP_AUTHORS = true ->
  handle_pull_request cfg W payload st = (Ok tt, st).
Proof.
  intros H. unfold handle_pull_request.
  destruct (action_is (pre_action payload) "opened"
            || action_is (pre_action payload) "reopened") eqn:Ha; [|reflexivity].
  cbn [negb].
  destruct H as [[H1 H2] | H].
  - exfalso. unfold action_is in Ha.
    destruct (pre_action payload) as [a|]; [|discriminate].
    apply orb_true_iff in Ha as [Ha|Ha]; apply String.eqb_eq in Ha; congruence.
  - rewrite H. reflexivity.
Qed.

Lemma handle_pull_request_skips_witness :
  handle_pull_request cfg_key (issuing late_clock) dependabot_pull_request boot
  = (Ok tt, boot).
Proof.
  apply (handle_pull_request_skips cfg_key (issuing late_clock)
           dependabot_pull_request boot).
  right. reflexivity.
Defined.

(** ** The second half of the pull-request handler *)

Lemma swallow_run (m : M unit) st : swallow m st = (Ok tt, snd (m st)).
Proof.
  unfold swallow, try_except, ret. destruct (m st) as [[[]|e] st1]; reflexivity.
Qed.

Lemma never_completes_raise {A} e : never_completes (@raise A e).
Proof. intros st. exists e. reflexivity. Qed.

Lemma never_completes_bind {A B} (m : M A) (k : A -> M B) :
  (forall a, never_completes (k a)) -> never_completes (bind m k).
Proof.
  intros Hk st. unfold bind. destruct (m st) as [[a|e] st1].
  - apply Hk.
  - exists e. reflexivity.
Qed.

(** X10.  When the listing of the changed files has failed, the handler
    goes on with no file, but it cannot end well: the review at its end
    reads the variable the failed listing never bound.  So the delivery is
    answered with a server error, whatever was posted before. *)
Theorem pull_request_without_listing_fails cfg W payload st tok res st1 :
  (pre_action payload = Some "opened"%string \/ pre_action payload = Some "reopened"%string) ->
  member (pr_login (pre_pull_request payload)) SKIP_AUTHORS = false ->
  pr_analyse cfg W payload st = (Ok (tok, None, res), st1) ->
  (exists e, fst (handle_pull_request cfg W payload st) = Raise e)
  /\ forall sig body,
       WEBHOOK_SECRET cfg = EmptyString ->
       fst (webhook cfg W (Request sig body (PullRequestDelivery payload)) st) = Ok 500.
Proof.
  intros Ha Hs Hctx.
  assert (exists e, fst (handle_pull_request cfg W payload st) = Raise e) as [e He].
  { rewrite (handle_pull_request_guards cfg W payload st Ha Hs).
    rewrite (bind_ok _ _ _ _ _ Hctx). cbn [fst snd].
    unfold pr_apply.
    repeat (apply never_completes_bind; intros ?).
    apply never_completes_raise. }
  split; [exists e; exact He|].
  intros sig body E. rewrite (webhook_open cfg W _ st E). cbn [event dispatch fst].
  rewrite He. reflexivity.
Qed.

Lemma pull_request_without_listing_fails_witness :
  fst (handle_pull_request cfg_open no_listing blank_pull_request boot)
  = Raise UnboundLocalError
  /\ fst (webhook cfg_open no_listing
            (Request None fox (PullRequestDelivery blank_pull_request)) boot) = Ok 500.
Proof.
  destruct (pull_request_without_listing_fails cfg_open no_listing blank_pull_request boot
              "ghs_1"%string
              (Json.Obj [("improved_title", Json.Str "Fix login");
                         ("risk_level", Json.Str "high")]%string)
              (snd (pr_analyse cfg_open no_listing blank_pull_request boot))
              (or_introl eq_refl) eq_refl ltac:(vm_compute; reflexivity)) as [_ H2].
  split; [vm_compute; reflexivity|].
  apply (H2 None fox). reflexivity.
Defined.

Lemma comment_posts_app tr tr' :
  comment_posts (tr ++ tr') = comment_posts tr ++ comment_posts tr'.
Proof. unfold comment_posts. apply filter_app. Qed.

Lemma dyn_get_or_object d k default :
  Dyn.get_or (Json.Obj d) k default
  = Ok (match Json.lookup k d with Some v => v | None => default end).
Proof. reflexivity. Qed.

Lemma bind_lift_ok {A B} (a : A) (k : A -> M B) st :
  bind (lift (Ok a)) k st = k a st.
Proof. reflexivity. Qed.

Lemma bind_lift_raise {A B} e (k : A -> M B) st :
  bind (lift (Raise e)) k st = (Raise e, st).
Proof. reflexivity. Qed.

(** The state of [pr_apply] when it comes to render the analysis comment:
    after the patch and the labels, whose failures are swallowed. *)
Lemma pr_apply_until_comment W payload tok files d st :
  exists st2 update_note,
    pr_apply W payload tok files (Json.Obj d) st
    = bind (lift (Dyn.hashable (risk_of d))) (fun _ =>
        bind (lift (Dyn.str_method (risk_of d))) (fun _ =>
          analysis_tail W payload tok files d update_note)) st2
    /\ comment_posts (trace st2) = comment_posts (trace st).
Proof.
  unfold pr_apply. rewrite patch_data_object. set (pd := _ ++ _).
  rewrite bind_lift_ok.
  set (patch_step := match pd with [] => ret tt | _ => _ end).
  assert (exists stp, patch_step st = (Ok tt, stp)
                      /\ comment_posts (trace stp) = comment_posts (trace st)) as [stp [Hp Hpc]].
  { unfold patch_step. destruct pd.
    - exists st. split; reflexivity.
    - rewrite swallow_gh_patch. eexists. split; [reflexivity|].
      unfold sent. cbn [trace]. rewrite comment_posts_app. cbn. apply app_nil_r. }
  rewrite (bind_ok _ _ st tt stp Hp).
  rewrite !dyn_get_or_object. fold (risk_of d).
  rewrite !bind_lift_ok.
  set (labels := match Json.lookup "labels" d with Some v => v | None => Json.Arr [] end).
  set (label_step := if Json.truthy labels then _ else _).
  assert (exists stl, label_step stp = (Ok tt, stl)
                      /\ comment_posts (trace stl) = comment_posts (trace st)) as [stl [Hl Hlc]].
  { unfold label_step. destruct (Json.truthy labels).
    - rewrite swallow_gh_post. eexists. split; [reflexivity|].
      unfold sent. cbn [trace]. rewrite comment_posts_app, Hpc. cbn. apply app_nil_r.
    - exists stp. split; [reflexivity | exact Hpc]. }
  rewrite (bind_ok _ _ stp tt stl Hl).
  exists stl. eexists. split; [reflexivity | exact Hlc].
Qed.

Lemma emits_keeps {A} (m : M A) st c :
  emits (fun _ => True) m -> In c (trace st) -> In c (trace (snd (m st))).
Proof.
  intros Hm Hc. destruct (Hm st) as [l [El _]]. rewrite El.
  apply in_or_app. left. exact Hc.
Qed.

Lemma emits_anything {A} (P : call -> Prop) (m : M A) :
  emits P m -> emits (fun _ => True) m.
Proof.
  intros Hm st. destruct (Hm st) as [l [El _]]. exists l. split; [exact El|].
  apply Forall_forall. intros; exact I.
Qed.

(** X11.  The analysis comment is posted exactly when the risk level the
    assistant gave, or the default [low], is a text.  With a text it is
    posted even if the patch and the labels were refused.  With anything
    else (null, a number, a list) the handler raises while building the
    comment, after the patch and the labels were sent, and posts no
    comment at all. *)
Theorem analysis_comment_needs_text_risk W payload tok files d st :
  (is_str (risk_of d) = true ->
   exists update_note,
     In (GhPost (IssueComments (pre_repo payload) (pr_number (pre_pull_request payload)))
           tok
           (CommentBody
              (PrAnalysisComment (risk_of d) (Json.Obj d)
                 (length (match files with
                          | Some fs => map filename (firstn 15 fs)
                          | None => []
                          end))
                 update_note)))
        (trace (snd (pr_apply W payload tok files (Json.Obj d) st))))
  /\ (is_str (risk_of d) = false ->
      (fst (pr_apply W payload tok files (Json.Obj d) st) = Raise TypeError
       \/ fst (pr_apply W payload tok files (Json.Obj d) st) = Raise AttributeError)
      /\ comment_posts (trace (snd (pr_apply W payload tok files (Json.Obj d) st)))
         = comment_posts (trace st)).
Proof.
  destruct (pr_apply_until_comment W payload tok files d st) as [st2 [note [-> Hc]]].
  split.
  - intros Hs. exists note. unfold analysis_tail.
    destruct (risk_of d); try discriminate Hs.
    cbn [Dyn.hashable Dyn.str_method]. rewrite !bind_lift_ok.
    match goal with
    | |- In ?c (trace (snd (bind (gh_post W ?p tok ?data) ?k st2))) =>
        unfold bind; rewrite (gh_post_run W p tok data st2);
        destruct (accept W (length (trace st2)) (GhPost p tok data))
    end.
    + apply emits_keeps.
      * destruct files; [|apply emits_raise].
        apply (emits_anything (fun _ => True)), emits_run_code_review; intros; exact I.
      * unfold sent. cbn [trace]. apply in_or_app. right. left. reflexivity.
    + cbn [snd]. unfold sent. cbn [trace]. apply in_or_app. right. left. reflexivity.
  - intros Hs. destruct (risk_of d); try discriminate Hs; cbn [Dyn.hashable Dyn.str_method];
      rewrite ?bind_lift_ok, ?bind_lift_raise; cbn [fst snd]; (split; [auto | exact Hc]).
Qed.

Lemma analysis_comment_needs_text_risk_witness :
  (exists update_note,
      In (GhPost (IssueComments "octo/repo" 12) "ghs_1"
            (CommentBody
               (PrAnalysisComment (Json.Str "high")
                  (Json.Obj [("improved_title", Json.Str "Fix login");
                             ("risk_level", Json.Str "high")]%string)
                  0 update_note)))
         (trace (snd (pr_apply no_listing blank_pull_request "ghs_1" None
                        (Json.Obj [("improved_title", Json.Str "Fix login");
                                   ("risk_level", Json.Str "high")]%string) boot))))
  /\ comment_posts
       (trace (snd (pr_apply null_risk blank_pull_request "ghs_1" (Some [])
                      (Json.Obj [("improved_title", Json.Str "Fix login");
                                 ("risk_level", Json.Null)]%string) boot)))
     = [].
Proof.
  split.
  - apply (proj1 (analysis_comment_needs_text_risk no_listing blank_pull_request
                    "ghs_1" None
                    [("improved_title", Json.Str "Fix login");
                     ("risk_level", Json.Str "high")]%string boot)).
    reflexivity.
  - apply (proj2 (analysis_comment_needs_text_risk null_risk blank_pull_request
                    "ghs_1" (Some [])
                    [("improved_title", Json.Str "Fix login");
                     ("risk_level", Json.Null)]%string boot)).
    reflexivity.
Defined.

(** ** The cost of a review *)



Lemma review_loop_trace W fs : forall acc st,
  exists k, trace (snd (review_loop W fs acc st)) = trace st ++ map (review_call) (firstn k fs).
Proof.
  induction fs as [|f fs IH]; intros acc st; cbn [review_loop].
  - exists O. cbn. rewrite app_nil_r. reflexivity.
  - unfold bind. rewrite review_file_run.
    assert (forall r, exists k,
               trace (snd (@pair (result (list (string * Json.t))) state r
                                 (sent (review_call f) st)))
               = trace st ++ map review_call (firstn k (f :: fs))) as Hstop.
    { intros r. exists 1%nat. reflexivity. }
    destruct (complete W _ _) as [text|]; [|apply Hstop].
    destruct (parse_reply W text) as [res|e]; [|apply Hstop].
    destruct (Dyn.get res "score") as [score|e]; [|apply Hstop].
    match goal with
    | |- context [review_loop W fs ?a ?s] => destruct (IH a s) as [k Hk]
    end.
    exists (S k). rewrite Hk. unfold sent. cbn [trace firstn map].
    rewrite <- app_assoc. reflexivity.
Qed.

Lemma publish_review_trace W repo n tok reviews st :
  exists posted,
    trace (snd (publish_review W repo n tok reviews st)) = trace st ++ posted
    /\ (length posted <= 2)%nat /\ Forall (fun c => is_write c = true) posted.
Proof.
  unfold publish_review. destruct reviews as [|fr reviews].
  - exists []. rewrite app_nil_r. repeat split; [cbn; lia | constructor].
  - destruct (review_comment (fr :: reviews)) as [cc|e];
      [rewrite bind_lift_ok | rewrite bind_lift_raise].
    + rewrite swallow_run. unfold bind. rewrite gh_post_run.
      destruct (accept W _ _).
      * destruct (snd cc).
        -- rewrite gh_post_run. eexists [_; _]. unfold sent. cbn [snd trace].
           rewrite <- app_assoc. repeat split; [cbn; lia|].
           repeat constructor.
        -- eexists [_]. repeat split; [cbn; lia | repeat constructor].
      * eexists [_]. repeat split; [cbn; lia | repeat constructor].
    + exists []. rewrite app_nil_r. repeat split; [cbn; lia | constructor].
Qed.


(** ** The commits of a push *)

Lemma first_line_no_newline s : Py.contains newline (Py.first_line s) = false.
Proof.
  induction s as [|c s IH]; [reflexivity|].
  cbn [Py.first_line]. destruct (Py.code c =? 10) eqn:Hc; [reflexivity|].
  unfold newline. rewrite contains_char_cons.
  change (Py.contains (String (Py.chr 10) "") (Py.first_line s))
    with (Py.contains newline (Py.first_line s)).
  rewrite IH, orb_false_r.
  apply Ascii.eqb_neq. intros E. subst c. discriminate Hc.
Qed.

Lemma take_length n s : (String.length (Py.take n s) <= n)%nat.
Proof.
  revert s. induction n as [|n IH]; intros [|c s]; cbn; try lia.
  specialize (IH s). lia.
Qed.

(** X13.  The table of the alert never has more than ten rows; each row
    comes from one of the first ten commits, one that is not a merge and
    whose first line does not match the pattern; it shows at most seven
    characters of the commit id and the first line of the message, which
    holds no line feed. *)
Theorem bad_commits_rows commits :
  (length (bad_commits commits) <= 10)%nat
  /\ forall row, In row (bad_commits commits) ->
       exists c, In c (firstn 10 commits)
                 /\ row = (Py.take 7 (commit_id c), Py.first_line (message c))
                 /\ (String.length (fst row) <= 7)%nat
                 /\ Py.contains newline (snd row) = false
                 /\ CONVENTIONAL (snd row) = false
                 /\ Py.startswith "Merge" (message c) = false.
Proof.
  unfold bad_commits. split.
  - rewrite length_map. etransitivity; [apply length_filter|].
    rewrite length_take. lia.
  - intros row H. apply in_map_iff in H as [c [<- Hc]].
    apply list_elem_of_In, list_elem_of_filter in Hc as [Hbad Hin].
    apply Is_true_true in Hbad. unfold is_bad in Hbad.
    apply andb_true_iff in Hbad as [H1 H2].
    apply negb_true_iff in H1. apply negb_true_iff in H2.
    exists c. cbn [fst snd].
    split; [apply list_elem_of_In, Hin|]. split; [reflexivity|].
    split; [apply take_length|]. split; [apply first_line_no_newline|].
    split; assumption.
Qed.

(** ** The pattern of a conventional commit *)

Lemma startswith_ci_lower t' r : startswith_ci (Py.lower t') (t' +:+ r) = true.
Proof.
  induction t' as [|b t' IH]; [reflexivity|].
  change (startswith_ci (Py.lower (String b t')) (String b t' +:+ r))
    with (Ascii.eqb (Py.lower_char b) (Py.lower_char b) && startswith_ci (Py.lower t') (t' +:+ r)).
  rewrite Ascii.eqb_refl. exact IH.
Qed.

Lemma length_lower s : String.length (Py.lower s) = String.length s.
Proof. induction s as [|c s IH]; cbn; [reflexivity | rewrite IH; reflexivity]. Qed.

Lemma drop_app s r : Py.drop (String.length s) (s +:+ r) = r.
Proof. induction s as [|c s IH]; [destruct r; reflexivity | exact IH]. Qed.

Lemma contains_drop p n s : Py.contains p (Py.drop n s) = true -> Py.contains p s = true.
Proof.
  revert s. induction n as [|n IH]; intros s; [destruct s; cbn; auto|].
  destruct s as [|c s]; [cbn; auto|].
  cbn [Py.drop]. intros H. cbn [Py.contains]. rewrite (IH s H). apply orb_true_r.
Qed.

Lemma colon_tail_contains s : colon_tail s = true -> Py.contains ": " s = true.
Proof.
  intros H. destruct s as [|a s]; [discriminate|].
  destruct a as [[] [] [] [] [] [] [] []]; try discriminate H.
  destruct s as [|b s]; [discriminate|].
  destruct b as [[] [] [] [] [] [] [] []]; try discriminate H.
  reflexivity.
Qed.

Lemma bang_tail_contains s : bang_tail s = true -> Py.contains ": " s = true.
Proof.
  unfold bang_tail. intros H. apply orb_true_iff in H as [H|H].
  - apply colon_tail_contains, H.
  - destruct s as [|a r]; [discriminate|].
    destruct (Ascii.eqb_spec a "!"%char) as [->|Ha];
      [|destruct a as [[] [] [] [] [] [] [] []]; try discriminate H; congruence].
    cbn [Py.contains]. rewrite (colon_tail_contains r H). apply orb_true_r.
Qed.

Lemma scope_close_contains s : scope_close s = true -> Py.contains ": " s = true.
Proof.
  induction s as [|c s IH]; [discriminate|].
  cbn [scope_close]. intros H. cbn [Py.contains].
  apply orb_true_iff in H as [H|H]; apply andb_true_iff in H as [_ H].
  - rewrite (bang_tail_contains s H). apply orb_true_r.
  - rewrite (IH H). apply orb_true_r.
Qed.

Lemma scope_tail_contains s : scope_tail s = true -> Py.contains ": " s = true.
Proof.
  intros H.
  assert (bang_tail s = true \/ exists c r, s = String "(" (String c r)
                                           /\ scope_close r = true) as [Hb | [c [r [-> Hc]]]].
  { destruct s as [|a s]; [left; exact H|].
    destruct a as [[] [] [] [] [] [] [] []]; try (left; exact H).
    destruct s as [|c r]; [left; exact H|].
    cbn [scope_tail] in H. apply orb_true_iff in H as [H|H]; [|left; exact H].
    apply andb_true_iff in H as [_ H]. right. eauto. }
  - apply bang_tail_contains, Hb.
  - cbn [Py.contains]. apply orb_true_iff. right.
    cbn [Py.contains]. rewrite (scope_close_contains r Hc). apply orb_true_r.
Qed.

Lemma scope_close_closes scope tail :
  every dot scope = true -> bang_tail tail = true ->
  scope_close (scope +:+ ")" +:+ tail) = true.
Proof.
  intros Hs Ht. induction scope as [|c scope IH].
  - change (scope_close (String ")" tail) = true).
    cbn [scope_close]. rewrite Ht. reflexivity.
  - cbn [every] in Hs. apply andb_true_iff in Hs as [Hc Hs].
    change (String c scope +:+ ")" +:+ tail) with (String c (scope +:+ ")" +:+ tail)).
    cbn [scope_close]. rewrite Hc, (IH Hs). apply orb_true_r.
Qed.

Lemma conventional_by_type t' rest :
  In (Py.lower t') TYPES -> scope_tail rest = true -> CONVENTIONAL (t' +:+ rest) = true.
Proof.
  intros Hin Hr. unfold CONVENTIONAL. apply existsb_exists.
  exists (Py.lower t'). split; [exact Hin|].
  rewrite startswith_ci_lower, length_lower, drop_app. exact Hr.
Qed.

(** X14.  What the pattern of the push handler accepts and what it asks
    for.  A first line made of a type of the list in any mix of capitals, an
    optional scope in parentheses that is not empty, an optional
    exclamation mark, a colon, a space and a description of at least one
    character is conventional.  And no line is conventional without a
    colon followed by a space. *)
Theorem conventional_shape :
  (forall t' bang c d,
      In (Py.lower t') TYPES -> bang = EmptyString \/ bang = "!"%string -> dot c = true ->
      CONVENTIONAL (t' +:+ bang +:+ ": " +:+ String c d) = true)
  /\ (forall t' a scope bang c d,
         In (Py.lower t') TYPES -> every dot (String a scope) = true ->
         bang = EmptyString \/ bang = "!"%string -> dot c = true ->
         CONVENTIONAL (t' +:+ "(" +:+ String a scope +:+ ")" +:+ bang +:+ ": " +:+ String c d)
         = true)
  /\ (forall line, CONVENTIONAL line = true -> Py.contains ": " line = true).
Proof.
  assert (forall bang c d, bang = EmptyString \/ bang = "!"%string -> dot c = true ->
                           bang_tail (bang +:+ ": " +:+ String c d) = true) as Hbang.
  { intros bang c d [-> | ->] Hc.
    - change (bang_tail (String ":" (String " " (String c d))) = true).
      unfold bang_tail. cbn [colon_tail]. rewrite Hc. reflexivity.
    - change (bang_tail (String "!" (String ":" (String " " (String c d)))) = true).
      unfold bang_tail. cbn [colon_tail]. rewrite Hc. reflexivity. }
  split; [|split].
  - intros t' bang c d Hin Hb Hc. apply conventional_by_type; [exact Hin|].
    specialize (Hbang bang c d Hb Hc).
    unfold scope_tail. destruct Hb as [-> | ->]; exact Hbang.
  - intros t' a scope bang c d Hin Hs Hb Hc. apply conventional_by_type; [exact Hin|].
    cbn [every] in Hs. apply andb_true_iff in Hs as [Ha Hs].
    change ("(" +:+ String a scope +:+ ")" +:+ bang +:+ ": " +:+ String c d)
      with (String "(" (String a (scope +:+ ")" +:+ bang +:+ ": " +:+ String c d))).
    cbn [scope_tail]. rewrite Ha, (scope_close_closes scope _ Hs (Hbang bang c d Hb Hc)).
    reflexivity.
  - intros line H. unfold CONVENTIONAL in H. apply existsb_exists in H as [t [_ H]].
    apply andb_true_iff in H as [_ H].
    eapply contains_drop, scope_tail_contains, H.
Qed.

Lemma conventional_shape_witness :
  CONVENTIONAL "Feat!: drop the old API" = true
  /\ CONVENTIONAL "FIX(auth): refresh the token" = true
  /\ Py.contains ": " "fix(auth): refresh the token" = true.
Proof.
  destruct conventional_shape as [H1 [H2 H3]].
  split; [|split].
  - apply (H1 "Feat"%string "!"%string "d"%char "rop the old API"%string);
      [vm_compute; tauto | right; reflexivity | reflexivity].
  - apply (H2 "FIX"%string "a"%char "uth"%string EmptyString "r"%char "efresh the token"%string);
      [vm_compute; tauto | reflexivity | left; reflexivity | reflexivity].
  - apply H3. reflexivity.
Defined.

(** ** Where a command is recognised *)

Lemma lower_app a b : Py.lower (a +:+ b) = Py.lower a +:+ Py.lower b.
Proof.
  induction a as [|c a IH]; [reflexivity|].
  change (Py.lower (String c (a +:+ b)) = String (Py.lower_char c) (Py.lower a +:+ Py.lower b)).
  cbn [Py.lower]. rewrite IH. reflexivity.
Qed.

Lemma startswith_app p r : Py.startswith p (p +:+ r) = true.
Proof.
  induction p as [|c p IH]; [reflexivity|].
  change (Ascii.eqb c c && Py.startswith p (p +:+ r) = true).
  rewrite Ascii.eqb_refl. exact IH.
Qed.

Lemma contains_app pre p post : Py.contains p (pre +:+ p +:+ post) = true.
Proof.
  induction pre as [|c pre IH].
  - change (Py.contains p (p +:+ post) = true).
    destruct p as [|a p]; [destruct post; reflexivity|].
    change (Py.startswith (String a p) (String a p +:+ post)
            || Py.contains (String a p) (p +:+ post) = true).
    rewrite startswith_app. reflexivity.
  - change (Py.contains p (String c (pre +:+ p +:+ post)) = true).
    cbn [Py.contains]. rewrite IH. apply orb_true_r.
Qed.

(** X15.  A command is recognised wherever its token occurs in the
    comment, in any mix of capitals and whatever stands before or after
    it, be it the middle of a word or of an address: the handler then
    acts on a command of the list that occurs in the lower-cased
    comment. *)
Theorem find_command_anywhere pre w post :
  In (Py.lower w) COMMANDS ->
  exists cmd, find_command (pre +:+ w +:+ post) = Some cmd
              /\ In cmd COMMANDS
              /\ Py.contains cmd (Py.lower (pre +:+ w +:+ post)) = true.
Proof.
  intros Hin. unfold find_command.
  destruct (find _ COMMANDS) as [cmd|] eqn:E.
  - exists cmd. apply find_some in E as [H1 H2]. auto.
  - exfalso. pose proof (find_none _ _ E _ Hin) as H. cbn beta in H.
    rewrite !lower_app, contains_app in H. discriminate.
Qed.

Lemma find_command_anywhere_witness :
  exists cmd, find_command "see example.org/Fixtures for the data" = Some cmd
              /\ In cmd COMMANDS
              /\ Py.contains cmd (Py.lower "see example.org/Fixtures for the data") = true.
Proof.
  apply (find_command_anywhere "see example.org" "/Fix" "tures for the data").
  vm_compute. tauto.
Defined.

(** ** What a delivery costs *)

Lemma calls_app q a b : calls q (a ++ b) = (calls q a + calls q b)%nat.
Proof. unfold calls. rewrite filter_app, length_app. reflexivity. Qed.

Lemma calls_le_length q l : (calls q l <= length l)%nat.
Proof. unfold calls. apply length_filter. Qed.

Lemma calls_rejects q l : Forall (fun c => q c = false) l -> calls q l = O.
Proof. intros H. unfold calls. rewrite (filter_rejects q l H). reflexivity. Qed.

Section Costs.

Context (q : call -> bool).

Lemma costs_le {A} n k (m : M A) : costs q n m -> (n <= k)%nat -> costs q k m.
Proof. intros Hm Hle st. destruct (Hm st) as [l [El Hl]]. exists l. split; [exact El | lia]. Qed.

Lemma costs_emits {A} n (m : M A) : emits (fun c => q c = false) m -> costs q n m.
Proof.
  intros Hm st. destruct (Hm st) as [l [El Fl]]. exists l.
  split; [exact El|]. rewrite (calls_rejects q l Fl). lia.
Qed.

Lemma costs_bind {A B} a b (m : M A) (k : A -> M B) :
  costs q a m -> (forall x, costs q b (k x)) -> costs q (a + b) (bind m k).
Proof.
  intros Hm Hk st. unfold bind. destruct (Hm st) as [l [El Hl]].
  destruct (m st) as [[x|e] st1]; cbn [snd] in El.
  - destruct (Hk x st1) as [l' [El' Hl']].
    exists (l ++ l'). rewrite El', El, app_assoc, calls_app. split; [reflexivity | lia].
  - exists l. split; [exact El | lia].
Qed.

Lemma costs_bind0 {A B} n (m : M A) (k : A -> M B) :
  emits (fun c => q c = false) m -> (forall x, costs q n (k x)) -> costs q n (bind m k).
Proof. intros Hm Hk. apply (costs_bind 0 n); [apply costs_emits, Hm | exact Hk]. Qed.

Lemma costs_bind1 {A B} n (m : M A) (k : A -> M B) :
  costs q 1 m -> (forall x, costs q n (k x)) -> costs q (S n) (bind m k).
Proof. intros Hm Hk. apply (costs_bind 1 n); assumption. Qed.

Lemma costs_then {A B} n (m : M A) (k : A -> M B) :
  costs q n m -> (forall x, emits (fun c => q c = false) (k x)) -> costs q n (bind m k).
Proof.
  intros Hm Hk. apply (costs_le (n + 0) n); [|lia].
  apply costs_bind; [exact Hm | intros x; apply costs_emits, Hk].
Qed.

Lemma costs_try_ret {A} n (m : M A) (h : exn -> M A) :
  costs q n m -> (forall e, emits (fun c => q c = false) (h e)) ->
  costs q n (try_except m h).
Proof.
  intros Hm Hh st. unfold try_except. destruct (Hm st) as [l [El Hl]].
  destruct (m st) as [[x|e] st1]; cbn [snd] in El.
  - exists l. split; assumption.
  - destruct (Hh e st1) as [l' [El' Fl']].
    exists (l ++ l'). rewrite El', El, app_assoc, calls_app, (calls_rejects q l' Fl').
    split; [reflexivity | lia].
Qed.

Lemma costs_swallow n (m : M unit) : costs q n m -> costs q n (swallow m).
Proof. intros Hm. apply costs_try_ret; [exact Hm | intros e; apply emits_ret]. Qed.

Lemma costs_send n c : costs q (S n) (send c).
Proof.
  intros st. exists [c]. split; [reflexivity|].
  pose proof (calls_le_length q [c]) as H. cbn [length] in H. lia.
Qed.

Lemma costs_gh_post W n path tok d : costs q (S n) (gh_post W path tok d).
Proof.
  unfold gh_post. apply costs_then; [apply costs_send|].
  intros k. destruct (accept W k _); [apply emits_ret | apply emits_raise].
Qed.

Lemma costs_gh_patch W n path tok d : costs q (S n) (gh_patch W path tok d).
Proof.
  unfold gh_patch. apply costs_then; [apply costs_send|].
  intros k. destruct (accept W k _); [apply emits_ret | apply emits_raise].
Qed.

Lemma costs_gh_get W n path tok : costs q (S n) (gh_get W path tok).
Proof.
  unfold gh_get. apply costs_then; [apply costs_send|].
  intros k. destruct (fetch W k path); [apply emits_ret | apply emits_raise].
Qed.

Lemma costs_groq_ask W n p max_tokens fast : costs q (S n) (groq_ask W p max_tokens fast).
Proof.
  unfold groq_ask. apply costs_then; [apply costs_send|].
  intros k. destruct (complete W k _); [|apply emits_raise].
  destruct (parse_reply W s); [apply emits_ret | apply emits_raise].
Qed.

Lemma costs_groq_text W n p max_tokens : costs q (S n) (groq_text W p max_tokens).
Proof.
  unfold groq_text. apply costs_then; [apply costs_send|].
  intros k. destruct (complete W k _); [apply emits_ret | apply emits_raise].
Qed.

Lemma costs_get_installation_token cfg W n id :
  costs q (S n) (get_installation_token cfg W id).
Proof.
  intros st. rewrite get_installation_token_run.
  assert (forall st', exists l,
             trace (snd (fetch_installation_token cfg W id st')) = trace st' ++ l
             /\ (calls q l <= S n)%nat) as Hfetch.
  { intros st'. rewrite fetch_installation_token_run.
    exists [TokenExchange id (jwt_at cfg (clock W (ticks st')))].
    split; [destruct (exchange W _ id); reflexivity|].
    pose proof (calls_le_length q [TokenExchange id (jwt_at cfg (clock W (ticks st')))]) as H.
    cbn [length] in H. lia. }
  destruct (token_cache st !! id) as [c|]; [|apply Hfetch].
  destruct (Qgtb _ _); [|apply (Hfetch (tick st))].
  exists []. rewrite app_nil_r. split; [reflexivity | cbn; lia].
Qed.

Lemma costs_for_each {A} (xs : list A) (body : A -> M unit) :
  (forall x, costs q 1 (body x)) -> costs q (length xs) (for_each xs body).
Proof.
  intros Hb. induction xs as [|x xs IH]; cbn [for_each length].
  - apply costs_emits, emits_ret.
  - apply costs_bind1; [apply Hb | intros _; exact IH].
Qed.

Lemma costs_ensure_labels W repo tok : costs q 15 (_ensure_labels W repo tok).
Proof.
  unfold _ensure_labels. apply (costs_for_each LABELS).
  intros l. apply costs_swallow, costs_gh_post.
Qed.

End Costs.

Lemma run_code_review_calls W repo n tok files author st :
  exists asked posted,
    trace (snd (_run_code_review W repo n tok files author st))
    = trace st ++ map review_call asked ++ posted
    /\ (length asked <= 4)%nat /\ (length posted <= 2)%nat
    /\ Forall (fun c => is_write c = true) posted.
Proof.
  rewrite run_code_review_unfold.
  destruct (review_loop_trace W (reviewable files) [] st) as [k Hk].
  assert (length (firstn k (reviewable files)) <= 4)%nat as Hlen.
  { unfold reviewable. rewrite !length_take. lia. }
  destruct (review_loop W (reviewable files) [] st) as [[reviews|e] st1]; cbn [snd] in Hk.
  - destruct (publish_review_trace W repo n tok reviews st1) as [posted [Hp [Hl Hw]]].
    exists (firstn k (reviewable files)), posted.
    rewrite Hp, Hk, <- app_assoc. auto.
  - exists (firstn k (reviewable files)), []. cbn [snd]. rewrite Hk, app_nil_r.
    repeat split; [exact Hlen | cbn; lia | constructor].
Qed.

Lemma costs_run_code_review_asks W repo n tok files author :
  costs is_assistant 4 (_run_code_review W repo n tok files author).
Proof.
  intros st.
  destruct (run_code_review_calls W repo n tok files author st)
    as [asked [posted [E [Ha [Hp Hw]]]]].
  exists (map review_call asked ++ posted). split; [exact E|].
  rewrite calls_app, (calls_rejects is_assistant posted).
  - pose proof (calls_le_length is_assistant (map review_call asked)) as H.
    rewrite length_map in H. lia.
  - eapply Forall_impl; [exact Hw|]. intros [] Hc; try reflexivity; discriminate.
Qed.

Lemma costs_run_code_review_writes W repo n tok files author :
  costs is_write 2 (_run_code_review W repo n tok files author).
Proof.
  intros st.
  destruct (run_code_review_calls W repo n tok files author st)
    as [asked [posted [E [Ha [Hp Hw]]]]].
  exists (map review_call asked ++ posted). split; [exact E|].
  rewrite calls_app, (calls_rejects is_write (map review_call asked)).
  - pose proof (calls_le_length is_write posted). lia.
  - clear. induction asked as [|f l IH]; cbn [map]; constructor; [reflexivity | exact IH].
Qed.

Ltac emits_more :=
  repeat first
    [ apply emits_ensure_labels; intros ?
    | apply emits_run_code_review; intros ?
    | emits_step ].

Ltac costs_auto :=
  lazymatch goal with
  | |- costs _ _ (match ?x with _ => _ end) => destruct x; costs_auto
  | |- _ =>
      first
        [ solve [apply costs_emits; emits_more]
        | solve [apply costs_gh_post] | solve [apply costs_gh_patch]
        | solve [apply costs_gh_get]
        | solve [apply costs_groq_ask] | solve [apply costs_groq_text]
        | solve [apply costs_get_installation_token]
        | solve [eapply costs_le; [apply costs_run_code_review_asks | lia]]
        | solve [eapply costs_le; [apply costs_run_code_review_writes | lia]]
        | solve [apply costs_swallow; costs_auto]
        | solve [apply costs_try_ret; [costs_auto | intros ?; emits_more]]
        | solve [apply costs_bind0; [emits_more | intros ?; costs_auto]]
        | solve [apply costs_bind1; [costs_auto | intros ?; costs_auto]]
        | solve [apply (costs_bind _ 15); [apply costs_ensure_labels | intros ?; costs_auto]] ]
  end.

Section HandlersCost.

Context (cfg : config) (W : world).

Lemma handle_push_costs p :
  costs is_exchange 1 (handle_push cfg W p)
  /\ costs is_assistant 0 (handle_push cfg W p)
  /\ costs is_write 1 (handle_push cfg W p).
Proof. unfold handle_push. cbv zeta. repeat split; costs_auto. Qed.

Lemma handle_issue_comment_costs p :
  costs is_exchange 1 (handle_issue_comment cfg W p)
  /\ costs is_assistant 1 (handle_issue_comment cfg W p)
  /\ costs is_write 1 (handle_issue_comment cfg W p).
Proof.
  unfold handle_issue_comment, respond. cbv zeta. repeat split; costs_auto.
Qed.

Lemma handle_issues_costs p :
  costs is_exchange 1 (handle_issues cfg W p)
  /\ costs is_assistant 1 (handle_issues cfg W p)
  /\ costs is_write 17 (handle_issues cfg W p).
Proof. unfold handle_issues. cbv zeta. repeat split; costs_auto. Qed.

Lemma handle_pull_request_costs p :
  costs is_exchange 1 (handle_pull_request cfg W p)
  /\ costs is_assistant 5 (handle_pull_request cfg W p)
  /\ costs is_write 20 (handle_pull_request cfg W p).
Proof.
  unfold handle_pull_request, pr_analyse, pr_apply. cbv zeta.
  split; [costs_auto|]. split; [costs_auto|].
  destruct (negb _); [costs_auto|]. destruct (member _ _); [costs_auto|].
  apply (costs_bind _ 15 5); [costs_auto | intros ctx; costs_auto].
Qed.

Lemma dispatch_costs d :
  costs is_exchange 1 (dispatch cfg W d)
  /\ costs is_assistant (fst (budget d)) (dispatch cfg W d)
  /\ costs is_write (snd (budget d)) (dispatch cfg W d).
Proof.
  destruct d; cbn [dispatch budget fst snd];
    try (repeat split; apply costs_emits, emits_ret).
  - apply handle_pull_request_costs.
  - apply handle_issues_costs.
  - apply handle_issue_comment_costs.
  - apply handle_push_costs.
Qed.

Lemma webhook_costs q n req :
  costs q n (dispatch cfg W (event req)) -> costs q n (webhook cfg W req).
Proof.
  intros H. unfold webhook. cbv zeta.
  apply costs_bind0; [destruct (String.eqb _ _); [apply emits_ret | apply emits_lift]|].
  intros valid. destruct (negb valid); [apply costs_emits, emits_ret|].
  apply costs_try_ret; [|intros e; apply emits_ret].
  apply costs_then; [exact H | intros x; apply emits_ret].
Qed.

End HandlersCost.

(** X16.  What one delivery can cost, whatever the outside answers: the
    requests [webhook] adds to the trace hold at most one token exchange;
    at most five questions to the assistant for a pull request, one for an
    issue or a comment, none for a push or any other event; and at most
    twenty writes to the repository for a pull request, seventeen for an
    issue, one for a comment or a push, none for any other event. *)
Theorem webhook_budget cfg W req st :
  exists l,
    trace (snd (webhook cfg W req st)) = trace st ++ l
    /\ (calls is_exchange l <= 1)%nat
    /\ (calls is_assistant l <= fst (budget (event req)))%nat
    /\ (calls is_write l <= snd (budget (event req)))%nat.
Proof.
  destruct (dispatch_costs cfg W (event req)) as [He [Ha Hw]].
  destruct (webhook_costs cfg W _ _ req He st) as [l [El Hl]].
  destruct (webhook_costs cfg W _ _ req Ha st) as [l1 [El1 Hl1]].
  destruct (webhook_costs cfg W _ _ req Hw st) as [l2 [El2 Hl2]].
  rewrite El in El1, El2. apply app_inv_head in El1, El2. subst l1 l2.
  exists l. auto.
Qed.

(** ** The failures of the push handler *)

Lemma token_then_swallow cfg W id (k : string -> M unit) st e :
  fst (bind (get_installation_token cfg W id) (fun tok => swallow (k tok)) st) = Raise e ->
  e = HTTPError
  /\ token_cache (snd (bind (get_installation_token cfg W id)
                            (fun tok => swallow (k tok)) st)) = token_cache st
  /\ exists app_jwt,
       trace (snd (bind (get_installation_token cfg W id)
                        (fun tok => swallow (k tok)) st))
       = trace st ++ [TokenExchange id app_jwt]
       /\ exchange W (length (trace st)) id = None.
Proof.
  unfold bind. rewrite get_installation_token_run.
  destruct (token_cache st !! id) as [c|]; [destruct (Qgtb _ _)|];
    rewrite ?fetch_installation_token_run; cbn [tick trace token_cache ticks].
  - rewrite swallow_run. intros E; discriminate E.
  - destruct (exchange W (length (trace st)) id) as [tok|] eqn:Hx.
    + rewrite swallow_run. intros E; discriminate E.
    + cbn [fst snd token_cache trace]. intros E. injection E as <-. eauto.
  - destruct (exchange W (length (trace st)) id) as [tok|] eqn:Hx.
    + rewrite swallow_run. intros E; discriminate E.
    + cbn [fst snd token_cache trace]. intros E. injection E as <-. eauto.
Qed.

(** X17.  The push handler fails in one way only: the token exchange is
    refused.  It then raises the error of that exchange, having sent the
    exchange and nothing else and left the cache as it was; a refused
    alert is swallowed.  And a push whose first ten commits are all
    conventional or merges does nothing at all, not even an exchange. *)
Theorem handle_push_failure cfg W payload st :
  (forall e,
      fst (handle_push cfg W payload st) = Raise e ->
      e = HTTPError
      /\ token_cache (snd (handle_push cfg W payload st)) = token_cache st
      /\ exists id app_jwt,
           pu_installation payload = Some id
           /\ trace (snd (handle_push cfg W payload st))
              = trace st ++ [TokenExchange id app_jwt]
           /\ exchange W (length (trace st)) id = None)
  /\ (bad_commits (pu_commits payload) = [] ->
      handle_push cfg W payload st = (Ok tt, st)).
Proof.
  unfold handle_push. cbv zeta.
  destruct (negb _); [split; [intros e E; discriminate E | reflexivity]|].
  destruct (pu_installation payload) as [id|];
    [|split; [intros e E; discriminate E | reflexivity]].
  destruct (id =? 0); [split; [intros e E; discriminate E | reflexivity]|].
  destruct (bad_commits (pu_commits payload)) as [|row rows];
    [split; [intros e E; discriminate E | reflexivity]|].
  split; [|intros E; discriminate E].
  intros e E. destruct (token_then_swallow cfg W id _ st e E) as [He [Hc [j [Ht Hx]]]].
  split; [exact He|]. split; [exact Hc|]. exists id, j. auto.
Qed.

Lemma handle_push_failure_witness :
  fst (handle_push cfg_key silent push_to_main boot) = Raise HTTPError
  /\ exists id app_jwt,
       trace (snd (handle_push cfg_key silent push_to_main boot))
       = trace boot ++ [TokenExchange id app_jwt].
Proof.
  split; [reflexivity|].
  destruct (handle_push_failure cfg_key silent push_to_main boot) as [H _].
  destruct (H HTTPError eq_refl) as [_ [_ [id [j [_ [Ht _]]]]]].
  exists id, j. exact Ht.
Defined.

(** ** The code block of a comment *)










(** ** The review command *)

Lemma gh_get_run W path tok st :
  gh_get W path tok st
  = (match fetch W (length (trace st)) path with
     | Some v => Ok v
     | None => Raise HTTPError
     end, sent (GhGet path tok) st).
Proof.
  unfold gh_get, bind, send, ret, raise, sent. cbn.
  destruct (fetch W _ path); reflexivity.
Qed.

(** X19.  The review command only announces a review.  Once the token is
    obtained, the handler reads the issue and posts the comment that says
    a review is on its way, whether the reading succeeded or not, and
    that is all: the assistant is asked nothing and no review is
    started. *)
Theorem review_command_only_announces cfg W payload st tok st1 :
  action_is (ce_action payload) "created" = true ->
  member (ce_login payload) SKIP_AUTHORS || Py.endswith "[bot]" (ce_login payload) = false ->
  find_command (ce_body payload) = Some "/review"%string ->
  get_installation_token cfg W (ce_installation payload) st = (Ok tok, st1) ->
  trace (snd (handle_issue_comment cfg W payload st))
  = trace st1
    ++ [GhGet (IssuePath (ce_repo payload) (ce_issue_number payload)) tok;
        GhPost (IssueComments (ce_repo payload) (ce_issue_number payload)) tok
               (CommentBody (CommandComment "/review" (ce_login payload) ReviewResponse))]
  /\ calls is_assistant (trace (snd (handle_issue_comment cfg W payload st)))
     = calls is_assistant (trace st).
Proof.
  intros Ha Hg Hf Ht.
  assert (trace (snd (handle_issue_comment cfg W payload st))
          = trace st1
            ++ [GhGet (IssuePath (ce_repo payload) (ce_issue_number payload)) tok;
                GhPost (IssueComments (ce_repo payload) (ce_issue_number payload)) tok
                       (CommentBody (CommandComment "/review" (ce_login payload)
                                                    ReviewResponse))]) as E.
  { unfold handle_issue_comment. rewrite Ha, Hg, Hf. cbn [negb]. cbv zeta.
    rewrite (bind_ok _ _ st tok st1 Ht).
    unfold bind at 1, try_except, bind at 1. rewrite gh_get_run.
    destruct (fetch W _ _) as [issue|]; unfold ret; cbv iota beta;
      change (respond W "/review") with (fun (_ _ : string) => @ret (option response) (Some ReviewResponse));
      unfold bind, ret; cbv iota beta; rewrite gh_post_run; cbn [snd sent trace];
      rewrite <- app_assoc; reflexivity. }
  split; [exact E|].
  rewrite E. unfold calls. rewrite filter_app.
  pose proof (emits_filter is_assistant (get_installation_token cfg W (ce_installation payload))
                st (emits_get_installation_token _ cfg W _ (fun _ => eq_refl))) as Hpre.
  rewrite Ht in Hpre. cbn [snd] in Hpre. rewrite Hpre.
  cbn. rewrite app_nil_r. reflexivity.
Qed.

Lemma review_command_only_announces_witness :
  trace (snd (handle_issue_comment cfg_key (issuing late_clock) review_request boot))
  = [TokenExchange 99 (jwt_at cfg_key 0);
     GhGet (IssuePath "octo/repo" 7) "ghs_1";
     GhPost (IssueComments "octo/repo" 7) "ghs_1"
            (CommentBody (CommandComment "/review" "octocat" ReviewResponse))].
Proof.
  destruct (review_command_only_announces cfg_key (issuing late_clock) review_request boot
              "ghs_1"
              (snd (get_installation_token cfg_key (issuing late_clock) 99 boot))
              eq_refl eq_refl eq_refl eq_refl) as [E _].
  rewrite E. reflexivity.
Defined.

(** ** Deliveries that are turned away *)

(** X20.  With a secret configured, a delivery whose signature header is
    made of ASCII characters and is not the expected one, a missing
    header counting as the empty one, is answered 401 before anything
    happens: no handler runs, nothing is sent and the cache is as it
    was. *)
Theorem webhook_refuses_other_headers cfg W req st :
  WEBHOOK_SECRET cfg <> EmptyString ->
  Py.isascii (text_or_empty (signature_header req)) = true ->
  text_or_empty (signature_header req) <> expected_signature cfg (data req) ->
  webhook cfg W req st = (Ok 401, st) /\ serve cfg W req st = (401, st).
Proof.
  intros Hs Ha Hne.
  assert (webhook cfg W req st = (Ok 401, st)) as E
      by (apply (proj1 (proj2 (webhook_by_header cfg W Hs req st))); assumption).
  split; [exact E|]. unfold serve. rewrite E. reflexivity.
Qed.

Lemma webhook_refuses_other_headers_witness :
  serve cfg_key (issuing late_clock) (Request None fox (PushDelivery push_to_main)) boot
  = (401, boot).
Proof.
  apply (webhook_refuses_other_headers cfg_key (issuing late_clock)
           (Request None fox (PushDelivery push_to_main)) boot);
    [discriminate | reflexivity | discriminate].
Defined.

(** ** What the assistant is asked, and what it returns *)

Lemma search_braces_opens text m :
  search_braces text = Some m -> exists r, m = String "{" r.
Proof.
  induction text as [|c text IH]; [discriminate|].
  cbn [search_braces]. destruct (Ascii.eqb_spec c "{"%char) as [->|Hc]; [|exact IH].
  destruct (upto_last_close text) as [m'|]; [|discriminate].
  intros E. injection E as <-. eauto.
Qed.

Lemma loads_brace r v : Json.loads (String "{" r) = Some v -> exists d, v = Json.Obj d.
Proof.
  unfold Json.loads. cbn [Json.skip_ws].
  change (Json.is_ws "{") with false. cbv iota.
  replace (2 * String.length (String "{" r) + 2)%nat
    with (S (2 * String.length (String "{" r) + 1))%nat by lia.
  cbn [Json.value].
  destruct (Json.skip_ws r) as [|c r'] eqn:Hr.
  - destruct (Json.members _ _ _) as [[d rest]|]; [|discriminate].
    destruct (Json.skip_ws rest); [|discriminate]. intros E. injection E as <-. eauto.
  - assert (forall o : option (Json.t * string),
               (o = Some (Json.Obj [], r')
                \/ o = match Json.members (2 * String.length (String "{" r) + 1) []
                                          (String c r') with
                       | Some (d, rest) => Some (Json.Obj d, rest)
                       | None => None
                       end) ->
               match o with
               | Some (v0, r0) => match Json.skip_ws r0 with
                                  | EmptyString => Some v0
                                  | String _ _ => None
                                  end
               | None => None
               end = Some v -> exists d, v = Json.Obj d) as H.
    { intros o [-> | ->].
      - destruct (Json.skip_ws r'); [|discriminate]. intros E. injection E as <-. eauto.
      - destruct (Json.members _ _ _) as [[d rest]|]; [|discriminate].
        destruct (Json.skip_ws rest); [|discriminate]. intros E. injection E as <-. eauto. }
    apply H. destruct c as [[] [] [] [] [] [] [] []]; auto.
Qed.

(** X21.  With a decoder that follows the JSON grammar, what [groq_ask]
    returns is always an object, whatever the assistant wrote: the text
    found between braces starts with a brace, which only an object does,
    and the fallback is an object too.  So reading a key of the result
    never fails for the type of the result. *)
Theorem groq_ask_returns_object W p max_tokens fast st v st1 :
  json_loads W = Json.loads ->
  groq_ask W p max_tokens fast st = (Ok v, st1) ->
  exists d, v = Json.Obj d.
Proof.
  intros HW. unfold groq_ask, bind, send, ret, raise. cbv beta iota.
  destruct (complete W _ _) as [text|]; [|discriminate].
  unfold parse_reply. rewrite HW.
  destruct (search_braces text) as [m|] eqn:Hm.
  - destruct (search_braces_opens text m Hm) as [r ->].
    destruct (Json.loads (String "{" r)) as [v'|] eqn:Hl; [|discriminate].
    intros E. injection E as <- _. apply (loads_brace r v' Hl).
  - intros E. injection E as <- _. eauto.
Qed.

Lemma groq_ask_returns_object_witness :
  exists d,
    fst (groq_ask (answering (dq "Here you are: {'risk_level': 'low'} Bye."))
                  (ExplainPrompt "x") 800 true boot) = Ok (Json.Obj d).
Proof.
  destruct (groq_ask_returns_object
              (answering (dq "Here you are: {'risk_level': 'low'} Bye."))
              (ExplainPrompt "x") 800 true boot
              (Json.Obj [("risk_level", Json.Str "low")]%string)
              (snd (groq_ask (answering (dq "Here you are: {'risk_level': 'low'} Bye."))
                             (ExplainPrompt "x") 800 true boot))
              eq_refl eq_refl) as [d E].
  exists d. rewrite <- E. reflexivity.
Defined.

Lemma or_else_take n s :
  (7 <= n)%nat -> (String.length (or_else (Py.take n s) "(empty)") <= n)%nat.
Proof.
  intros Hn. unfold or_else. destruct (String.eqb _ _); [exact Hn | apply take_length].
Qed.

Ltac bounded_goal :=
  cbn [bounded bounded_prompt];
  first [ exact I | apply take_length | apply or_else_take; lia
        | split; [apply or_else_take; lia | apply take_length] ].

Ltac bounded_auto :=
  repeat first
    [ apply emits_ensure_labels; intros ?
    | emits_step
    | bounded_goal ].

Lemma bounded_review_loop W fs : forall acc, emits bounded (review_loop W fs acc).
Proof.
  induction fs as [|f fs IH]; intros acc; cbn [review_loop]; [apply emits_ret|].
  apply emits_bind; [unfold review_file; cbv zeta; bounded_auto | intros o; apply IH].
Qed.

Lemma bounded_run_code_review W repo n tok files author :
  emits bounded (_run_code_review W repo n tok files author).
Proof.
  unfold _run_code_review. destruct (reviewable files) as [|f fs]; [apply emits_ret|].
  apply emits_bind; [apply bounded_review_loop|].
  intros reviews. apply emits_publish_review. intros path d. exact I.
Qed.

(** X22.  Every question to the assistant is cut to size before it is
    sent, whatever the delivery holds: the body of a pull request to 500
    characters and its patches to 2000, the patch of a reviewed file to
    1500, the body of an issue to 1500, and the context of a command to
    2000. *)
Theorem prompts_are_bounded cfg W req : emits bounded (webhook cfg W req).
Proof.
  unfold webhook, dispatch. cbv zeta.
  apply emits_bind; [destruct (String.eqb _ _); [apply emits_ret | apply emits_lift]|].
  intros valid. destruct (negb valid); [apply emits_ret|].
  apply emits_try_except; [|intros e; apply emits_ret].
  apply emits_bind; [|intros u; apply emits_ret].
  destruct (event req) as [p|p|p|p| | |ev]; try apply emits_ret.
  - unfold handle_pull_request, pr_analyse, pr_apply. cbv zeta.
    repeat first [apply bounded_run_code_review | emits_step | bounded_goal
                 | apply emits_ensure_labels; intros ?].
  - unfold handle_issues. cbv zeta. bounded_auto.
  - unfold handle_issue_comment, respond. cbv zeta. bounded_auto.
  - unfold handle_push. cbv zeta. bounded_auto.
Qed.

(** ** The triage of an issue *)

Lemma ensure_labels_ok W repo tok st :
  _ensure_labels W repo tok st = (Ok tt, snd (_ensure_labels W repo tok st)).
Proof.
  unfold _ensure_labels.
  rewrite (for_each_swallow_post W (RepoLabels repo) tok
             (fun l => LabelDef (fst l) (snd l)) LABELS st).
  reflexivity.
Qed.

Lemma field_str k v v' d :
  is_str (field k (Json.Str v) d) = true -> is_str (field k (Json.Str v') d) = true.
Proof. unfold field. destruct (Json.lookup k d); [exact id | reflexivity]. Qed.

Section Triage.

Context (cfg : config) (W : world) (payload : issues_event).

(** X23.  What the issue handler does with the analysis of the assistant.
    When the labels are a list and the priority, the type and the
    complexity are texts (or absent), it sends the labels with the
    priority label added and then the welcome comment, whether the labels
    were accepted or not; the comment asks the first two questions of the
    list, and only when the analysis says that information is missing and
    the list is not empty.  When the labels are not a list it raises
    before anything is sent: no label and no comment. *)
Theorem handle_issues_triage st tok st1 d st3 :
  action_is (ie_action payload) "opened" = true ->
  member (is_login (ie_issue payload)) SKIP_AUTHORS || is_pull_request (ie_issue payload)
  = false ->
  get_installation_token cfg W (ie_installation payload) st = (Ok tok, st1) ->
  groq_ask W (TriagePrompt (ie_repo payload) (is_title (ie_issue payload))
                (is_login (ie_issue payload))
                (or_else (Py.take 1500 (text_or_empty (is_body (ie_issue payload))))
                         "(empty)"))
           1500 false (snd (_ensure_labels W (ie_repo payload) tok st1))
  = (Ok (Json.Obj d), st3) ->
  (forall items priority qs,
      field "labels" (Json.Arr []) d = Json.Arr items ->
      field "priority" (Json.Str "medium") d = Json.Str priority ->
      is_str (field "type" (Json.Str "") d) = true ->
      is_str (field "complexity" (Json.Str "moderate") d) = true ->
      field "questions" (Json.Arr []) d = Json.Arr qs ->
      trace (snd (handle_issues cfg W payload st))
      = trace st3
        ++ [GhPost (IssueLabels (ie_repo payload) (is_number (ie_issue payload))) tok
                   (TriageLabels items (Json.Str priority));
            GhPost (IssueComments (ie_repo payload) (is_number (ie_issue payload))) tok
                   (CommentBody
                      (TriageComment (Json.Obj d) (Json.Str priority)
                         (if needs_info d && Json.truthy (Json.Arr qs)
                          then Some (Json.Arr (firstn 2 qs)) else None)))])
  /\ (is_arr (field "labels" (Json.Arr []) d) = false ->
      (fst (handle_issues cfg W payload st) = Raise TypeError
       \/ fst (handle_issues cfg W payload st) = Raise AttributeError)
      /\ trace (snd (handle_issues cfg W payload st)) = trace st3).
Proof.
  intros Ha Hg Htok Hask. unfold handle_issues. rewrite Ha. cbn [negb]. cbv zeta.
  rewrite Hg.
  rewrite (bind_ok _ _ st tok st1 Htok).
  rewrite (bind_ok _ _ st1 tt _ (ensure_labels_ok W (ie_repo payload) tok st1)).
  rewrite (bind_ok _ _ _ _ st3 Hask).
  rewrite !dyn_get_or_object. rewrite !bind_lift_ok.
  fold (field "priority" (Json.Str "medium") d) (field "labels" (Json.Arr []) d)
       (field "questions" (Json.Arr []) d) (field "complexity" (Json.Str "moderate") d).
  split.
  - intros items priority qs Hl Hp Ht Hc Hq. rewrite Hl, Hp, Hq.
    cbn [Dyn.hashable]. rewrite !bind_lift_ok.
    rewrite (bind_ok _ _ st3 tt _ (swallow_gh_post W _ tok _ st3)).
    rewrite !bind_lift_ok.
    pose proof (field_str "type" "" "issue" d Ht) as Ht'. unfold field in Ht, Ht'.
    destruct (Json.lookup "type" d) as [[]|]; try discriminate Ht;
      cbn [Dyn.hashable Dyn.str_method]; rewrite !bind_lift_ok;
      (destruct (field "complexity" (Json.Str "moderate") d); try discriminate Hc;
       cbn [Dyn.hashable Dyn.str_method Dyn.get]; rewrite !bind_lift_ok;
       fold (needs_info d);
       (destruct (needs_info d && Json.truthy (Json.Arr qs));
        do 3 (cbn [Dyn.slice Dyn.iterate bindR Dyn.str_method Dyn.hashable];
              rewrite ?bind_lift_ok);
        unfold bind; rewrite gh_post_run; unfold sent; cbn [snd trace];
        rewrite <- app_assoc; reflexivity)).
  - intros Hl.
    destruct (field "priority" (Json.Str "medium") d); cbn [Dyn.hashable];
      rewrite ?bind_lift_ok, ?bind_lift_raise; cbn [fst snd]; auto;
      (destruct (field "labels" (Json.Arr []) d); try discriminate Hl;
       rewrite bind_lift_raise; cbn [fst snd]; auto).
Qed.

End Triage.

Lemma handle_issues_triage_witness :
  trace (snd (handle_issues cfg_key triaging crash_report boot))
  = trace (snd (groq_ask triaging
                  (TriagePrompt "octo/repo" "Crash on start" "octocat" "It crashes.")
                  1500 false
                  (snd (_ensure_labels triaging "octo/repo" "ghs_1"
                          (snd (get_installation_token cfg_key triaging 99 boot))))))
    ++ [GhPost (IssueLabels "octo/repo" 5) "ghs_1"
               (TriageLabels [Json.Str "bug"] (Json.Str "high"));
        GhPost (IssueComments "octo/repo" 5) "ghs_1"
               (CommentBody
                  (TriageComment
                     (Json.Obj [("labels", Json.Arr [Json.Str "bug"]);
                                ("priority", Json.Str "high");
                                ("needs_info", Json.Bool true);
                                ("questions", Json.Arr [Json.Str "Which version?";
                                                        Json.Str "Which OS?";
                                                        Json.Str "Logs?"])]%string)
                     (Json.Str "high")
                     (Some (Json.Arr [Json.Str "Which version?"; Json.Str "Which OS?"]))))]%string.
Proof.
  destruct (handle_issues_triage cfg_key triaging crash_report boot "ghs_1"
              (snd (get_installation_token cfg_key triaging 99 boot))
              [("labels", Json.Arr [Json.Str "bug"]);
               ("priority", Json.Str "high");
               ("needs_info", Json.Bool true);
               ("questions", Json.Arr [Json.Str "Which version?";
                                       Json.Str "Which OS?";
                                       Json.Str "Logs?"])]%string
              (snd (groq_ask triaging
                      (TriagePrompt "octo/repo" "Crash on start" "octocat" "It crashes.")
                      1500 false
                      (snd (_ensure_labels triaging "octo/repo" "ghs_1"
                              (snd (get_installation_token cfg_key triaging 99 boot))))))
              eq_refl eq_refl eq_refl ltac:(vm_compute; reflexivity)) as [H _].
  apply (H [Json.Str "bug"] "high"%string
           [Json.Str "Which version?"; Json.Str "Which OS?"; Json.Str "Logs?"]%string);
    reflexivity.
Defined.
